(** * scrape-web: link discovery and crawl frontier, embedded in Rocq

    A shallow embedding of the Python back end (scraper.py,
    scraper_hybrid.py, scraper_bundle.py, scraper_network.py and
    advanced_scraper.py) together with the properties of its
    specification.

    Conventions.
    - A Python [str] is a [string]: the sequence of the bytes of its UTF-8
      encoding.  The model is exact on ASCII text.  Beyond ASCII,
      [unquote] decodes the bytes of the percent-escapes as UTF-8 with
      replacement, as the library does; the length of a script and of a
      link is counted in characters ([str_len]); the lower-casing of a
      query key with non-ASCII characters is a parameter
      ([unicode_lower]); elsewhere case mapping acts on ASCII letters.
    - A Python [set] of strings is a [gset string].  Iterating over a set
      has no specified order in Python: the order is a parameter
      ([set_iter]) of which only "enumerates the set, each element once"
      is known.
    - Code that can raise returns in [exc]; [try ... except] is
      [try_except].
    - The network, the HTML parser and the headless browser are
      parameters of the functions that use them. *)

From Stdlib Require Import Ascii String List Bool Arith Lia.
From stdpp Require Import gmap strings list sorting pretty.

Set Warnings "-clear-no-such-hyp".

(** ** Exceptions

    An exception has a class and a text, [str(e)].  Of the classes only
    what the handlers of the program tell apart is kept: the timeouts of
    [requests], its other errors, and everything else. *)

Inductive exn_class : Type :=
| Timeout              (* requests.exceptions.Timeout *)
| RequestException     (* any other requests.exceptions.RequestException *)
| OtherException.      (* any other Exception *)

Record exn : Type := mkExn { exn_cls : exn_class; exn_str : string }.

Definition ValueError (msg : string) : exn := mkExn OtherException msg.

Inductive exc (A : Type) : Type :=
| Ok (a : A)
| Raise (e : exn).
Arguments Ok {A} a.
Arguments Raise {A} e.

Definition exc_bind {A B} (m : exc A) (f : A → exc B) : exc B :=
  match m with
  | Ok a => f a
  | Raise e => Raise e
  end.

Notation "'let*' x ':=' m 'in' k" := (exc_bind m (fun x => k))
  (at level 10, x pattern, m at level 100, k at level 200).

(** [try: m except Exception as e: h e] *)
Definition try_except {A} (m : exc A) (h : exn → A) : A :=
  match m with
  | Ok a => a
  | Raise e => h e
  end.

(** a loop whose body can raise *)
Fixpoint foldM {A B} (f : A → B → exc A) (l : list B) (a : A) : exc A :=
  match l with
  | [] => Ok a
  | x :: l' => let* a' := f a x in foldM f l' a'
  end.

(** ** Python [str] methods *)

Module Py.

Definition chr_in (c : ascii) (chars : string) : bool :=
  existsb (Ascii.eqb c) (list_ascii_of_string chars).

Definition is_upper (c : ascii) : bool :=
  (65 <=? nat_of_ascii c) && (nat_of_ascii c <=? 90).
Definition is_lower (c : ascii) : bool :=
  (97 <=? nat_of_ascii c) && (nat_of_ascii c <=? 122).
Definition is_digit (c : ascii) : bool :=
  (48 <=? nat_of_ascii c) && (nat_of_ascii c <=? 57).
Definition is_alpha (c : ascii) : bool := is_upper c || is_lower c.
Definition is_alnum (c : ascii) : bool := is_alpha c || is_digit c.
Definition is_ascii (c : ascii) : bool := nat_of_ascii c <? 128.

Definition lower_chr (c : ascii) : ascii :=
  if is_upper c then ascii_of_nat (nat_of_ascii c + 32) else c.

(** [s.lower()] *)
Fixpoint lower (s : string) : string :=
  match s with
  | EmptyString => EmptyString
  | String c s' => String (lower_chr c) (lower s')
  end.

(** [len(s)]: the number of bytes, which is the number of characters of
    an ASCII text *)
Definition len (s : string) : nat := String.length s.

(** a continuation byte of UTF-8 (10xxxxxx) *)
Definition is_continuation (c : ascii) : bool :=
  (128 <=? nat_of_ascii c) && (nat_of_ascii c <? 192).

(** [len(s)] for a [str] that need not be ASCII: the number of its
    characters.  Each character is encoded by one byte that is not a
    continuation byte, followed by its continuation bytes. *)
Fixpoint str_len (s : string) : nat :=
  match s with
  | EmptyString => 0
  | String c s' => (if is_continuation c then 0 else 1) + str_len s'
  end.

(** [s.startswith(p)] *)
Definition startswith (s p : string) : bool := String.prefix p s.

(** [s[n:]] *)
Fixpoint drop (n : nat) (s : string) : string :=
  match n, s with
  | O, _ => s
  | S _, EmptyString => EmptyString
  | S n', String _ s' => drop n' s'
  end.

(** [s[:n]] *)
Fixpoint take (n : nat) (s : string) : string :=
  match n, s with
  | O, _ => EmptyString
  | S _, EmptyString => EmptyString
  | S n', String c s' => String c (take n' s')
  end.

(** [s.endswith(p)] *)
Definition endswith (s p : string) : bool :=
  (len p <=? len s) && String.eqb (drop (len s - len p) s) p.

(** [sub in s] *)
Fixpoint contains (sub s : string) : bool :=
  String.prefix sub s ||
  match s with
  | EmptyString => false
  | String _ s' => contains sub s'
  end.

(** [s.rstrip(chars)] *)
Fixpoint rstrip (chars : string) (s : string) : string :=
  match s with
  | EmptyString => EmptyString
  | String c s' =>
      match rstrip chars s' with
      | EmptyString => if chr_in c chars then EmptyString else String c EmptyString
      | r => String c r
      end
  end.

(** [s.lstrip(chars)] *)
Fixpoint lstrip (chars : string) (s : string) : string :=
  match s with
  | EmptyString => EmptyString
  | String c s' => if chr_in c chars then lstrip chars s' else s
  end.

(** [s.strip(chars)] *)
Definition strip (chars : string) (s : string) : string :=
  rstrip chars (lstrip chars s).

(** [s.split(sep, 1)] for a one-character [sep] that occurs in [s]:
    the text before the first [sep] and the text after it; [None] when
    [sep] does not occur. *)
Fixpoint split1 (sep : ascii) (s : string) : option (string * string) :=
  match s with
  | EmptyString => None
  | String c s' =>
      if Ascii.eqb c sep then Some (EmptyString, s')
      else match split1 sep s' with
           | Some (a, b) => Some (String c a, b)
           | None => None
           end
  end.

(** [s.split(sep)] for a one-character [sep] *)
Fixpoint split (sep : ascii) (s : string) : list string :=
  match s with
  | EmptyString => [EmptyString]
  | String c s' =>
      if Ascii.eqb c sep then EmptyString :: split sep s'
      else match split sep s' with
           | [] => [String c EmptyString]
           | w :: ws => String c w :: ws
           end
  end.

(** [sep.join(l)] *)
Definition join (sep : string) (l : list string) : string :=
  String.concat sep l.

(** [s.replace(old, new)] for a non-empty [old]: occurrences are
    replaced from left to right and do not overlap.  [skip] counts the
    characters of the occurrence being replaced that are still to be
    passed over. *)
Fixpoint replace_go (old new : string) (skip : nat) (s : string) : string :=
  match s with
  | EmptyString => EmptyString
  | String c s' =>
      match skip with
      | S k => replace_go old new k s'
      | O =>
          if String.prefix old s
          then new +:+ replace_go old new (len old - 1) s'
          else String c (replace_go old new 0 s')
      end
  end.
Definition replace (old new : string) (s : string) : string :=
  replace_go old new 0 s.

(** the characters of [s] that satisfy [p] *)
Fixpoint filter_chr (p : ascii → bool) (s : string) : string :=
  match s with
  | EmptyString => EmptyString
  | String c s' => if p c then String c (filter_chr p s') else filter_chr p s'
  end.

Definition forall_chr (p : ascii → bool) (s : string) : bool :=
  forallb p (list_ascii_of_string s).

(** [s.isascii()] *)
Definition isascii (s : string) : bool := forall_chr is_ascii s.

(** the longest prefix of [s] whose characters satisfy [p], and the rest *)
Fixpoint span (p : ascii → bool) (s : string) : string * string :=
  match s with
  | EmptyString => (EmptyString, EmptyString)
  | String c s' =>
      if p c then let '(a, b) := span p s' in (String c a, b)
      else (EmptyString, s)
  end.

(** [any(p in s for p in patterns)] *)
Definition any_in (patterns : list string) (s : string) : bool :=
  existsb (fun p => contains p s) patterns.

(** [x in l] for a list of strings *)
Definition mem (x : string) (l : list string) : bool :=
  existsb (String.eqb x) l.

(** [c * k] for a character [c] *)
Fixpoint repeat_chr (c : ascii) (k : nat) : string :=
  match k with
  | O => EmptyString
  | S k' => String c (repeat_chr c k')
  end.

End Py.

(** ** JSON values, as [json.loads] builds them *)

#[warnings="-register-all"]
Inductive json : Type :=
| JStr (s : string)
| JDict (items : list (string * json))
| JList (items : list json)
| JOther.               (* a number, a boolean or null *)

(** ** Library behaviour that the model takes as given

    The standard library is modelled after CPython 3.11.  What lies
    outside the byte-string model is a field of [PyLib]; nothing is
    assumed about these fields except the law of [set_iter]. *)

Class PyLib : Type := {
  (** the check [urlsplit] makes of a netloc that has both '[' and ']':
      whether the bracketed host is accepted as an IPv6 or IPvFuture
      address (otherwise [ValueError]) *)
  bracketed_netloc_ok : string → bool;
  (** [urllib.parse._checknetloc] on a netloc with non-ASCII characters:
      whether its NFKC normal form is accepted (otherwise [ValueError]) *)
  nfkc_netloc_ok : string → bool;
  (** [html.unescape] on a text that contains '&' *)
  charref_sub : string → string;
  (** [json.loads(s)]; [None] when it raises *)
  json_loads : string → option json;
  (** [bytes.decode('utf-8', errors='ignore')] *)
  decode_utf8_ignore : string → string;
  (** [str.lower()] on a text that has non-ASCII characters *)
  unicode_lower : string → string;
  (** the order in which a set is iterated *)
  set_iter : gset string → list string;
  set_iter_perm : ∀ s, set_iter s ≡ₚ elements s
}.

(** ** urllib.parse *)

Module Urllib.
Import Py.

(** [SplitResult(scheme, netloc, path, query, fragment)] *)
Record SplitResult : Type := mkSplit {
  s_scheme : string; s_netloc : string; s_path : string;
  s_query : string; s_fragment : string }.

(** [ParseResult(scheme, netloc, path, params, query, fragment)] *)
Record ParseResult : Type := mkParse {
  scheme : string; netloc : string; path : string;
  params : string; query : string; fragment : string }.

Definition uses_relative : list string :=
  [""; "ftp"; "http"; "gopher"; "nntp"; "imap"; "wais"; "file"; "https";
   "shttp"; "mms"; "prospero"; "rtsp"; "rtspu"; "sftp"; "svn"; "svn+ssh";
   "ws"; "wss"].
Definition uses_netloc : list string :=
  [""; "ftp"; "http"; "gopher"; "nntp"; "telnet"; "imap"; "wais"; "file";
   "mms"; "https"; "shttp"; "snews"; "prospero"; "rtsp"; "rtspu"; "rsync";
   "svn"; "svn+ssh"; "sftp"; "nfs"; "git"; "git+ssh"; "ws"; "wss"].
Definition uses_params : list string :=
  [""; "ftp"; "hdl"; "prospero"; "http"; "imap"; "https"; "shttp"; "rtsp";
   "rtspu"; "sip"; "sips"; "mms"; "sftp"; "tel"].

Definition scheme_chars (c : ascii) : bool := is_alnum c || chr_in c "+-.".

(** the characters U+0000 to U+0020 *)
Definition WHATWG_C0_CONTROL_OR_SPACE : string :=
  string_of_list_ascii (map ascii_of_nat (seq 0 33)).

(** tab, carriage return and line feed are removed wherever they are *)
Definition remove_unsafe (s : string) : string :=
  filter_chr (fun c => negb (chr_in c (string_of_list_ascii
    [ascii_of_nat 9; ascii_of_nat 13; ascii_of_nat 10]))) s.

(** [_splitnetloc(url, 2)]: the netloc ends at the first of / ? # *)
Definition splitnetloc (url : string) : string * string :=
  span (fun c => negb (chr_in c "/?#")) (drop 2 url).

Section WithLib.
Context `{PyLib}.

Definition checknetloc (netloc : string) : exc unit :=
  if String.eqb netloc "" || isascii netloc then Ok tt
  else if nfkc_netloc_ok netloc then Ok tt
  else Raise (ValueError "netloc contains invalid characters under NFKC normalization").

(** [urlsplit(url, scheme)] *)
Definition urlsplit (url scheme : string) : exc SplitResult :=
  let url := lstrip WHATWG_C0_CONTROL_OR_SPACE url in
  let scheme := strip WHATWG_C0_CONTROL_OR_SPACE scheme in
  let url := remove_unsafe url in
  let scheme := remove_unsafe scheme in
  let '(scheme, url) :=
    match split1 ":" url with
    | Some (String c0 pre, rest) =>
        if is_ascii c0 && is_alpha c0 && forall_chr scheme_chars (String c0 pre)
        then (lower (String c0 pre), rest)
        else (scheme, url)
    | _ => (scheme, url)
    end in
  let* (netloc, url) :=
    (if startswith url "//" then
       let '(netloc, rest) := splitnetloc url in
       let lb := contains "[" netloc in
       let rb := contains "]" netloc in
       if (lb && negb rb) || (rb && negb lb) then Raise (ValueError "Invalid IPv6 URL")
       else if lb && rb then
         if bracketed_netloc_ok netloc then Ok (netloc, rest)
         else Raise (ValueError "Invalid bracketed host")
       else Ok (netloc, rest)
     else Ok ("", url)) in
  let '(url, fragment) :=
    match split1 "#" url with
    | Some (a, b) => (a, b)
    | None => (url, "")
    end in
  let '(url, query) :=
    match split1 "?" url with
    | Some (a, b) => (a, b)
    | None => (url, "")
    end in
  let* _ := checknetloc netloc in
  Ok (mkSplit scheme netloc url query fragment).

(** [_splitparams(url)]: the parameters start at the first ';' of
    the last path segment *)
Definition splitparams (url : string) : string * string :=
  let segs := split "/" url in
  let last_seg := List.last segs "" in
  match split1 ";" last_seg with
  | Some (a, b) => (join "/" (removelast segs ++ [a]), b)
  | None => (url, "")
  end.

(** [urlparse(url, scheme)] *)
Definition urlparse (url scheme : string) : exc ParseResult :=
  let* sr := urlsplit url scheme in
  let '(url, params) :=
    if mem (s_scheme sr) uses_params && contains ";" (s_path sr)
    then splitparams (s_path sr)
    else (s_path sr, "") in
  Ok (mkParse (s_scheme sr) (s_netloc sr) url params (s_query sr) (s_fragment sr)).
End WithLib.

(** [urlunsplit((scheme, netloc, url, query, fragment))] *)
Definition urlunsplit (scheme netloc url query fragment : string) : string :=
  let url :=
    if negb (String.eqb netloc "")
       || (negb (String.eqb scheme "") && mem scheme uses_netloc
           && negb (startswith url "//"))
    then
      let url := if negb (String.eqb url "") && negb (startswith url "/")
                 then "/" +:+ url else url in
      "//" +:+ netloc +:+ url
    else url in
  let url := if negb (String.eqb scheme "") then scheme +:+ ":" +:+ url else url in
  let url := if negb (String.eqb query "") then url +:+ "?" +:+ query else url in
  let url := if negb (String.eqb fragment "") then url +:+ "#" +:+ fragment else url in
  url.

(** [urlunparse((scheme, netloc, url, params, query, fragment))] *)
Definition urlunparse (scheme netloc url params query fragment : string) : string :=
  let url := if negb (String.eqb params "") then url +:+ ";" +:+ params else url in
  urlunsplit scheme netloc url query fragment.

(** *** Percent-encoding *)

Definition hex_value (c : ascii) : option nat :=
  let n := nat_of_ascii c in
  if is_digit c then Some (n - 48)
  else if (65 <=? n) && (n <=? 70) then Some (n - 55)
  else if (97 <=? n) && (n <=? 102) then Some (n - 87)
  else None.

Definition hex_digit (n : nat) : ascii :=
  if n <? 10 then ascii_of_nat (48 + n) else ascii_of_nat (55 + n).

(** [unquote_to_bytes(s)]: every '%' followed by two hexadecimal digits
    is replaced by the byte they denote; any other '%' stays *)
Fixpoint unquote_go (skip : nat) (s : string) : string :=
  match s with
  | EmptyString => EmptyString
  | String c s' =>
      match skip with
      | S k => unquote_go k s'
      | O =>
          if Ascii.eqb c "%" then
            match s' with
            | String h1 (String h2 _) =>
                match hex_value h1, hex_value h2 with
                | Some a, Some b =>
                    String (ascii_of_nat (16 * a + b)) (unquote_go 2 s')
                | _, _ => String c (unquote_go 0 s')
                end
            | _ => String c (unquote_go 0 s')
            end
          else String c (unquote_go 0 s')
      end
  end.
Definition unquote_to_bytes (s : string) : string := unquote_go 0 s.

(** the number of continuation bytes that follow a first byte: none
    after an ASCII byte; [None] for a byte that cannot start a character
    (80..C1 and F5..FF) *)
Definition utf8_need (c : ascii) : option nat :=
  let n := nat_of_ascii c in
  if n <? 128 then Some 0
  else if n <? 194 then None
  else if n <? 224 then Some 1
  else if n <? 240 then Some 2
  else if n <? 245 then Some 3
  else None.

(** the second byte of a character: a continuation byte, in A0..BF after
    E0, in 80..9F after ED, in 90..BF after F0 and in 80..8F after F4 *)
Definition second_ok (lead c : ascii) : bool :=
  let l := nat_of_ascii lead in
  let n := nat_of_ascii c in
  is_continuation c
  && (if l =? 224 then 160 <=? n else true)
  && (if l =? 237 then n <? 160 else true)
  && (if l =? 240 then 144 <=? n else true)
  && (if l =? 244 then n <? 144 else true).

(** how many of the [k] bytes that a character still needs are at the
    start of [s] *)
Fixpoint valid_tail (first : bool) (lead : ascii) (k : nat) (s : string) : nat :=
  match k, s with
  | S k', String c s' =>
      if (if first then second_ok lead c else is_continuation c)
      then S (valid_tail false lead k' s')
      else 0
  | _, _ => 0
  end.

(** U+FFFD, the replacement character *)
Definition replacement : string :=
  string_of_list_ascii (map ascii_of_nat [239; 191; 189]).

(** [bytes.decode('utf-8', errors='replace')], the result encoded again:
    a well-formed character is kept; a byte that cannot start a
    character becomes U+FFFD, and so does a first byte together with the
    continuation bytes that follow it when these are too few.  [copy]
    counts the bytes of the current character still to be kept, [drop]
    the bytes of the current error still to be passed over. *)
Fixpoint decode_go (copy drop : nat) (s : string) : string :=
  match s with
  | EmptyString => EmptyString
  | String c s' =>
      match copy with
      | S j => String c (decode_go j 0 s')
      | O =>
          match drop with
          | S j => decode_go 0 j s'
          | O =>
              match utf8_need c with
              | Some O => String c (decode_go 0 0 s')
              | Some k =>
                  let m := valid_tail true c k s' in
                  if m =? k then String c (decode_go k 0 s')
                  else replacement +:+ decode_go 0 m s'
              | None => replacement +:+ decode_go 0 0 s'
              end
          end
      end
  end.
Definition decode_utf8_replace (s : string) : string := decode_go 0 0 s.

(** the loop of [unquote] over the pieces of [_asciire.split(string)]:
    a run of ASCII characters is unquoted to bytes and these are
    decoded, the characters between the runs are kept; [run] is the
    ASCII run read so far *)
Fixpoint unquote_runs (run : string) (s : string) : string :=
  match s with
  | EmptyString => decode_utf8_replace (unquote_to_bytes run)
  | String c s' =>
      if is_ascii c then unquote_runs (run +:+ String c EmptyString) s'
      else decode_utf8_replace (unquote_to_bytes run)
           +:+ String c (unquote_runs EmptyString s')
  end.

(** [unquote(string)], with encoding='utf-8' and errors='replace' *)
Definition unquote (s : string) : string :=
  if negb (contains "%" s) then s else unquote_runs EmptyString s.

(** the bytes [quote] never escapes: letters, digits and [_.-~] *)
Definition always_safe (c : ascii) : bool := is_alnum c || chr_in c "_.-~".

(** [quote_plus(s, safe='')]: a space becomes '+', any other byte that
    is not always safe becomes %XX with upper-case digits *)
Fixpoint quote_plus (s : string) : string :=
  match s with
  | EmptyString => EmptyString
  | String c s' =>
      if always_safe c then String c (quote_plus s')
      else if Ascii.eqb c " " then String "+" (quote_plus s')
      else String "%" (String (hex_digit (nat_of_ascii c / 16))
             (String (hex_digit (nat_of_ascii c mod 16)) (quote_plus s')))
  end.

(** *** Query strings *)

(** [parse_qsl(qs, keep_blank_values=True)], separator '&' *)
Definition parse_qsl (qs : string) : list (string * string) :=
  let query_args := if String.eqb qs "" then [] else split "&" qs in
  flat_map (fun name_value =>
    if String.eqb name_value "" then []
    else
      let '(n, v) := match split1 "=" name_value with
                     | Some (n, v) => (n, v)
                     | None => (name_value, "")
                     end in
      [(unquote (replace "+" " " n), unquote (replace "+" " " v))])
    query_args.

(** a [dict] from keys to lists of values, in insertion order *)
Fixpoint dict_append (d : list (string * list string)) (k v : string)
  : list (string * list string) :=
  match d with
  | [] => [(k, [v])]
  | (k', vs) :: d' =>
      if String.eqb k k' then (k', vs ++ [v]) :: d'
      else (k', vs) :: dict_append d' k v
  end.

(** [parse_qs(qs, keep_blank_values=True)] *)
Definition parse_qs (qs : string) : list (string * list string) :=
  fold_left (fun d '(name, value) => dict_append d name value) (parse_qsl qs) [].

(** [urlencode(query, doseq=True)] for a dict of lists of strings *)
Definition urlencode (query : list (string * list string)) : string :=
  join "&" (flat_map (fun '(k, v) =>
    map (fun elt => quote_plus k +:+ "=" +:+ quote_plus elt) v) query).

(** *** urljoin *)

(** the loop of [urljoin] over the segments: ".." pops, "." is dropped *)
Definition resolve_segments (segments : list string) : list string :=
  fold_left (fun resolved_path seg =>
    if String.eqb seg ".." then removelast resolved_path
    else if String.eqb seg "." then resolved_path
    else resolved_path ++ [seg]) segments [].

(** [segments[1:-1] = filter(None, segments[1:-1])] *)
Definition filter_inner (segments : list string) : list string :=
  match segments with
  | [] => []
  | [x] => [x]
  | x :: rest =>
      x :: List.filter (fun seg => negb (String.eqb seg "")) (removelast rest)
        ++ [List.last rest ""]
  end.

Section WithLib.
Context `{PyLib}.

(** [urljoin(base, url)] *)
Definition urljoin (base url : string) : exc string :=
  if String.eqb base "" then Ok url
  else if String.eqb url "" then Ok base
  else
    let* b := urlparse base "" in
    let* u := urlparse url (scheme b) in
    if negb (String.eqb (scheme u) (scheme b)) || negb (mem (scheme u) uses_relative)
    then Ok url
    else if mem (scheme u) uses_netloc && negb (String.eqb (netloc u) "")
    then Ok (urlunparse (scheme u) (netloc u) (path u) (params u) (query u) (fragment u))
    else
      let netloc := if mem (scheme u) uses_netloc then netloc b else netloc u in
      if String.eqb (path u) "" && String.eqb (params u) "" then
        let query := if String.eqb (query u) "" then query b else query u in
        Ok (urlunparse (scheme u) netloc (path b) (params b) query (fragment u))
      else
        let base_parts := split "/" (path b) in
        let base_parts :=
          if negb (String.eqb (List.last base_parts "") "")
          then removelast base_parts else base_parts in
        let segments :=
          if startswith (path u) "/" then split "/" (path u)
          else filter_inner (base_parts ++ split "/" (path u)) in
        let resolved_path := resolve_segments segments in
        let resolved_path :=
          if mem (List.last segments "") ["."; ".."]
          then resolved_path ++ [""] else resolved_path in
        let joined := join "/" resolved_path in
        Ok (urlunparse (scheme u) netloc
              (if String.eqb joined "" then "/" else joined)
              (params u) (query u) (fragment u)).
End WithLib.

End Urllib.

(** ** scraper.py and scraper_hybrid.py: [normalize_url]

    Both files define the function with the same text. *)

Section Normalize.
Context `{PyLib}.
Import Py Urllib.

Definition tracking_params : list string :=
  ["utm_source"; "utm_medium"; "utm_campaign"; "utm_term"; "utm_content";
   "utm_id"; "utm_cid"; "utm_reader"; "utm_referrer"; "utm_name";
   "utm_social"; "utm_social-type"; "utm_brand"; "utm_pubreferrer";
   "fbclid"; "gclid"; "dclid"; "msclkid";
   "ref"; "referrer"; "source"; "campaign";
   "mc_cid"; "mc_eid";
   "yclid";
   "_ga"; "_gid";
   "affiliate"; "affiliateCode";
   "amp"; "amp;"].

(** lines "Normalize path": the trailing slashes go unless the path is
    the root path *)
Definition normalize_path (path : string) : string :=
  if negb (String.eqb path "/") && endswith path "/"
  then rstrip "/" path
  else path.

(** [key.lower()] for a key of the query, which need not be ASCII *)
Definition str_lower (key : string) : string :=
  if isascii key then lower key else unicode_lower key.

Definition normalize_url (url : string) : exc string :=
  let* parsed := urlparse url "" in
  let query_params := parse_qs (query parsed) in
  let filtered_params :=
    List.filter (fun '(key, value) =>
      negb (mem (str_lower key) (map lower tracking_params))) query_params in
  let new_query := urlencode filtered_params in
  let path := normalize_path (path parsed) in
  Ok (urlunparse (scheme parsed) (netloc parsed) path (params parsed) new_query "").

End Normalize.

(** ** Regular expressions ([re])

    A backtracking matcher with the priorities of Python's engine: the
    alternatives of a pattern are tried in order and the first complete
    match wins.  A greedy repetition tries one more iteration before it
    tries to stop, a lazy one the other way round.  The body of a
    repetition has to consume input at each iteration (every repeated body
    of the patterns below does). *)

Module Re.
Import Py.

Inductive regex : Type :=
| Chr (p : ascii → bool)                (* one character that satisfies p *)
| Eps                                   (* the empty pattern *)
| Seq (r1 r2 : regex)                   (* r1r2 *)
| Alt (r1 r2 : regex)                   (* r1|r2 *)
| Rep (greedy : bool) (lo : nat) (hi : option nat) (r : regex)
                                        (* r{lo,hi}, r{lo,hi}? *)
| Grp (i : nat) (r : regex).            (* capturing group number i *)

(** the span of each group: where it starts and where it ends, counted
    from the start of the match; most recent binding first *)
Definition captures : Type := list (nat * (nat * nat)).

Definition below (hi : option nat) (n : nat) : bool :=
  match hi with
  | None => true
  | Some h => n <? h
  end.

(** [matches r s pos caps k]: match [r] at the start of [s], which is
    [pos] characters after the start of the match, then hand the rest
    of the input, the new position and the captures to [k]; backtrack
    when [k] fails. *)
Fixpoint matches {R : Type} (r : regex) (s : string) (pos : nat)
    (caps : captures) (k : string → nat → captures → option R) {struct r}
  : option R :=
  match r with
  | Chr p =>
      match s with
      | String c s' => if p c then k s' (S pos) caps else None
      | EmptyString => None
      end
  | Eps => k s pos caps
  | Seq r1 r2 =>
      matches r1 s pos caps (fun s' pos' caps' => matches r2 s' pos' caps' k)
  | Alt r1 r2 =>
      match matches r1 s pos caps k with
      | Some x => Some x
      | None => matches r2 s pos caps k
      end
  | Grp i r1 =>
      matches r1 s pos caps
        (fun s' pos' caps' => k s' pos' ((i, (pos, pos')) :: caps'))
  | Rep greedy lo hi r1 =>
      (fix loop (fuel n : nat) (s : string) (pos : nat) (caps : captures)
         {struct fuel} : option R :=
         let more :=
           match fuel with
           | O => None
           | S fuel' =>
               if below hi n then
                 matches r1 s pos caps (fun s' pos' caps' =>
                   if pos <? pos' then loop fuel' (S n) s' pos' caps'
                   else None)
               else None
           end in
         let stop := if lo <=? n then k s pos caps else None in
         if greedy
         then match more with Some x => Some x | None => stop end
         else match stop with Some x => Some x | None => more end)
        (S (len s)) 0 s pos caps
  end.

(** a match object: the matched text and the texts of its groups *)
Record Match : Type := mkMatch {
  whole : string;
  groups : list (nat * string) }.

(** [m.group(i)], with the empty text for a group that took no part *)
Definition group (m : Match) (i : nat) : string :=
  default EmptyString (snd <$> List.find (fun g => Nat.eqb i (fst g)) (groups m)).

(** the match of [r] at the start of [s], if there is one *)
Definition match_at (r : regex) (s : string) : option Match :=
  matches r s 0 []
    (fun _ pos caps =>
       Some (mkMatch (take pos s)
               (map (fun c => (fst c, take (snd (snd c) - fst (snd c))
                                        (drop (fst (snd c)) s))) caps))).

(** the successive non-overlapping matches of [r] in [s], from left to
    right ([re.finditer]); [skip] counts the characters of the last match
    still to be passed over *)
Fixpoint finditer_go (r : regex) (skip : nat) (s : string) : list Match :=
  match skip with
  | S k =>
      match s with
      | EmptyString => []
      | String _ s' => finditer_go r k s'
      end
  | O =>
      match match_at r s with
      | Some m =>
          m ::
          match s with
          | EmptyString => []
          | String _ s' => finditer_go r (len (whole m) - 1) s'
          end
      | None =>
          match s with
          | EmptyString => []
          | String _ s' => finditer_go r 0 s'
          end
      end
  end.
Definition finditer (r : regex) (s : string) : list Match :=
  finditer_go r 0 s.

(** [re.findall] for a pattern without group: the matched texts *)
Definition findall0 (r : regex) (s : string) : list string :=
  map whole (finditer r s).
(** [re.findall] for a pattern with one group: the texts of the group *)
Definition findall1 (r : regex) (s : string) : list string :=
  map (fun m => group m 1) (finditer r s).
(** [re.findall] for a pattern with two groups: the pairs of texts *)
Definition findall2 (r : regex) (s : string) : list (string * string) :=
  map (fun m => (group m 1, group m 2)) (finditer r s).

(** *** Writing patterns *)

Definition cat (rs : list regex) : regex := fold_right Seq Eps rs.
(** a literal text *)
Definition lit (t : string) : regex :=
  cat (map (fun c => Chr (Ascii.eqb c)) (list_ascii_of_string t)).
(** a literal text under [re.IGNORECASE] *)
Definition lit_i (t : string) : regex :=
  cat (map (fun c => Chr (fun x => Ascii.eqb (lower_chr x) (lower_chr c)))
         (list_ascii_of_string t)).
(** [[chars]] and [[^chars]] *)
Definition one_of (chars : string) : regex := Chr (fun c => chr_in c chars).
Definition none_of (chars : string) : regex := Chr (fun c => negb (chr_in c chars)).
Definition star (r : regex) : regex := Rep true 0 None r.
Definition plus (r : regex) : regex := Rep true 1 None r.
Definition opt (r : regex) : regex := Rep true 0 (Some 1) r.
Definition star_lazy (r : regex) : regex := Rep false 0 None r.
Definition between (lo hi : nat) (r : regex) : regex := Rep true lo (Some hi) r.

(** the double quote and the backslash *)
Definition dq : ascii := ascii_of_nat 34.
Definition bs : ascii := ascii_of_nat 92.
(** the class of the two quote characters *)
Definition quotes : string := String dq "'".

(** [\s]: space, \t \n \v \f \r and the separators U+001C to U+001F *)
Definition is_space (c : ascii) : bool :=
  let n := nat_of_ascii c in
  (n =? 32) || ((9 <=? n) && (n <=? 13)) || ((28 <=? n) && (n <=? 31)).
Definition ws : regex := Chr is_space.
(** [[a-zA-Z0-9]] *)
Definition alnum : regex := Chr is_alnum.

End Re.

(** ** Results

    The result dictionaries of the extraction functions.  A key that a
    dictionary does not have is [None]; keys that only carry metadata
    (final_url, content_type, debug counters) are left out. *)

Record LinkResult : Type := mkLinkResult {
  success : bool;
  method : option string;
  result_url : option string;
  status_code : option Z;
  links : list string;
  count : nat;
  error : option string }.

(** the dictionary every [except] branch returns *)
Definition failure (method : option string) (error : string) : LinkResult :=
  {| success := false; method := method; result_url := None;
     status_code := None; links := []; count := 0; error := Some error |}.

(** [sorted(l)] on strings *)
Definition py_sorted (l : list string) : list string := merge_sort String.le l.

(** ** The HTTP client ([requests]) *)

Record Response : Type := mkResponse {
  resp_status_code : Z;
  resp_text : string;
  resp_url : string }.

(** [response.raise_for_status()] *)
Definition raise_for_status (r : Response) : exc unit :=
  if ((400 <=? resp_status_code r) && (resp_status_code r <? 600))%Z
  then Raise (mkExn RequestException "HTTPError")
  else Ok tt.

(** ** scraper.py *)

Section Scraper.
Context `{PyLib}.
Import Py Urllib Re.

(** [requests.get(url, headers=..., timeout=...)] *)
Variable requests_get : string → exc Response.

(** [html.unescape(s)] *)
Definition html_unescape (s : string) : string :=
  if contains "&" s then charref_sub s else s.

(** [href\s*=\s*[QUOTE]([^QUOTE]+)[QUOTE]] where QUOTE is either quote
    character, and [href\s*=\s*([^\s>]+)], under re.IGNORECASE *)
Definition href_patterns : list regex :=
  [ cat [lit_i "href"; star ws; lit "="; star ws; one_of quotes;
         Grp 1 (plus (none_of quotes)); one_of quotes];
    cat [lit_i "href"; star ws; lit "="; star ws;
         Grp 1 (plus (Chr (fun c => negb (is_space c || Ascii.eqb c ">"))))] ].

Definition unwanted_patterns : list string :=
  ["cdn"; ".png"; ".jpg"; ".jpeg"; ".gif"; ".svg"; ".webp";
   "assets"; "static"; ".js"; ".css";
   "("; ")"; "{"; "}"; "["; "]"].

(** the body of the two nested loops of [extract_links_from_html] *)
Definition html_link_step (base_url base_domain_clean : string)
    (normalized_links : gset string) (url : string) : exc (gset string) :=
  let url := html_unescape url in
  if String.eqb url "" || startswith url "#" || startswith url "javascript:"
     || startswith url "mailto:"
  then Ok normalized_links
  else if contains "#" url then Ok normalized_links
  else
    let* absolute_url := urljoin base_url url in
    let url_lower := lower absolute_url in
    if any_in unwanted_patterns url_lower then Ok normalized_links
    else
      Ok (try_except
        (let* parsed := urlparse absolute_url "" in
         if mem (scheme parsed) ["http"; "https"] then
           let url_domain := lower (netloc parsed) in
           let url_domain_clean := replace "www." "" url_domain in
           if String.eqb url_domain_clean base_domain_clean then
             let clean_url := hd "" (split dq absolute_url) in
             let* normalized_url := normalize_url clean_url in
             Ok ({[normalized_url]} ∪ normalized_links)
           else Ok normalized_links
         else Ok normalized_links)
        (fun _ => normalized_links)).

Definition extract_links_from_html (html_content base_url : string)
  : exc (list string) :=
  let* base_parsed := urlparse base_url "" in
  let base_domain := lower (netloc base_parsed) in
  let base_domain_clean := replace "www." "" base_domain in
  let* normalized_links :=
    foldM (fun acc pattern =>
             foldM (fun acc m =>
                      html_link_step base_url base_domain_clean acc
                        (group m 1))
               (finditer pattern html_content) acc)
      href_patterns ∅ in
  Ok (py_sorted (set_iter normalized_links)).

(** [settings.default_timeout] *)
Definition default_timeout : string := "30".

Definition scrape_url (url : string) : LinkResult :=
  try_except
    (let* parsed := urlparse url "" in
     if String.eqb (scheme parsed) "" || String.eqb (netloc parsed) "" then
       Ok (failure None "Invalid URL format")
     else
       let* response := requests_get url in
       let* _ := raise_for_status response in
       let* links := extract_links_from_html (resp_text response) url in
       Ok {| success := true; method := None; result_url := Some url;
             status_code := Some (resp_status_code response);
             links := links; count := length links; error := None |})
    (fun e =>
       match exn_cls e with
       | Timeout =>
           failure None ("Request timed out after " +:+ default_timeout +:+ " seconds")
       | RequestException => failure None ("Request failed: " +:+ exn_str e)
       | OtherException => failure None ("Unexpected error: " +:+ exn_str e)
       end).

End Scraper.

(** ** scraper_hybrid.py *)

(** the strategies the aggregator can invoke *)
Inductive strategy : Type :=
| StaticStrategy       (* extract_static_links *)
| NextjsStrategy       (* extract_nextjs_data *)
| DynamicStrategy.     (* extract_dynamic_links *)

(** the dictionary [extract_links_hybrid] returns *)
Record HybridResult : Type := mkHybridResult {
  h_success : bool;
  h_url : string;
  h_links : list string;
  h_count : nat;
  methods_used : list string;
  errors : option (list string) }.

Section Hybrid.
Context `{PyLib}.
Import Py Urllib.

(** [requests.get(url, headers=..., timeout=...)] *)
Variable requests_get : string → exc Response.
(** [[a['href'] for a in BeautifulSoup(text, 'html.parser').find_all('a', href=True)]],
    the href values of the anchors of a document, in document order *)
Variable soup_a_href : string → list string.

Definition static_unwanted : list string :=
  ["cdn"; ".png"; ".jpg"; ".jpeg"; ".gif"; ".svg"; ".webp";
   "assets"; "static"; ".js"; ".css"].

(** the body of the loop over the anchors *)
Definition static_link_step (url base_domain : string)
    (links : gset string) (href : string) : exc (gset string) :=
  if startswith href "#" || startswith href "javascript:"
     || startswith href "mailto:"
  then Ok links
  else
    let* absolute_url := urljoin url href in
    let* link_parsed := urlparse absolute_url "" in
    let link_domain := replace "www." "" (lower (netloc link_parsed)) in
    if String.eqb link_domain base_domain then
      if negb (any_in static_unwanted (lower absolute_url)) then
        let* n := normalize_url absolute_url in
        Ok ({[n]} ∪ links)
      else Ok links
    else Ok links.

(** Method 1: static HTML scraping *)
Definition extract_static_links (url : string) : LinkResult :=
  try_except
    (let* parsed := urlparse url "" in
     let base_domain := replace "www." "" (lower (netloc parsed)) in
     let* response := requests_get url in
     let* _ := raise_for_status response in
     let* links :=
       foldM (static_link_step url base_domain)
         (soup_a_href (resp_text response)) ∅ in
     Ok {| success := true; method := Some "static"; result_url := Some url;
           status_code := Some (resp_status_code response);
           links := py_sorted (set_iter links); count := size links;
           error := None |})
    (fun e => failure (Some "static") (exn_str e)).

(** Methods 2 and 3.  Each catches every exception and returns a result
    dictionary; the aggregator only reads the keys success, count, links
    and error of it.  They are parameters here: what is proved of the
    aggregator holds whatever these two return. *)
Variable extract_nextjs_data : string → LinkResult.
Variable extract_dynamic_links : string → LinkResult.

(** what the aggregator does with the result of one strategy *)
Definition merge_result (name label : string) (r : LinkResult)
    (st : gset string * list string * list string)
  : gset string * list string * list string :=
  let '(all_links, methods_used, errors) := st in
  if success r && (0 <? count r) then
    (all_links ∪ list_to_set (links r), methods_used ++ [name], errors)
  else
    (all_links, methods_used,
     if negb (success r)
     then errors ++ [label +:+ ": " +:+ default "unknown" (error r)]
     else errors).

(** [extract_links_hybrid(url)], with the list of the strategies it
    invoked, in the order of the calls *)
Definition extract_links_hybrid (url : string) : HybridResult * list strategy :=
  let st : gset string * list string * list string := (∅, [], []) in
  (* Method 1: Static HTML scraping (fastest) *)
  let static_result := extract_static_links url in
  let calls := [StaticStrategy] in
  let st := merge_result "static" "Static" static_result st in
  (* Method 2: Next.js data extraction *)
  let nextjs_result := extract_nextjs_data url in
  let calls := calls ++ [NextjsStrategy] in
  let st := merge_result "nextjs" "Next.js" nextjs_result st in
  (* Method 3: Dynamic rendering (if needed) *)
  let '(st, calls) :=
    if size (st.1.1) <? 5 then
      let dynamic_result := extract_dynamic_links url in
      (merge_result "dynamic" "Dynamic" dynamic_result st,
       calls ++ [DynamicStrategy])
    else (st, calls) in
  let '(all_links, methods_used, errors) := st in
  ({| h_success := 0 <? size all_links;
      h_url := url;
      h_links := py_sorted (set_iter all_links);
      h_count := size all_links;
      methods_used := methods_used;
      errors := match errors with [] => None | _ => Some errors end |},
   calls).

End Hybrid.

(** ** advanced_scraper.py *)

(** what the scraper reads of [BeautifulSoup(html_content, 'html.parser')]:
    the values of the attribute of the tags that have it, in document
    order *)
Record Soup : Type := mkSoup {
  a_href : list string;        (* find_all('a', href=True) *)
  link_href : list string;     (* find_all('link', href=True) *)
  script_src : list string;    (* find_all('script', src=True) *)
  img_src : list string;       (* find_all('img', src=True) *)
  style_attr : list string }.  (* find_all(attrs={'style': True}) *)

(** what the scraper reads of an aiohttp response *)
Record AioResponse : Type := mkAioResponse {
  status : Z;                      (* response.status *)
  read : exc string;               (* await response.read() *)
  content_type_header : string }.  (* response.headers.get('content-type', '') *)

(** an entry of [downloaded_files] *)
Record FileRecord : Type := mkFileRecord {
  f_url : string;
  filename : string;
  file_type : string;
  f_size : nat;
  f_content_type : string;
  f_depth : Z;
  f_status : string;
  links_extracted : option nat;
  link_extraction_error : option string }.

(** the dictionaries [download_single_file] returns *)
Inductive DownloadResult : Type :=
| Skipped (url reason : string)          (* skipped, url, reason *)
| HttpError (error url : string)         (* error, url *)
| Downloaded (r : FileRecord)
| Failed (error url : string) (depth : Z).   (* error, url, depth *)

Record AdvancedScraper : Type := mkAdvancedScraper {
  base_url : string;
  parsed_base : Urllib.ParseResult;
  max_depth : Z;
  visited_urls : gset string;
  discovered_urls : gset string;
  downloaded_files : list FileRecord;
  (** ghost: the URLs requested with [session.get], in the order of the
      requests *)
  fetched : list string }.

(** the summary of [scrape_recursive], without the clock readings and the
    output directory *)
Record Summary : Type := mkSummary {
  sum_base_url : string;
  sum_max_depth : Z;
  total_files : nat;
  total_discovered : nat;
  files_by_type : list (string * nat);
  files : list FileRecord }.

Section Advanced.
Context `{PyLib}.
Import Py Urllib Re.

(** [self.session.get(url)]; the first argument is the list of the
    requests made so far, so that the answer for a URL may change with
    time *)
Variable session_get : list string → string → exc AioResponse.
(** creating the directory of a file and writing the file; same first
    argument *)
Variable save_file : list string → string → string → exc unit.
(** [BeautifulSoup(html_content, 'html.parser')] *)
Variable parse_html : string → Soup.
(** writing scrape_summary.json *)
Variable save_summary : Summary → exc unit.

(** [AdvancedScraper(base_url, output_dir, max_depth)] *)
Definition init (base_url : string) (max_depth : Z) : exc AdvancedScraper :=
  let base_url := rstrip "/" base_url in
  let* parsed_base := urlparse base_url "" in
  Ok {| base_url := base_url; parsed_base := parsed_base;
        max_depth := max_depth; visited_urls := ∅; discovered_urls := ∅;
        downloaded_files := []; fetched := [] |}.

Definition is_same_domain (self : AdvancedScraper) (url : string) : bool :=
  try_except
    (let* parsed := urlparse url "" in
     Ok (String.eqb (netloc parsed) (netloc (parsed_base self))))
    (fun _ => false).

(** Clean URL by removing fragments *)
Definition clean_url (url : string) : exc string :=
  let* parsed := urlparse url "" in
  Ok (urlunparse (scheme parsed) (netloc parsed) (path parsed)
        (params parsed) (query parsed) "").

(** [os.path.basename(path)] *)
Definition basename (path : string) : string := List.last (split "/" path) "".

Definition get_file_type_and_path (url : string) : exc (string * string) :=
  let* parsed := urlparse url "" in
  let path := strip "/" (path parsed) in
  if String.eqb path "" || endswith path "/" then Ok ("html", "index.html")
  else if endswith path ".css" then Ok ("css", "css/" +:+ basename path)
  else if endswith path ".js" then Ok ("js", "js/" +:+ basename path)
  else if existsb (endswith path)
            [".png"; ".jpg"; ".jpeg"; ".gif"; ".svg"; ".ico"; ".webp"]
  then Ok ("image", "images/" +:+ basename path)
  else if negb (contains "." (basename path))
  then Ok ("html", replace "/" "_" path +:+ ".html")
  else Ok ("other", replace "/" "_" path).

(** the characters [str.strip()] removes *)
Definition whitespace : string :=
  string_of_list_ascii (map ascii_of_nat [32; 9; 10; 11; 12; 13; 28; 29; 30; 31]).

(** [url\([QUOTE]?([^QUOTE]+)[QUOTE]?\)] where QUOTE is either quote
    character *)
Definition style_url_pattern : regex :=
  cat [lit "url("; opt (one_of quotes); Grp 1 (plus (none_of quotes));
       opt (one_of quotes); lit ")"].

(** one [links.add(self.clean_url(urljoin(base_url, ref)))] *)
Definition add_link (base_url : string) (links : gset string) (ref : string)
  : exc (gset string) :=
  let* absolute_url := urljoin base_url ref in
  let* c := clean_url absolute_url in
  Ok ({[c]} ∪ links).

(** Extract ALL types of links from HTML *)
Definition extract_all_links (html_content base_url : string)
  : exc (list string) :=
  let soup := parse_html html_content in
  let links : gset string := ∅ in
  (* 1. All anchor tags with href *)
  let* links :=
    foldM (fun links raw =>
             let href := strip whitespace raw in
             if negb (String.eqb href "") && negb (startswith href "#")
                && negb (startswith href "mailto:") && negb (startswith href "tel:")
             then add_link base_url links href
             else Ok links) (a_href soup) links in
  (* 2. All link tags (CSS), 3. all script tags (JS), 4. all img tags *)
  let plain := fun links raw =>
    let ref := strip whitespace raw in
    if negb (String.eqb ref "") then add_link base_url links ref else Ok links in
  let* links := foldM plain (link_href soup) links in
  let* links := foldM plain (script_src soup) links in
  let* links := foldM plain (img_src soup) links in
  (* 5. Background images in style attributes *)
  let* links :=
    foldM (fun links style =>
             foldM (fun links url => add_link base_url links (strip whitespace url))
               (findall1 style_url_pattern style) links)
      (style_attr soup) links in
  Ok (set_iter links).

Definition skip_patterns : list string :=
  ["/_next/static/chunks/webpack"; "/_next/static/chunks/polyfills";
   ".map"; ".xml"; ".txt"].

(** Determine if we should download this URL *)
Definition should_download (self : AdvancedScraper) (url : string) : exc bool :=
  if negb (is_same_domain self url) then Ok false
  else if bool_decide (url ∈ visited_urls self) then Ok false
  else
    let* parsed := urlparse url "" in
    let path := lower (path parsed) in
    Ok (negb (any_in skip_patterns path)).

(** Check if content is HTML *)
Definition is_html_content (url content_type : string) : exc bool :=
  if contains "html" (lower content_type) then Ok true
  else
    let* parsed := urlparse url "" in
    let path := path parsed in
    Ok (negb (contains "." (basename path)) || endswith path "/").

(** the loop "Filter and add to discovered URLs" *)
Definition add_discovered (visited : gset string)
    (st : gset string * list string) (link : string)
  : gset string * list string :=
  let '(discovered, new_links) := st in
  if negb (bool_decide (link ∈ visited)) && negb (bool_decide (link ∈ discovered))
  then ({[link]} ∪ discovered, new_links ++ [link])
  else (discovered, new_links).

(** the body of the [try] of [download_single_file], from the request
    to the result; it changes [discovered_urls] only on its last
    steps, which cannot raise, so the new set is returned with the
    result *)
Definition download_body (self : AdvancedScraper) (url : string) (depth : Z)
  : exc (DownloadResult * gset string * list FileRecord) :=
  let* response := session_get (fetched self) url in
  if negb (status response =? 200)%Z then
    Ok (HttpError ("HTTP " +:+ pretty (status response)) url,
        discovered_urls self, downloaded_files self)
  else
    let* content := read response in
    let content_type := lower (content_type_header response) in
    let* (file_type, relative_path) := get_file_type_and_path url in
    let* _ := save_file (fetched self) relative_path content in
    let result :=
      {| f_url := url; filename := relative_path; file_type := file_type;
         f_size := len content; f_content_type := content_type;
         f_depth := depth; f_status := "success";
         links_extracted := None; link_extraction_error := None |} in
    let* html := is_html_content url content_type in
    let '(result, discovered) :=
      if html && (depth <? max_depth self)%Z then
        try_except
          (let html_content := decode_utf8_ignore content in
           let* extracted_links := extract_all_links html_content url in
           let '(discovered, new_links) :=
             fold_left (add_discovered (visited_urls self)) extracted_links
               (discovered_urls self, []) in
           Ok (mkFileRecord url relative_path file_type (len content)
                 content_type depth "success" (Some (length new_links)) None,
               discovered))
          (fun e =>
             (mkFileRecord url relative_path file_type (len content)
                content_type depth "success" None (Some (exn_str e)),
              discovered_urls self))
      else (result, discovered_urls self) in
    Ok (Downloaded result, discovered, downloaded_files self ++ [result]).

(** Download a single file *)
Definition download_single_file (self : AdvancedScraper) (url : string)
    (depth : Z) : exc DownloadResult * AdvancedScraper :=
  match should_download self url with
  | Raise e => (Raise e, self)
  | Ok ok =>
      if negb ok || (max_depth self <? depth)%Z then
        (Ok (Skipped url "filtered_or_max_depth"), self)
      else
        let self :=
          mkAdvancedScraper (base_url self) (parsed_base self) (max_depth self)
            ({[url]} ∪ visited_urls self) (discovered_urls self)
            (downloaded_files self) (fetched self) in
        let requested :=
          mkAdvancedScraper (base_url self) (parsed_base self) (max_depth self)
            (visited_urls self) (discovered_urls self)
            (downloaded_files self) (fetched self ++ [url]) in
        match download_body self url depth with
        | Ok (result, discovered, downloaded) =>
            (Ok result,
             mkAdvancedScraper (base_url self) (parsed_base self) (max_depth self)
               (visited_urls self) discovered downloaded (fetched self ++ [url]))
        | Raise e => (Ok (Failed (exn_str e) url depth), requested)
        end
  end.

(** [await asyncio.gather] of the tasks
    [download_single_file(url, depth)] of a depth level.  The tasks run
    on one thread and are taken here one after the other in the order
    of the list; a task that raises ends the gathering. *)
Fixpoint gather (urls : list string) (depth : Z) (self : AdvancedScraper)
  : exc (list DownloadResult) * AdvancedScraper :=
  match urls with
  | [] => (Ok [], self)
  | url :: urls' =>
      match download_single_file self url depth with
      | (Ok r, self') =>
          match gather urls' depth self' with
          | (Ok rs, self'') => (Ok (r :: rs), self'')
          | (Raise e, self'') => (Raise e, self'')
          end
      | (Raise e, self') => (Raise e, self')
      end
  end.

(** the unvisited discovered URLs, as the loop computes them *)
Definition urls_at_depth (self : AdvancedScraper) : list string :=
  List.filter (fun url => negb (bool_decide (url ∈ visited_urls self)))
    (set_iter (discovered_urls self)).

(** the limit per depth *)
Definition batch_cap : nat := 50.

(** the loop "Process URLs by depth level" over the remaining depths *)
Fixpoint depth_loop (depths : list Z) (self : AdvancedScraper)
  : exc unit * AdvancedScraper :=
  match depths with
  | [] => (Ok tt, self)
  | current_depth :: depths' =>
      match urls_at_depth self with
      | [] => (Ok tt, self)      (* break *)
      | urls =>
          match gather (firstn batch_cap urls) current_depth self with
          | (Ok _, self') => depth_loop depths' self'
          | (Raise e, self') => (Raise e, self')
          end
      end
  end.

(** [range(n)] *)
Definition range (n : Z) : list Z := map Z.of_nat (seq 0 (Z.to_nat n)).

(** the part of [scrape_recursive] up to the end of the loop *)
Definition frontier (self : AdvancedScraper) : exc unit * AdvancedScraper :=
  let self :=
    mkAdvancedScraper (base_url self) (parsed_base self) (max_depth self)
      (visited_urls self) ({[base_url self]} ∪ discovered_urls self)
      (downloaded_files self) (fetched self) in
  depth_loop (range (max_depth self + 1)) self.

(** Get count of files by type *)
Definition get_files_by_type (self : AdvancedScraper) : list (string * nat) :=
  fold_left (fun counts file_info =>
    let file_type := file_type file_info in
    match List.find (fun kv => String.eqb (fst kv) file_type) counts with
    | Some _ =>
        map (fun kv => if String.eqb (fst kv) file_type
                       then (fst kv, snd kv + 1) else kv) counts
    | None => counts ++ [(file_type, 1)]
    end) (downloaded_files self) [].

(** Main recursive scraping method *)
Definition scrape_recursive (self : AdvancedScraper)
  : exc Summary * AdvancedScraper :=
  match frontier self with
  | (Raise e, self') => (Raise e, self')
  | (Ok _, self') =>
      let summary :=
        {| sum_base_url := base_url self'; sum_max_depth := max_depth self';
           total_files := length (downloaded_files self');
           total_discovered := size (discovered_urls self');
           files_by_type := get_files_by_type self';
           files := downloaded_files self' |} in
      match save_summary summary with
      | Ok _ => (Ok summary, self')
      | Raise e => (Raise e, self')
      end
  end.

(** [advanced_scrape_website(url, output_dir, max_depth)] *)
Definition advanced_scrape_website (url : string) (max_depth : Z)
  : exc Summary * option AdvancedScraper :=
  match init url max_depth with
  | Raise e => (Raise e, None)
  | Ok scraper =>
      let '(r, scraper') := scrape_recursive scraper in (r, Some scraper')
  end.

End Advanced.

(** ** scraper_bundle.py *)

(** an entry of the list the first [page.evaluate] returns *)
Inductive ScriptSource : Type :=
| External (src : string)
| Inline (content : string).

(** what the headless browser does for [extract_links_from_bundle]; a step
    that raises outside the inner handlers ends the function in its
    [except] branch *)
Record BundleBrowser : Type := mkBundleBrowser {
  (** launching the browser and opening a page *)
  bb_launch : exc unit;
  (** loading the page *)
  bb_load : exc unit;
  (** the script sources of the page *)
  bb_script_sources : exc (list ScriptSource);
  (** the text of an external script, when loading it answers 200 and
      nothing raises *)
  bb_fetch_script : string → option string;
  (** going back to the original page *)
  bb_back : exc unit;
  (** the same-host href links the second [page.evaluate] returns *)
  bb_page_links : exc (list string);
  (** patching the history functions *)
  bb_patch_history : exc unit;
  (** step 4: locating the clickable elements and, for each of the
      first three, the url of the latest navigation log after the click
      (no log: [None]); a click that raises adds nothing *)
  bb_clicks : exc (list (exc (option string)));
  (** closing the browser *)
  bb_close : exc unit;
  (** writing the debug file *)
  bb_save_debug : exc unit }.

Section Bundle.
Context `{PyLib}.
Import Py Urllib Re.

(** Pattern 1: [QUOTE]\/blog\/([^QUOTE\/\s]{3,50})[QUOTE] *)
Definition blog_url_pattern : regex :=
  cat [one_of quotes; lit "/blog/";
       Grp 1 (between 3 50
                (Chr (fun c => negb (chr_in c quotes || Ascii.eqb c "/" || is_space c))));
       one_of quotes].

(** Pattern 2, under re.IGNORECASE:
    \{[^}]*?[QUOTE]slug[QUOTE]:\s*[QUOTE]([^QUOTE]{5,50})[QUOTE][^}]*?\} *)
Definition post_object_pattern : regex :=
  cat [lit "{"; star_lazy (none_of "}"); one_of quotes; lit_i "slug";
       one_of quotes; lit ":"; star ws; one_of quotes;
       Grp 1 (between 5 50 (none_of quotes)); one_of quotes;
       star_lazy (none_of "}"); lit "}"].

(** Pattern 3:
    (?:router\.push|window\.location\.href|navigate)\([QUOTE](?:\/blog\/)?([^QUOTE]{5,50})[QUOTE] *)
Definition router_pattern : regex :=
  cat [Alt (lit "router.push") (Alt (lit "window.location.href") (lit "navigate"));
       lit "("; one_of quotes; opt (lit "/blog/");
       Grp 1 (between 5 50 (none_of quotes)); one_of quotes].

(** Pattern 4:
    \[(?:\s*\{[^}]*?[QUOTE]slug[QUOTE]:\s*[QUOTE]([^QUOTE]{5,50})[QUOTE][^}]*?\}\s*,?)+\s*\] *)
Definition array_pattern : regex :=
  cat [lit "[";
       plus (cat [star ws; lit "{"; star_lazy (none_of "}"); one_of quotes;
                  lit "slug"; one_of quotes; lit ":"; star ws; one_of quotes;
                  Grp 1 (between 5 50 (none_of quotes)); one_of quotes;
                  star_lazy (none_of "}"); lit "}"; star ws; opt (lit ",")]);
       star ws; lit "]"].

(** [slug_patterns.add(slug)] for the slugs of [found] that pass [keep] *)
Definition add_slugs (keep : string → bool) (found : list string)
    (slug_patterns : gset string) : gset string :=
  fold_left (fun acc slug => if keep slug then {[slug]} ∪ acc else acc)
    found slug_patterns.

(** the body of the loop over [all_js_content] *)
Definition scan_script (slug_patterns : gset string) (content : string)
  : gset string :=
  if String.eqb content "" || (str_len content <? 100) then slug_patterns
  else
    let hyphen := fun slug => negb (String.eqb slug "") && contains "-" slug in
    let slug_patterns :=
      add_slugs hyphen (findall1 blog_url_pattern content) slug_patterns in
    let slug_patterns :=
      add_slugs hyphen (findall1 post_object_pattern content) slug_patterns in
    let slug_patterns :=
      add_slugs (fun slug => hyphen slug && negb (startswith slug "http"))
        (findall1 router_pattern content) slug_patterns in
    let slug_patterns :=
      add_slugs hyphen (findall1 array_pattern content) slug_patterns in
    slug_patterns.

(** [re.sub(r'[^a-zA-Z0-9\-]', '', slug)] *)
Definition clean_slug (slug : string) : string :=
  filter_chr (fun c => is_alnum c || Ascii.eqb c "-") slug.

(** [s.split('#')[0]] when '#' is in [s] *)
Definition drop_fragment (s : string) : string :=
  if contains "#" s then hd "" (split "#" s) else s.

(** Step 3: the body of the loop over [slug_patterns] *)
Definition construct (base_url current_path : string)
    (blog_posts : gset string) (slug : string) : gset string :=
  let clean_slug := clean_slug slug in
  if (5 <=? len clean_slug) && contains "-" clean_slug then
    let constructed_url := base_url +:+ current_path +:+ "/" +:+ clean_slug in
    {[drop_fragment constructed_url]} ∪ blog_posts
  else blog_posts.

(** Step 4: what one click adds to [blog_posts] *)
Definition add_navigation (base_url current_path : string)
    (blog_posts : gset string) (click : exc (option string)) : gset string :=
  match click with
  | Ok (Some nav_url) =>
      if negb (String.eqb nav_url "") && contains current_path nav_url then
        let full_nav_url :=
          if startswith nav_url "/" then base_url +:+ nav_url else nav_url in
        {[drop_fragment full_nav_url]} ∪ blog_posts
      else blog_posts
  | _ => blog_posts
  end.

(** the filter "Add constructed slug links" *)
Definition keep_post (base_url current_path post_url : string) : bool :=
  negb (String.eqb post_url (base_url +:+ current_path))
  && negb (String.eqb post_url (base_url +:+ current_path +:+ "/"))
  && (str_len (base_url +:+ current_path +:+ "/") <? str_len post_url).

Definition extract_links_from_bundle (page : BundleBrowser) (url : string)
  : LinkResult :=
  try_except
    (let* parsed := urlparse url "" in
     let base_url := scheme parsed +:+ "://" +:+ netloc parsed in
     let* _ := bb_launch page in
     (* inside [try ... finally: await browser.close()] *)
     let inner :=
       let* _ := bb_load page in
       let* script_sources := bb_script_sources page in
       let all_js_content :=
         flat_map (fun script =>
                     match script with
                     | Inline content => [content]
                     | External src =>
                         match bb_fetch_script page src with
                         | Some js_content => [js_content]
                         | None => []
                         end
                     end) (firstn 20 script_sources) in
       let* _ := bb_back page in
       let* page_links := bb_page_links page in
       let href_links : gset string := list_to_set page_links in
       let slug_patterns := fold_left scan_script all_js_content ∅ in
       let current_path := rstrip "/" (path parsed) in
       let blog_posts :=
         fold_left (construct base_url current_path) (set_iter slug_patterns) ∅ in
       let* _ := bb_patch_history page in
       let blog_posts :=
         match bb_clicks page with
         | Ok clicks =>
             fold_left (add_navigation base_url current_path)
               (firstn 3 clicks) blog_posts
         | Raise _ => blog_posts
         end in
       Ok (href_links, blog_posts) in
     let* (href_links, blog_posts) :=
       (match bb_close page with
        | Ok _ => inner
        | Raise e => Raise e
        end) in
     let current_path := rstrip "/" (path parsed) in
     let all_found_links :=
       fold_left (fun acc post_url =>
                    if keep_post base_url current_path post_url
                    then {[post_url]} ∪ acc else acc)
         (set_iter blog_posts) href_links in
     let verified_posts := all_found_links in
     let* _ := bb_save_debug page in
     Ok {| success := true; method := Some "hybrid_extraction";
           result_url := Some url; status_code := None;
           links := py_sorted (set_iter verified_posts);
           count := size verified_posts; error := None |})
    (fun e => failure (Some "bundle_parsing") (exn_str e)).

End Bundle.

(** ** scraper_network.py *)

(** a response the page receives while it loads *)
Record NetResponse : Type := mkNetResponse {
  nr_url : string;               (* response.url *)
  nr_content_type : string;      (* response.headers.get('content-type', '') *)
  nr_text : exc string }.        (* await response.text() *)

(** an entry of [api_responses] *)
Record ApiResponse : Type := mkApiResponse {
  api_url : string;
  api_content : string;
  api_content_type : string }.

(** what the headless browser does for [extract_links_from_network] *)
Record NetworkBrowser : Type := mkNetworkBrowser {
  (** launching the browser and opening a context and a page *)
  nb_launch : exc unit;
  (** the responses received, in the order [handle_response] sees them *)
  nb_responses : list NetResponse;
  (** loading the page, scrolling, and reading the hrefs of the anchors;
      an entry is [None] for an anchor without value *)
  nb_static_links : exc (list (option string));
  (** closing the context and the browser *)
  nb_close : exc unit }.

(** a result of [re.findall]: a text, or a tuple of texts for a pattern
    with several groups *)
Inductive found : Type :=
| FStr (s : string)
| FTuple (l : list string).

Section Network.
Context `{PyLib}.
Import Py Urllib Re.

(** Process a regex match and add valid URLs to links set *)
Definition process_match (m : string) (base_url : string) (links : gset string)
  : gset string :=
  if String.eqb m "" || (len m <? 3) then links
  else
    let m := strip (String "'" (String dq (String bs "/"))) m in
    if startswith m "http" then {[m]} ∪ links
    else if startswith m "/blog/" then {[base_url +:+ m]} ∪ links
    else if startswith m "blog/" then {[base_url +:+ "/" +:+ m]} ∪ links
    else if contains "blog" m && negb (contains "/" m)
    then {[base_url +:+ "/blog/" +:+ m]} ∪ links
    else links.

(** Recursively extract URLs from JSON data.  [levels] is the number of
    levels the walk may still enter: the call at depth [d] has
    [levels = 6 - d], and the source returns at once when [d > 5]. *)
Fixpoint extract_urls_from_json (levels : nat) (data : json) (base_url : string)
    (links : gset string) : gset string :=
  match levels with
  | O => links
  | S levels' =>
      match data with
      | JDict items =>
          fold_left (fun links kv =>
            match snd kv with
            | JStr value =>
                if contains "blog" (lower value)
                   && (startswith value "/" || startswith value "http"
                       || ((3 <? len value) && (len value <? 100)
                           && contains "-" value))
                then process_match value base_url links
                else links
            | JDict _ | JList _ =>
                extract_urls_from_json levels' (snd kv) base_url links
            | JOther => links
            end) items links
      | JList items =>
          fold_left (fun links item =>
            extract_urls_from_json levels' item base_url links) items links
      | _ => links
      end
  end.

(** [handle_response]: which responses are kept *)
Definition handle_response (api_responses : list ApiResponse) (response : NetResponse)
  : list ApiResponse :=
  if contains "json" (lower (nr_content_type response))
     || endswith (nr_url response) ".json"
     || contains "api" (lower (nr_url response))
     || contains "blog" (lower (nr_url response))
     || contains "post" (lower (nr_url response))
  then
    match nr_text response with
    | Ok content =>
        api_responses ++ [mkApiResponse (nr_url response) content
                            (nr_content_type response)]
    | Raise _ => api_responses
    end
  else api_responses.

(** a key of a JSON object followed by a colon: QUOTEkeyQUOTE\s*:\s* *)
Definition json_key (key : string) : regex :=
  cat [lit (String dq ""); lit_i key; lit (String dq ""); star ws; lit ":"; star ws].
(** QUOTE(\/blog\/[^QUOTE]+)QUOTE with the double quote *)
Definition quoted_blog_path : regex :=
  cat [lit (String dq ""); Grp 1 (cat [lit_i "/blog/"; plus (none_of (String dq ""))]);
       lit (String dq "")].
(** QUOTE([^QUOTE]+)QUOTE with the double quote, as group [i] *)
Definition quoted_text (i : nat) : regex :=
  cat [lit (String dq ""); Grp i (plus (none_of (String dq ""))); lit (String dq "")].

(** the patterns applied to every captured response, under
    re.IGNORECASE, each with the number of its groups *)
Definition network_patterns : list (regex * nat) :=
  [ (* https?://[^QUOTE\s]*?/blog/[^QUOTE\s]+ *)
    (cat [lit_i "http"; opt (lit_i "s"); lit "://";
          star_lazy (Chr (fun c => negb (Ascii.eqb c dq || is_space c)));
          lit_i "/blog/";
          plus (Chr (fun c => negb (Ascii.eqb c dq || is_space c)))], 0);
    (quoted_blog_path, 1);
    (* the same between single quotes *)
    (cat [lit "'"; Grp 1 (cat [lit_i "/blog/"; plus (none_of "'")]); lit "'"], 1);
    (cat [json_key "slug"; quoted_text 1], 1);
    (cat [json_key "path"; quoted_blog_path], 1);
    (cat [json_key "href"; quoted_blog_path], 1);
    (cat [json_key "url"; quoted_blog_path], 1);
    (cat [json_key "permalink"; quoted_blog_path], 1);
    (cat [json_key "route"; quoted_blog_path], 1);
    (cat [json_key "pathname"; quoted_blog_path], 1);
    (* the key id with a value that contains blog: ([^QUOTE]*blog[^QUOTE]* ) *)
    (cat [json_key "id"; lit (String dq "");
          Grp 1 (cat [star (none_of (String dq "")); lit_i "blog";
                      star (none_of (String dq ""))]);
          lit (String dq "")], 1);
    (cat [json_key "title"; quoted_text 1; star ws; lit ","; star ws;
          json_key "slug"; quoted_text 2], 2);
    (* \/blog\/[a-zA-Z0-9][a-zA-Z0-9\-]*[a-zA-Z0-9] *)
    (cat [lit_i "/blog/"; alnum; star (Chr (fun c => is_alnum c || Ascii.eqb c "-"));
          alnum], 0);
    (* blog\/[a-zA-Z0-9][a-zA-Z0-9\-_]*  *)
    (cat [lit_i "blog/"; alnum; star (Chr (fun c => is_alnum c || chr_in c "-_"))], 0) ].

(** [re.findall(pattern, content, re.IGNORECASE)] *)
Definition findall (pattern : regex * nat) (content : string) : list found :=
  match snd pattern with
  | 0 => map FStr (findall0 (fst pattern) content)
  | 1 => map FStr (findall1 (fst pattern) content)
  | _ => map (fun p => FTuple [fst p; snd p]) (findall2 (fst pattern) content)
  end.

(** the body of the loop over the matches of a pattern *)
Definition handle_found (base_url : string) (links : gset string) (m : found)
  : gset string :=
  match m with
  | FTuple l =>
      fold_left (fun links submatch =>
                   if negb (String.eqb submatch "") && contains "blog" (lower submatch)
                   then process_match submatch base_url links
                   else links) l links
  | FStr m => process_match m base_url links
  end.

(** the body of the loop over [api_responses] *)
Definition process_response (base_url : string) (links : gset string)
    (response : ApiResponse) : gset string :=
  let content := api_content response in
  let links :=
    fold_left (fun links pattern =>
                 fold_left (handle_found base_url) (findall pattern content) links)
      network_patterns links in
  let stripped := strip whitespace content in
  if startswith stripped "{" || startswith stripped "[" then
    match json_loads content with
    | Some data => extract_urls_from_json 6 data base_url links
    | None => links
    end
  else links.

Definition network_unwanted : list string :=
  [".js"; ".css"; ".png"; ".jpg"; ".jpeg"; ".gif"; ".svg"; ".webp";
   "assets"; "static"; "cdn"].

(** the body of the loop "Filter and clean up links" *)
Definition filter_link (base_url base_domain : string)
    (filtered_links : gset string) (link : string) : exc (gset string) :=
  if negb (any_in network_unwanted (lower link)) then
    if contains "/blog/" link && negb (String.eqb link (base_url +:+ "/blog")) then
      let* parsed := urlparse link "" in
      let link_domain := replace "www." "" (lower (netloc parsed)) in
      if String.eqb link_domain "" || String.eqb link_domain base_domain
      then Ok ({[link]} ∪ filtered_links)
      else Ok filtered_links
    else Ok filtered_links
  else Ok filtered_links.

Definition extract_links_from_network (page : NetworkBrowser) (url : string)
  : LinkResult :=
  try_except
    (let* parsed := urlparse url "" in
     let base_domain := replace "www." "" (lower (netloc parsed)) in
     let base_url := scheme parsed +:+ "://" +:+ netloc parsed in
     let* _ := nb_launch page in
     let api_responses := fold_left handle_response (nb_responses page) [] in
     (* inside [try ... finally: close] *)
     let inner :=
       let* static_links := nb_static_links page in
       Ok (fold_left (fun links link =>
                        match link with
                        | Some link =>
                            if negb (String.eqb link "") && contains base_domain link
                               && contains "/blog/" link
                            then {[link]} ∪ links else links
                        | None => links
                        end) static_links (∅ : gset string)) in
     let* links :=
       (match nb_close page with
        | Ok _ => inner
        | Raise e => Raise e
        end) in
     let links := fold_left (process_response base_url) api_responses links in
     let* filtered_links :=
       foldM (filter_link base_url base_domain) (set_iter links) ∅ in
     Ok {| success := true; method := Some "network_interception";
           result_url := Some url; status_code := None;
           links := py_sorted (set_iter filtered_links);
           count := size filtered_links; error := None |})
    (fun e => failure (Some "network_interception") (exn_str e)).

End Network.

(** ** A library instance for the examples

    The examples below are ASCII texts without brackets, character
    references or JSON: on them the first four fields and [unicode_lower]
    are never consulted.  Decoding is the identity on ASCII text, and
    iteration follows the order of [elements]. *)

#[export] Instance ascii_lib : PyLib := {|
  bracketed_netloc_ok := fun _ => false;
  nfkc_netloc_ok := fun _ => false;
  charref_sub := fun s => s;
  json_loads := fun _ => None;
  decode_utf8_ignore := fun s => s;
  unicode_lower := fun s => s;
  set_iter := elements;
  set_iter_perm := fun s => reflexivity (elements s) |}.

(** ** Predicates and scenarios of the specification *)

(** the shape of a result: the count is the number of links, and the
    links are sorted in ascending order without duplicate *)
Definition well_shaped (count : nat) (links : list string) : Prop :=
  count = length links ∧ NoDup links ∧ StronglySorted String.le links.

(** the minimum number of links below which the aggregator goes on to
    dynamic rendering *)
Definition min_links : nat := 5.

(** a page with five anchors, for the aggregator *)
Definition five_links_get (u : string) : exc Response :=
  Ok (mkResponse 200 "PAGE" u).
Definition five_links_soup (text : string) : list string :=
  ["/p1"; "/p2"; "/p3"; "/p4"; "/p5"].
Definition no_links (u : string) : LinkResult :=
  mkLinkResult true None (Some u) None [] 0 None.

(** the same-origin test as the specification words it: the hosts are
    equal once a leading www. is removed from each *)
Definition spec_strip_www (host : string) : string :=
  if Py.startswith host "www." then Py.drop 4 host else host.
Definition spec_same_origin (base_host link_host : string) : bool :=
  String.eqb (spec_strip_www (Py.lower base_host)) (spec_strip_www (Py.lower link_host)).

(** a page of a.com with one anchor to the host a.www.com *)
Definition cross_host_get (u : string) : exc Response :=
  Ok (mkResponse 200 "PAGE" u).
Definition cross_host_soup (text : string) : list string :=
  ["https://a.www.com/x"].
Definition cross_host_html : string :=
  "<a href=" +:+ String Re.dq "https://a.www.com/x" +:+ String Re.dq ">x</a>".

(** the requests of a session and its visited set agree: no URL was
    requested twice, and every requested URL is visited *)
Definition fetched_inv (self : AdvancedScraper) : Prop :=
  NoDup (fetched self) ∧ ∀ u, u ∈ fetched self → u ∈ visited_urls self.

(** how a state [self'] reached by download tasks for [urls] at [depth]
    relates to the state [self] they started from *)
Definition advances `{PyLib} (urls : list string) (depth : Z)
    (self self' : AdvancedScraper) : Prop :=
  base_url self' = base_url self ∧
  parsed_base self' = parsed_base self ∧
  max_depth self' = max_depth self ∧
  visited_urls self ⊆ visited_urls self' ∧
  (∀ u, u ∈ visited_urls self' →
        u ∈ visited_urls self ∨ (u ∈ urls ∧ is_same_domain self u = true)) ∧
  discovered_urls self ⊆ discovered_urls self' ∧
  (∀ u, u ∈ visited_urls self → u ∈ discovered_urls self' →
        u ∈ discovered_urls self) ∧
  ((max_depth self ≤ depth)%Z → discovered_urls self' = discovered_urls self) ∧
  (∃ l, fetched self' = fetched self ++ l ∧
        (∀ u, u ∈ l → u ∈ urls) ∧ (∀ u, u ∈ visited_urls self → u ∉ l)) ∧
  (fetched_inv self → fetched_inv self').

Section Sequences.
Context `{PyLib}.
Variable session_get : list string → string → exc AioResponse.
Variable save_file : list string → string → string → exc unit.
Variable parse_html : string → Soup.

(** any sequence of calls of [download_single_file], whatever they
    return *)
Definition run_downloads (calls : list (string * Z)) (self : AdvancedScraper)
  : AdvancedScraper :=
  fold_left (fun self call =>
               snd (download_single_file session_get save_file parse_html
                      self (fst call) (snd call)))
    calls self.
End Sequences.

(** how the state of a session grows over any number of download tasks
    at any depths *)
Definition grows (self self' : AdvancedScraper) : Prop :=
  base_url self' = base_url self ∧
  parsed_base self' = parsed_base self ∧
  max_depth self' = max_depth self ∧
  visited_urls self ⊆ visited_urls self' ∧
  discovered_urls self ⊆ discovered_urls self' ∧
  (∀ u, u ∈ visited_urls self → u ∈ discovered_urls self' →
        u ∈ discovered_urls self) ∧
  (∃ l, fetched self' = fetched self ++ l ∧
        ∀ u, u ∈ visited_urls self → u ∉ l) ∧
  (fetched_inv self → fetched_inv self').

(** the dictionaries that report an error *)
Definition is_error_record (r : DownloadResult) : Prop :=
  match r with
  | HttpError _ _ | Failed _ _ _ => True
  | _ => False
  end.

(** *** The end-to-end scenario of the specification *)

Definition seed_url : string := "https://example.com".

(** the anchors of the seed page *)
Definition seed_soup : Soup :=
  mkSoup ["/a"; "/a#frag"; "https://example.com/a?utm_source=x";
          "https://other.com/b"] [] [] [] [].

(** a site where every request is answered 200 with the URL as body, and
    where the seed page has the anchors above and the other pages none *)
Definition ex_session_get (history : list string) (url : string) : exc AioResponse :=
  Ok (mkAioResponse 200 (Ok url) "text/html").
Definition ex_save_file (history : list string) (path content : string) : exc unit :=
  Ok tt.
Definition ex_parse_html (html_content : string) : Soup :=
  if String.eqb html_content seed_url then seed_soup else mkSoup [] [] [] [] [].

(** [AdvancedScraper(seed_url, max_depth=1)] *)
Definition ex_scraper : AdvancedScraper :=
  mkAdvancedScraper seed_url (Urllib.mkParse "https" "example.com" "" "" "" "")
    1 ∅ ∅ [] [].

(** the state at the end of its crawl *)
Definition ex_final : AdvancedScraper :=
  snd (frontier ex_session_get ex_save_file ex_parse_html ex_scraper).

(** a site where every request times out *)
Definition down_session_get (history : list string) (url : string) : exc AioResponse :=
  Raise (mkExn Timeout "timed out").

(** *** A seed page with more links than the cap *)

Definition cap_seed : string := "https://e.com".
(** the anchors /p0 to /p50 *)
Definition cap_links : list string :=
  map (fun n : nat => "/p" +:+ pretty n) (seq 0 51).
Definition cap_parse_html (html_content : string) : Soup :=
  if String.eqb html_content cap_seed then mkSoup cap_links [] [] [] []
  else mkSoup [] [] [] [] [].

(** [AdvancedScraper(cap_seed, max_depth=2)] *)
Definition cap_scraper : AdvancedScraper :=
  mkAdvancedScraper cap_seed (Urllib.mkParse "https" "e.com" "" "" "" "")
    2 ∅ ∅ [] [].

(** the state after the depth level 0 of its crawl, and at the end *)
Definition cap_level0 : AdvancedScraper :=
  snd (depth_loop ex_session_get ex_save_file cap_parse_html [0%Z]
         (mkAdvancedScraper cap_seed (parsed_base cap_scraper) 2 ∅ {[cap_seed]} [] [])).
Definition cap_final : AdvancedScraper :=
  snd (frontier ex_session_get ex_save_file cap_parse_html cap_scraper).

(** *** The bundle scenario of the specification *)

(** the object text of the scenario: the braces, the key slug and the
    value my-post-title, both between double quotes *)
Definition slug_object : string :=
  "{" +:+ String Re.dq "slug" +:+ String Re.dq ":" +:+ String Re.dq "my-post-title"
  +:+ String Re.dq "}".

(** a page with one inline script, on which every step of the browser
    succeeds and no click navigates *)
Definition bundle_page (content : string) : BundleBrowser :=
  mkBundleBrowser (Ok tt) (Ok tt) (Ok [Inline content]) (fun _ => None) (Ok tt)
    (Ok []) (Ok tt) (Ok []) (Ok tt) (Ok tt).

(** the text of a script source as the loop "Collect all JavaScript
    content" gets it: the content of an inline script, the fetched text
    of an external one *)
Definition script_text (page : BundleBrowser) (script : ScriptSource)
  : option string :=
  match script with
  | Inline content => Some content
  | External src => bb_fetch_script page src
  end.

(** eighty spaces *)
Definition padding : string := Py.repeat_chr " " 80.

(** the records of the downloaded files follow the requests: their URLs
    are a subsequence of the requested URLs, and each record has the
    status success and a depth within the limit *)
Definition files_inv (self : AdvancedScraper) : Prop :=
  sublist (map f_url (downloaded_files self)) (fetched self) ∧
  Forall (fun r => f_status r = "success" ∧ (f_depth r ≤ max_depth self)%Z)
    (downloaded_files self).

(** the number of the files of a type among the downloaded files *)
Definition files_of_type (t : string) (files : list FileRecord) : nat :=
  length (List.filter (fun r => String.eqb (file_type r) t) files).

(** [counts.get(t)] on a dict of counts *)
Definition counts_get (t : string) (counts : list (string * nat)) : option nat :=
  snd <$> List.find (fun kv => String.eqb (fst kv) t) counts.

(** a scraper with max_depth 0 on the seed of the scenario *)
Definition single_page_scraper : AdvancedScraper :=
  mkAdvancedScraper seed_url (Urllib.mkParse "https" "example.com" "" "" "" "")
    0 ∅ ∅ [] [].

(** the body of the loop of [_get_files_by_type] *)
Definition count_step (counts : list (string * nat)) (file_info : FileRecord)
  : list (string * nat) :=
  let file_type := file_type file_info in
  match List.find (fun kv => String.eqb (fst kv) file_type) counts with
  | Some _ =>
      map (fun kv => if String.eqb (fst kv) file_type
                     then (fst kv, snd kv + 1) else kv) counts
  | None => counts ++ [(file_type, 1)]
  end.

(** the dict of counts is right for the files [p]: a key occurs once, the
    value of a type is the number of the files of the type, a type without
    file has no key, and the values add up to the number of files *)
Definition counts_ok (counts : list (string * nat)) (p : list FileRecord)
  : Prop :=
  NoDup (map fst counts) ∧
  (∀ t, counts_get t counts
        = if files_of_type t p =? 0 then None else Some (files_of_type t p)) ∧
  list_sum (map snd counts) = length p.

(** the end of the crawl of the scenario with its summary written *)
Definition ex_save_summary (summary : Summary) : exc unit := Ok tt.
Definition ex_crawl : exc Summary * AdvancedScraper :=
  scrape_recursive ex_session_get ex_save_file ex_parse_html ex_save_summary
    ex_scraper.

(** a character other than [c] *)
Definition is_not (c : ascii) (x : ascii) : bool := negb (Ascii.eqb x c).

(** [data] inside [k] nested JSON arrays *)
Fixpoint nested (k : nat) (data : json) : json :=
  match k with
  | O => data
  | S k' => JList [nested k' data]
  end.

(** a page whose browser raises nothing and that receives the responses
    [responses] and has the anchors [anchors] *)
Definition network_page (responses : list NetResponse)
    (anchors : list (option string)) : NetworkBrowser :=
  mkNetworkBrowser (Ok tt) responses (Ok anchors) (Ok tt).

(** the characters a cleaned slug is made of *)
Definition slug_chr (c : ascii) : bool := Py.is_alnum c || Ascii.eqb c "-".

(** a link as step 3 constructs it from a slug *)
Definition constructed_from (base_url current_path slug u : string) : Prop :=
  u = base_url +:+ current_path +:+ "/" +:+ clean_slug slug ∧
  5 ≤ Py.len (clean_slug slug) ∧
  Py.contains "-" (clean_slug slug) = true ∧
  Py.forall_chr slug_chr (clean_slug slug) = true.

(** a link as step 4 takes it from the navigation log of a click *)
Definition navigated_to (base_url current_path nav_url u : string) : Prop :=
  nav_url ≠ "" ∧ Py.contains current_path nav_url = true ∧
  u = drop_fragment (if Py.startswith nav_url "/" then base_url +:+ nav_url
                     else nav_url).

(** the aggregator takes the links of a result when the result is a
    success with a positive count *)
Definition usable (r : LinkResult) : bool := success r && (0 <? count r).
Definition merged (r : LinkResult) : gset string :=
  if usable r then list_to_set (links r) else ∅.
(** the entry a failed strategy leaves in the errors *)
Definition error_entry (label : string) (r : LinkResult) : list string :=
  if negb (success r) then [label +:+ ": " +:+ default "unknown" (error r)] else [].

(** ** scraper_hybrid.py: [extract_nextjs_data]

    Of [json.loads] only the error it raises on a text that is not JSON
    (json.JSONDecodeError) is taken into account. *)

(** a loop over [l] whose body adds to a set and can raise: what was
    added before an exception stays added *)
Fixpoint for_each {A} (body : A → gset string → exc unit * gset string)
    (l : list A) (links : gset string) : exc unit * gset string :=
  match l with
  | [] => (Ok tt, links)
  | x :: l' =>
      match body x links with
      | (Ok _, links') => for_each body l' links'
      | (Raise e, links') => (Raise e, links')
      end
  end.

Section Nextjs.
Context `{PyLib}.
Import Py Urllib Re.

(** [requests.get(url, headers=..., timeout=...)] *)
Variable requests_get : string → exc Response.

(** the static assets [walk_json] skips *)
Definition walk_skip : list string :=
  [".js"; ".css"; ".png"; ".jpg"; ".jpeg"; ".gif"; ".svg"].

(** [walk_json(obj, depth)].  [levels] is the number of levels the walk
    may still enter: the call at depth [d] has [levels = 11 - d], and the
    source returns at once when [d > 10]. *)
Fixpoint walk_json (base_url : string) (levels : nat) (obj : json)
    (links : gset string) : exc unit * gset string :=
  match levels with
  | O => (Ok tt, links)
  | S levels' =>
      match obj with
      | JDict items =>
          for_each (fun kv links =>
            match snd kv with
            | JStr v =>
                if mem (fst kv) ["slug"; "path"; "href"; "url"] then
                  if startswith v "/" && (1 <? len v) then
                    if negb (existsb (endswith v) walk_skip) then
                      let full_url := base_url +:+ v in
                      match normalize_url full_url with
                      | Ok n => (Ok tt, {[n]} ∪ links)
                      | Raise e => (Raise e, links)
                      end
                    else (Ok tt, links)
                  else (Ok tt, links)
                else (Ok tt, links)
            | JDict _ | JList _ => walk_json base_url levels' (snd kv) links
            | JOther => (Ok tt, links)
            end) items links
      | JList items =>
          for_each (fun item links => walk_json base_url levels' item links)
            items links
      | _ => (Ok tt, links)
      end
  end.

(** <script id=QUOTE__NEXT_DATA__QUOTE type=QUOTEapplication/jsonQUOTE>(.*?)</script>
    with the double quote, under re.DOTALL *)
Definition next_data_pattern : regex :=
  cat [lit ("<script id=" +:+ String dq "__NEXT_DATA__" +:+ String dq " type="
            +:+ String dq "application/json" +:+ String dq ">");
       Grp 1 (star_lazy (Chr (fun _ => true)));
       lit "</script>"].

(** self\.__next_f\.push\(\[\d+,QUOTE(.+?)QUOTE\]\) with the double quote *)
Definition next_f_pattern : regex :=
  cat [lit "self.__next_f.push(["; plus (Chr is_digit); lit ","; lit (String dq "");
       Grp 1 (Rep false 1 None (Chr (fun c => negb (Ascii.eqb c (ascii_of_nat 10)))));
       lit (String dq ""); lit "])"].

(** the patterns applied to every unescaped payload, each with the number
    of its groups *)
Definition blog_patterns : list (regex * nat) :=
  [ (* /blog/[a-zA-Z0-9-]+(?:-[a-zA-Z0-9-]+)* *)
    (cat [lit "/blog/"; plus (Chr (fun c => is_alnum c || Ascii.eqb c "-"));
          star (cat [lit "-"; plus (Chr (fun c => is_alnum c || Ascii.eqb c "-"))])], 0);
    (* /blog/[^QUOTE\\s<>]+[a-zA-Z0-9-]+ : the class excludes the double
       quote, the backslash, the letter s and the angle brackets *)
    (cat [lit "/blog/";
          plus (Chr (fun c => negb (chr_in c (String dq (String bs "s<>")))));
          plus (Chr (fun c => is_alnum c || Ascii.eqb c "-"))], 0);
    (* QUOTEslugQUOTE:QUOTE([^QUOTE]+)QUOTE *)
    (cat [lit (String dq "slug" +:+ String dq ":"); quoted_text 1], 1);
    (* QUOTEpathQUOTE:QUOTE(/blog/[^QUOTE]+)QUOTE *)
    (cat [lit (String dq "path" +:+ String dq ":" +:+ String dq "");
          Grp 1 (cat [lit "/blog/"; plus (none_of (String dq ""))]);
          lit (String dq "")], 1);
    (* QUOTEhrefQUOTE:QUOTE(/blog/[^QUOTE]+)QUOTE *)
    (cat [lit (String dq "href" +:+ String dq ":" +:+ String dq "");
          Grp 1 (cat [lit "/blog/"; plus (none_of (String dq ""))]);
          lit (String dq "")], 1);
    (* QUOTE/blog/([^QUOTE/]+) *)
    (cat [lit (String dq "/blog/");
          Grp 1 (plus (none_of (String dq "/")))], 1) ].

(** the texts [re.findall] returns for a pattern with at most one group *)
Definition findall01 (pattern : regex * nat) (s : string) : list string :=
  match snd pattern with
  | 0 => findall0 (fst pattern) s
  | _ => findall1 (fst pattern) s
  end.

Definition blog_skip : list string :=
  [".js"; ".css"; ".png"; ".jpg"; ".gif"; ".svg"].

(** the body of the loop over the matches of a pattern *)
Definition blog_match_step (base_url : string) (m : string) (links : gset string)
  : exc unit * gset string :=
  let url_path :=
    if startswith m "/blog/" then m
    else if negb (startswith m "/") then "/blog/" +:+ m
    else m in
  if negb (any_in blog_skip url_path) then
    if negb (String.eqb url_path "/blog") && (6 <? len url_path) then
      let full_url := base_url +:+ url_path in
      match normalize_url full_url with
      | Ok n => (Ok tt, {[n]} ∪ links)
      | Raise e => (Raise e, links)
      end
    else (Ok tt, links)
  else (Ok tt, links).

(** the unescaping of a payload: the texts backslash backslash, backslash
    QUOTE and backslash slash become backslash, QUOTE and slash *)
Definition unescape_payload (m : string) : string :=
  replace (String bs "/") "/"
    (replace (String bs (String dq "")) (String dq "")
       (replace (String bs (String bs "")) (String bs "") m)).

(** the body of the loop over the payloads of the push calls.
    [walk_bound] tells whether the name walk_json is bound: the function
    is defined in the branch that reads __NEXT_DATA__, after the data was
    parsed; where it is not, calling it raises NameError, which the
    handler of the loop body catches like any exception *)
Definition next_f_step (base_url : string) (walk_bound : bool)
    (links : gset string) (m : string) : gset string :=
  let json_str := unescape_payload m in
  match for_each (fun pattern_regex links =>
                    for_each (blog_match_step base_url)
                      (findall01 pattern_regex json_str) links)
          blog_patterns links with
  | (Raise _, links) => links                      (* except Exception: continue *)
  | (Ok _, links) =>
      match json_loads json_str with
      | None => links                              (* json.JSONDecodeError: continue *)
      | Some data =>
          if walk_bound then snd (walk_json base_url 11 data links)
          else links                               (* NameError: continue *)
      end
  end.

(** Method 2: Extract links from Next.js __NEXT_DATA__ *)
Definition extract_nextjs_data (url : string) : LinkResult :=
  try_except
    (let* response := requests_get url in
     let* _ := raise_for_status response in
     let html := resp_text response in
     let links : gset string := ∅ in
     let* parsed_url := urlparse url "" in
     let base_url := scheme parsed_url +:+ "://" +:+ netloc parsed_url in
     let* (links, walk_bound) :=
       (match head (finditer next_data_pattern html) with
        | Some m =>
            match json_loads (group m 1) with
            | Some data =>
                match walk_json base_url 11 data links with
                | (Ok _, links) => Ok (links, true)
                | (Raise e, _) => Raise e
                end
            | None => Ok (links, false)            (* json.JSONDecodeError: pass *)
            end
        | None => Ok (links, false)
        end) in
     let next_f_matches := findall1 next_f_pattern html in
     let links := fold_left (next_f_step base_url walk_bound) next_f_matches links in
     Ok {| success := true; method := Some "nextjs"; result_url := Some url;
           status_code := None;
           links := py_sorted (set_iter links); count := size links;
           error := None |})
    (fun e => failure (Some "nextjs") (exn_str e)).

End Nextjs.

(** the library with a [json.loads] that rejects every text *)
Definition without_json (H : PyLib) : PyLib :=
  {| bracketed_netloc_ok := @bracketed_netloc_ok H;
     nfkc_netloc_ok := @nfkc_netloc_ok H;
     charref_sub := @charref_sub H;
     json_loads := fun _ => None;
     decode_utf8_ignore := @decode_utf8_ignore H;
     unicode_lower := @unicode_lower H;
     set_iter := @set_iter H;
     set_iter_perm := @set_iter_perm H |}.

(** a page with one push call whose payload is the escaped text of the
    object with the key slug and the value my-first-post, and a site that
    answers every request with it *)
Definition push_page : string :=
  "<html>self.__next_f.push([1," +:+ String Re.dq "{" +:+ String Re.bs ""
  +:+ String Re.dq "slug" +:+ String Re.bs "" +:+ String Re.dq ":"
  +:+ String Re.bs "" +:+ String Re.dq "my-first-post" +:+ String Re.bs ""
  +:+ String Re.dq "}" +:+ String Re.dq "])</html>".
Definition push_get (u : string) : exc Response := Ok (mkResponse 200 push_page u).
(** a site that answers 404 *)
Definition missing_get (u : string) : exc Response := Ok (mkResponse 404 "" u).

(** the characters of a percent-encoded text *)
Definition quoted_chr (c : ascii) : bool :=
  Urllib.always_safe c || Py.chr_in c "+%".
(** the characters of an encoded query *)
Definition query_chr (c : ascii) : bool := quoted_chr c || Py.chr_in c "=&".

(** a page with an anchor whose target has a fragment and a tracking
    parameter *)
Definition fragment_get (u : string) : exc Response := Ok (mkResponse 200 "PAGE" u).
Definition fragment_soup (text : string) : list string :=
  ["/docs/intro?utm_source=mail#install"].

(** the characters [urlsplit] keeps: all but tab, carriage return and
    line feed *)
Definition safe_chr (c : ascii) : bool :=
  negb (Py.chr_in c (string_of_list_ascii
    [ascii_of_nat 9; ascii_of_nat 13; ascii_of_nat 10])).

(** a scheme as [urlsplit] returns it: empty, or a lower-case text of
    scheme characters that starts with an ASCII letter *)
Definition scheme_ok (s : string) : Prop :=
  s = "" ∨
  ∃ c0 pre, s = String c0 pre ∧
            (Py.is_ascii c0 && Py.is_alpha c0
             && Py.forall_chr Urllib.scheme_chars (String c0 pre)) = true ∧
            Py.lower s = s.

(** a netloc that passed the checks of [urlsplit] *)
Definition netloc_ok `{PyLib} (n : string) : Prop :=
  Py.forall_chr (fun c => negb (Py.chr_in c "/?#")) n = true ∧
  ((Py.contains "[" n && negb (Py.contains "]" n))
   || (Py.contains "]" n && negb (Py.contains "[" n))) = false ∧
  (Py.contains "[" n && Py.contains "]" n = true → bracketed_netloc_ok n = true) ∧
  Urllib.checknetloc n = Ok tt.

(** the filter of [normalize_url]: the key is not a tracking parameter *)
Definition functional_param `{PyLib} (kv : string * list string) : bool :=
  negb (Py.mem (str_lower (fst kv)) (map Py.lower tracking_params)).

(** a dict as [parse_qs] builds it: the keys are distinct and every key
    has at least one value *)
Definition dict_wf (d : list (string * list string)) : Prop :=
  NoDup (map fst d) ∧ Forall (fun kv => snd kv ≠ []) d.

(** the path that [urlunsplit] writes after a netloc *)
Definition rooted (url : string) : string :=
  if negb (String.eqb url "") && negb (Py.startswith url "/") then "/" +:+ url else url.

(** a text that is empty or starts with a slash *)
Definition root_or_empty (s : string) : Prop := s = "" ∨ Py.startswith s "/" = true.

(** a text that is well-formed UTF-8: decoding it with replacement
    leaves it as it is *)
Definition utf8_text (s : string) : Prop := Urllib.decode_utf8_replace s = s.

(** a dict whose keys and values are well-formed UTF-8 *)
Definition dict_text (d : list (string * list string)) : Prop :=
  Forall (fun kv => utf8_text (fst kv) ∧ Forall utf8_text (snd kv)) d.

(** * Properties *)

(** ** Sets, iteration and sorting *)

Section SetLemmas.
Context `{PyLib}.

Lemma set_iter_elem_of (s : gset string) (x : string) :
  x ∈ set_iter s ↔ x ∈ s.
Proof. rewrite set_iter_perm. apply elem_of_elements. Qed.

Lemma set_iter_NoDup (s : gset string) : NoDup (set_iter s).
Proof. rewrite set_iter_perm. apply NoDup_elements. Qed.

Lemma set_iter_length (s : gset string) : length (set_iter s) = size s.
Proof. rewrite set_iter_perm. reflexivity. Qed.

Lemma py_sorted_perm (l : list string) : py_sorted l ≡ₚ l.
Proof. apply merge_sort_Permutation. Qed.

Lemma py_sorted_sorted (l : list string) : StronglySorted String.le (py_sorted l).
Proof. apply StronglySorted_merge_sort; apply _. Qed.

Lemma sorted_set_length (s : gset string) :
  length (py_sorted (set_iter s)) = size s.
Proof. rewrite py_sorted_perm. apply set_iter_length. Qed.

Lemma sorted_set_NoDup (s : gset string) : NoDup (py_sorted (set_iter s)).
Proof. rewrite py_sorted_perm. apply set_iter_NoDup. Qed.

Lemma sorted_set_elem_of (s : gset string) (x : string) :
  x ∈ py_sorted (set_iter s) ↔ x ∈ s.
Proof. rewrite py_sorted_perm. apply set_iter_elem_of. Qed.

Lemma sorted_set_to_set (s : gset string) :
  list_to_set (py_sorted (set_iter s)) = s.
Proof.
  apply set_eq. intros x. rewrite elem_of_list_to_set.
  apply sorted_set_elem_of.
Qed.

(** the sorted list does not depend on the order of iteration *)
Lemma sorted_set_unique (s : gset string) (l : list string) :
  l ≡ₚ elements s → py_sorted l = py_sorted (set_iter s).
Proof.
  intros Hl. apply (StronglySorted_unique String.le).
  - apply py_sorted_sorted.
  - apply py_sorted_sorted.
  - rewrite !py_sorted_perm, Hl. symmetry. apply set_iter_perm.
Qed.
End SetLemmas.

(** ** URL canonicalization *)

Section NormalizeLemmas.
Context `{PyLib}.
Import Py Urllib.

Lemma endswith_slash_cons (c : ascii) (r : string) :
  endswith (String c r) "/" =
  match r with
  | EmptyString => Ascii.eqb c "/"
  | _ => endswith r "/"
  end.
Proof.
  unfold endswith, len. destruct r as [|d r]; simpl.
  - destruct (Ascii.eqb_spec c "/") as [->|Hc]; [reflexivity|].
    destruct (String.eqb_spec (String c "") "/") as [E|E]; [|reflexivity].
    congruence.
  - rewrite Nat.sub_0_r. reflexivity.
Qed.

Lemma app_empty_l (s : string) : "" +:+ s = s.
Proof. reflexivity. Qed.

Lemma app_cons (c : ascii) (a b : string) :
  String c a +:+ b = String c (a +:+ b).
Proof. reflexivity. Qed.

Lemma app_empty_r (s : string) : s +:+ "" = s.
Proof. induction s as [|c s IH]; [reflexivity|]. rewrite app_cons, IH. reflexivity. Qed.

Lemma rstrip_decomp (s : string) :
  ∃ k, s = rstrip "/" s +:+ repeat_chr "/" k.
Proof.
  induction s as [|c s [k IH]]; [exists 0; reflexivity|].
  simpl. destruct (rstrip "/" s) as [|d r] eqn:E.
  - rewrite app_empty_l in IH.
    unfold chr_in; simpl. destruct (Ascii.eqb_spec c "/") as [->|Hc]; simpl.
    + exists (S k). rewrite app_empty_l. simpl. f_equal. exact IH.
    + exists k. rewrite app_cons, app_empty_l. f_equal. exact IH.
  - exists k. rewrite app_cons. f_equal. exact IH.
Qed.

Lemma rstrip_no_trailing (s : string) : endswith (rstrip "/" s) "/" = false.
Proof.
  induction s as [|c s IH]; [reflexivity|].
  simpl. destruct (rstrip "/" s) as [|d r] eqn:E.
  - unfold chr_in; simpl. destruct (Ascii.eqb_spec c "/") as [->|Hc]; simpl.
    + reflexivity.
    + rewrite endswith_slash_cons. destruct (Ascii.eqb_spec c "/"); congruence.
  - rewrite endswith_slash_cons. exact IH.
Qed.

Lemma normalize_url_unfold (u : string) (parsed : ParseResult) :
  urlparse u "" = Ok parsed →
  ∃ q, normalize_url u =
       Ok (urlunparse (scheme parsed) (netloc parsed)
             (normalize_path (path parsed)) (params parsed) q "").
Proof. intros E. unfold normalize_url. rewrite E. simpl. eauto. Qed.
End NormalizeLemmas.

(** C1.  [normalize_url] is not idempotent: on http://x/a/;b/ the first
    pass removes the trailing slash of the path /a/;b/ and yields
    http://x/a/;b, whose path is /a/ with the parameter b; the second pass
    removes that slash too and yields http://x/a;b. *)
Theorem normalize_url_twice_differs `{PyLib} :
  normalize_url "http://x/a/;b/" = Ok "http://x/a/;b" ∧
  normalize_url "http://x/a/;b" = Ok "http://x/a;b" ∧
  exc_bind (normalize_url "http://x/a/;b/") normalize_url
    ≠ normalize_url "http://x/a/;b/".
Proof.
  assert (E1 : normalize_url "http://x/a/;b/" = Ok "http://x/a/;b")
    by (vm_compute; reflexivity).
  assert (E2 : normalize_url "http://x/a/;b" = Ok "http://x/a;b")
    by (vm_compute; reflexivity).
  split; [exact E1|]. split; [exact E2|].
  rewrite E1. simpl. rewrite E2. discriminate.
Qed.

(** C5, as the specification words it, fails: the path /a// loses both
    of its trailing slashes, it does not keep one. *)
Lemma trailing_slashes_counterexample :
  normalize_url "https://x.com/a//" = Ok "https://x.com/a" ∧
  normalize_url "https://x.com/a//" ≠ Ok "https://x.com/a/" ∧
  normalize_path "/a//" = "/a".
Proof. repeat split; try (vm_compute; reflexivity). vm_compute. discriminate. Qed.

(** C5, amended.  Canonicalization rebuilds the URL with the path
    [normalize_path p] in place of the parsed path [p]; the root path is
    left unchanged, and any other path loses all of its trailing slashes:
    [p] is [normalize_path p] followed by slashes only, and
    [normalize_path p] does not end with a slash. *)
Theorem trailing_slashes_all_removed `{PyLib} (u : string)
    (parsed : Urllib.ParseResult) :
  Urllib.urlparse u "" = Ok parsed →
  (∃ q, normalize_url u =
        Ok (Urllib.urlunparse (Urllib.scheme parsed) (Urllib.netloc parsed)
              (normalize_path (Urllib.path parsed)) (Urllib.params parsed) q "")) ∧
  (Urllib.path parsed = "/" → normalize_path (Urllib.path parsed) = "/") ∧
  (Urllib.path parsed ≠ "/" →
   ∃ k, Urllib.path parsed = normalize_path (Urllib.path parsed) +:+ Py.repeat_chr "/" k ∧
        Py.endswith (normalize_path (Urllib.path parsed)) "/" = false).
Proof.
  intros E. split; [exact (normalize_url_unfold u parsed E)|].
  split.
  - intros ->. reflexivity.
  - intros Hne. unfold normalize_path.
    destruct (String.eqb_spec (Urllib.path parsed) "/") as [?|_]; [contradiction|].
    simpl. destruct (Py.endswith (Urllib.path parsed) "/") eqn:Hend.
    + destruct (rstrip_decomp (Urllib.path parsed)) as [k Hk].
      exists k. split; [exact Hk|apply rstrip_no_trailing].
    + exists 0. split; [|exact Hend].
      simpl. symmetry. apply app_empty_r.
Qed.

Lemma trailing_slashes_all_removed_witness :
  Urllib.urlparse "https://x.com/a//" "" =
    Ok (Urllib.mkParse "https" "x.com" "/a//" "" "" "") ∧
  ∃ k, "/a//" = normalize_path "/a//" +:+ Py.repeat_chr "/" k.
Proof.
  split; [vm_compute; reflexivity|].
  destruct (trailing_slashes_all_removed "https://x.com/a//"
              (Urllib.mkParse "https" "x.com" "/a//" "" "" ""))
    as (_ & _ & Hk); [vm_compute; reflexivity|].
  destruct Hk as (k & Hk & _); [discriminate|]. exists k. exact Hk.
Defined.

(** ** Exceptions *)

Lemma exc_bind_Ok {A B} (m : exc A) (f : A → exc B) (b : B) :
  exc_bind m f = Ok b → ∃ a, m = Ok a ∧ f a = Ok b.
Proof. destruct m as [a|e]; simpl; [eauto|discriminate]. Qed.

Lemma foldM_app {A B} (f : A → B → exc A) (l1 l2 : list B) (a : A) :
  foldM f (l1 ++ l2) a = exc_bind (foldM f l1 a) (foldM f l2).
Proof.
  revert a. induction l1 as [|x l1 IH]; intros a; simpl; [reflexivity|].
  destruct (f a x) as [a'|e]; simpl; [apply IH|reflexivity].
Qed.

(** what holds of every value a [try] returns holds of its result *)
Lemma try_except_ind {A} (P : A → Prop) (m : exc A) (h : exn → A) :
  (∀ a, m = Ok a → P a) → (∀ e, P (h e)) → P (try_except m h).
Proof. intros Hok Herr. destruct m as [a|e]; simpl; auto. Qed.

(** ** The shape of the results (C10) *)

Lemma well_shaped_nil : well_shaped 0 [].
Proof. repeat split; constructor. Qed.

Section Shape.
Context `{PyLib}.

Lemma well_shaped_set (s : gset string) :
  well_shaped (size s) (py_sorted (set_iter s)).
Proof.
  split; [symmetry; apply sorted_set_length|].
  split; [apply sorted_set_NoDup|apply py_sorted_sorted].
Qed.

Lemma well_shaped_length (l : list string) (s : gset string) :
  l = py_sorted (set_iter s) → well_shaped (length l) l.
Proof.
  intros ->. rewrite sorted_set_length. apply well_shaped_set.
Qed.

Lemma extract_links_from_html_sorted_set (html_content base_url : string)
    (l : list string) :
  extract_links_from_html html_content base_url = Ok l →
  ∃ s, l = py_sorted (set_iter s).
Proof.
  unfold extract_links_from_html. intros E.
  apply exc_bind_Ok in E as (bp & _ & E).
  apply exc_bind_Ok in E as (s & _ & E).
  exists s. congruence.
Qed.

Lemma scrape_url_shape (requests_get : string → exc Response) (url : string) :
  well_shaped (count (scrape_url requests_get url))
              (links (scrape_url requests_get url)).
Proof.
  unfold scrape_url.
  apply (try_except_ind (fun r => well_shaped (count r) (links r))).
  - intros r E. apply exc_bind_Ok in E as (parsed & _ & E).
    destruct (_ || _).
    + injection E as <-. apply well_shaped_nil.
    + apply exc_bind_Ok in E as (response & _ & E).
      apply exc_bind_Ok in E as (? & _ & E).
      apply exc_bind_Ok in E as (l & Hl & E).
      injection E as <-. simpl.
      apply extract_links_from_html_sorted_set in Hl as (s & Hs).
      exact (well_shaped_length l s Hs).
  - intros e. destruct (exn_cls e); apply well_shaped_nil.
Qed.

(** a result of the static strategy is a failure or lists a set *)
Lemma extract_static_links_cases (requests_get : string → exc Response)
    (soup_a_href : string → list string) (url : string) :
  let r := extract_static_links requests_get soup_a_href url in
  (success r = false ∧ links r = [] ∧ count r = 0) ∨
  (success r = true ∧ ∃ s, links r = py_sorted (set_iter s) ∧ count r = size s).
Proof.
  unfold extract_static_links.
  apply (try_except_ind (fun r =>
    (success r = false ∧ links r = [] ∧ count r = 0) ∨
    (success r = true ∧ ∃ s, links r = py_sorted (set_iter s) ∧ count r = size s))).
  - intros r E. right.
    apply exc_bind_Ok in E as (parsed & _ & E).
    apply exc_bind_Ok in E as (response & _ & E).
    apply exc_bind_Ok in E as (? & _ & E).
    apply exc_bind_Ok in E as (s & _ & E).
    injection E as <-. simpl. eauto.
  - intros e. left. repeat split.
Qed.

Lemma extract_static_links_shape (requests_get : string → exc Response)
    (soup_a_href : string → list string) (url : string) :
  well_shaped (count (extract_static_links requests_get soup_a_href url))
              (links (extract_static_links requests_get soup_a_href url)).
Proof.
  destruct (extract_static_links_cases requests_get soup_a_href url)
    as [(_ & -> & ->)|(_ & s & -> & ->)].
  - apply well_shaped_nil.
  - apply well_shaped_set.
Qed.

Lemma extract_links_hybrid_shape (requests_get : string → exc Response)
    (soup_a_href : string → list string)
    (extract_nextjs_data extract_dynamic_links : string → LinkResult)
    (url : string) :
  let r := fst (extract_links_hybrid requests_get soup_a_href
                  extract_nextjs_data extract_dynamic_links url) in
  well_shaped (h_count r) (h_links r).
Proof.
  unfold extract_links_hybrid.
  destruct (size _ <? 5).
  - destruct (merge_result "dynamic" _ _ _) as [[all_links mu] errs]. simpl.
    apply well_shaped_set.
  - destruct (merge_result "nextjs" _ _ _) as [[all_links mu] errs]. simpl.
    apply well_shaped_set.
Qed.

Lemma extract_links_from_network_shape (page : NetworkBrowser) (url : string) :
  well_shaped (count (extract_links_from_network page url))
              (links (extract_links_from_network page url)).
Proof.
  unfold extract_links_from_network.
  apply (try_except_ind (fun r => well_shaped (count r) (links r))).
  - intros r E.
    apply exc_bind_Ok in E as (parsed & _ & E).
    apply exc_bind_Ok in E as (? & _ & E).
    apply exc_bind_Ok in E as (ls & _ & E).
    apply exc_bind_Ok in E as (fl & _ & E).
    injection E as <-. simpl. apply well_shaped_set.
  - intros e. apply well_shaped_nil.
Qed.

(** [scrape_url] too returns its errors as data: when the request raises
    or is answered with a status from 400 to 599, the result is a failure
    dictionary with an error text and no link *)
Lemma scrape_url_errors_are_data (requests_get : string → exc Response)
    (url : string) :
  ((∃ e, requests_get url = Raise e) ∨
   (∃ r, requests_get url = Ok r ∧
         (400 ≤ resp_status_code r)%Z ∧ (resp_status_code r < 600)%Z)) →
  success (scrape_url requests_get url) = false ∧
  error (scrape_url requests_get url) ≠ None ∧
  links (scrape_url requests_get url) = [].
Proof.
  intros Hreq. unfold scrape_url.
  destruct (Urllib.urlparse url "") as [parsed|e0]; simpl.
  - destruct (_ || _); simpl; [repeat split; discriminate|].
    destruct Hreq as [[e ->]|(r & -> & Hlo & Hhi)]; simpl.
    + destruct (exn_cls e); repeat split; discriminate.
    + unfold raise_for_status.
      destruct (400 <=? resp_status_code r)%Z eqn:E1; [|apply Z.leb_gt in E1; lia].
      destruct (resp_status_code r <? 600)%Z eqn:E2; [|apply Z.ltb_ge in E2; lia].
      simpl. repeat split; discriminate.
  - destruct (exn_cls e0); repeat split; discriminate.
Qed.

End Shape.

(** C10.  In every result of [scrape_url], [extract_static_links],
    [extract_links_hybrid] and [extract_links_from_network], whatever the
    network and the browser answer, the count is the length of the list
    of links, and the list has no duplicate and is sorted in ascending
    order. *)
Theorem result_shape `{PyLib}
    (requests_get : string → exc Response) (soup_a_href : string → list string)
    (extract_nextjs_data extract_dynamic_links : string → LinkResult)
    (page : NetworkBrowser) (url : string) :
  well_shaped (count (scrape_url requests_get url))
              (links (scrape_url requests_get url)) ∧
  well_shaped (count (extract_static_links requests_get soup_a_href url))
              (links (extract_static_links requests_get soup_a_href url)) ∧
  well_shaped
    (h_count (fst (extract_links_hybrid requests_get soup_a_href
                     extract_nextjs_data extract_dynamic_links url)))
    (h_links (fst (extract_links_hybrid requests_get soup_a_href
                     extract_nextjs_data extract_dynamic_links url))) ∧
  well_shaped (count (extract_links_from_network page url))
              (links (extract_links_from_network page url)).
Proof.
  split; [apply scrape_url_shape|].
  split; [apply extract_static_links_shape|].
  split; [apply extract_links_hybrid_shape|apply extract_links_from_network_shape].
Qed.

(** ** The aggregator (C2) *)

Section Escalation.
Context `{PyLib}.

Lemma merge_result_mono (name label : string) (r : LinkResult)
    (st : gset string * list string * list string) :
  st.1.1 ⊆ (merge_result name label r st).1.1.
Proof.
  destruct st as [[all_links mu] errs]. unfold merge_result.
  destruct (success r && (0 <? count r)); simpl; set_solver.
Qed.

Lemma merge_static_enough (requests_get : string → exc Response)
    (soup_a_href : string → list string) (url : string)
    (st : gset string * list string * list string) :
  min_links ≤ count (extract_static_links requests_get soup_a_href url) →
  min_links ≤ size (merge_result "static" "Static"
                      (extract_static_links requests_get soup_a_href url) st).1.1.
Proof.
  intros Hc.
  destruct (extract_static_links_cases requests_get soup_a_href url)
    as [(_ & _ & Hz)|(Hs & s & Hl & Hn)];
    [rewrite Hz in Hc; unfold min_links in Hc; lia|].
  destruct st as [[all_links mu] errs]. unfold merge_result.
  rewrite Hs. unfold min_links in *.
  destruct (0 <? count _) eqn:Hpos; [|apply Nat.ltb_ge in Hpos; lia].
  simpl. rewrite Hl, sorted_set_to_set.
  etrans; [|apply subseteq_size, union_subseteq_r]. lia.
Qed.

End Escalation.

(** C2, as the specification words it, fails: with a static strategy
    that returns five links, which meets the threshold, the Next.js
    strategy is invoked all the same. *)
Lemma escalation_counterexample :
  min_links ≤ count (extract_static_links five_links_get five_links_soup "https://a.com") ∧
  In NextjsStrategy
    (snd (extract_links_hybrid five_links_get five_links_soup no_links no_links
            "https://a.com")).
Proof.
  split.
  - vm_compute. lia.
  - vm_compute. right. left. reflexivity.
Qed.

(** C2, amended.  Whenever the static strategy run by the aggregator
    returns a count that meets the threshold of five links, the
    aggregator invokes the static strategy and then the Next.js strategy,
    which it always runs, and nothing else: dynamic rendering is not
    invoked. *)
Theorem static_enough_skips_dynamic `{PyLib}
    (requests_get : string → exc Response) (soup_a_href : string → list string)
    (extract_nextjs_data extract_dynamic_links : string → LinkResult)
    (url : string) :
  min_links ≤ count (extract_static_links requests_get soup_a_href url) →
  snd (extract_links_hybrid requests_get soup_a_href
         extract_nextjs_data extract_dynamic_links url)
  = [StaticStrategy; NextjsStrategy].
Proof.
  intros Hc. unfold extract_links_hybrid.
  pose proof (merge_static_enough requests_get soup_a_href url (∅, [], []) Hc)
    as Hsize.
  pose proof (merge_result_mono "nextjs" "Next.js" (extract_nextjs_data url)
                (merge_result "static" "Static"
                   (extract_static_links requests_get soup_a_href url) (∅, [], [])))
    as Hmono.
  apply subseteq_size in Hmono. unfold min_links in Hsize.
  destruct (size _ <? 5) eqn:E.
  - apply Nat.ltb_lt in E. lia.
  - destruct (merge_result "nextjs" _ _ _) as [[all_links mu] errs]. reflexivity.
Qed.

Lemma static_enough_skips_dynamic_witness :
  snd (extract_links_hybrid five_links_get five_links_soup no_links no_links
         "https://a.com")
  = [StaticStrategy; NextjsStrategy].
Proof.
  apply static_enough_skips_dynamic. vm_compute. lia.
Defined.

(** ** The same-origin filter (C6) *)

(** C6.  The host a.www.com is not the host a.com, with or without a
    leading www., yet on a page of https://a.com the link
    https://a.www.com/x is in the links of the static strategy and in the
    links [extract_links_from_html] returns: the filter removes every
    occurrence of www. from the two hosts before it compares them. *)
Theorem cross_host_link_accepted :
  spec_same_origin "a.com" "a.www.com" = false ∧
  In "https://a.www.com/x"
     (links (extract_static_links cross_host_get cross_host_soup "https://a.com")) ∧
  (∃ l, extract_links_from_html cross_host_html "https://a.com" = Ok l ∧
        In "https://a.www.com/x" l).
Proof.
  split; [reflexivity|]. split.
  - vm_compute. left. reflexivity.
  - eexists. split; [vm_compute; reflexivity|]. right. left. reflexivity.
Qed.

(** ** The crawl frontier *)

Section Frontier.
Context `{PyLib}.
Import Urllib.
Variable session_get : list string → string → exc AioResponse.
Variable save_file : list string → string → string → exc unit.
Variable parse_html : string → Soup.

#[local] Abbreviation download_single_file :=
  (download_single_file session_get save_file parse_html).
#[local] Abbreviation download_body :=
  (download_body session_get save_file parse_html).
#[local] Abbreviation gather := (gather session_get save_file parse_html).
#[local] Abbreviation depth_loop := (depth_loop session_get save_file parse_html).
#[local] Abbreviation frontier := (frontier session_get save_file parse_html).
#[local] Abbreviation run_downloads :=
  (run_downloads session_get save_file parse_html).

(** [should_download] does not raise: the second [urlparse] of the URL
    succeeds when the first one, in [is_same_domain], did *)
Lemma should_download_total (self : AdvancedScraper) (url : string) :
  ∃ b, should_download self url = Ok b.
Proof.
  unfold should_download, is_same_domain.
  destruct (urlparse url "") as [parsed|e]; simpl.
  - destruct (negb _); [eauto|]. destruct (bool_decide _); eauto.
  - eauto.
Qed.

Lemma should_download_not_visited (self : AdvancedScraper) (url : string) :
  should_download self url = Ok true → url ∉ visited_urls self.
Proof.
  unfold should_download. destruct (negb _); [discriminate|].
  destruct (bool_decide _) eqn:E; [discriminate|].
  intros _. apply bool_decide_eq_false in E. exact E.
Qed.

Lemma should_download_same_domain (self : AdvancedScraper) (url : string) :
  should_download self url = Ok true → is_same_domain self url = true.
Proof.
  unfold should_download. destruct (is_same_domain self url); [reflexivity|].
  discriminate.
Qed.

Lemma is_same_domain_parsed_base (a b : AdvancedScraper) (url : string) :
  parsed_base b = parsed_base a → is_same_domain b url = is_same_domain a url.
Proof. intros E. unfold is_same_domain. rewrite E. reflexivity. Qed.

Lemma should_download_visited (self : AdvancedScraper) (url : string) :
  url ∈ visited_urls self → should_download self url = Ok false.
Proof.
  intros Hv. unfold should_download. destruct (negb _); [reflexivity|].
  rewrite bool_decide_eq_true_2; [reflexivity|exact Hv].
Qed.

Lemma add_discovered_step (visited : gset string)
    (st : gset string * list string) (x : string) :
  fst st ⊆ fst (add_discovered visited st x) ∧
  ∀ u, u ∈ fst (add_discovered visited st x) → u ∈ fst st ∨ ((u ∉ visited) ∧ u = x).
Proof.
  destruct st as [d nl]. unfold add_discovered.
  destruct (bool_decide (x ∈ visited)) eqn:Ev; simpl; [split; [reflexivity|auto]|].
  destruct (bool_decide (x ∈ d)) eqn:Ed; simpl; [split; [reflexivity|auto]|].
  apply bool_decide_eq_false in Ev. split; [set_solver|].
  intros u Hu. apply elem_of_union in Hu as [Hu|Hu]; [|auto].
  apply elem_of_singleton in Hu as ->. auto.
Qed.

Lemma add_discovered_fold (visited : gset string) (l : list string)
    (st : gset string * list string) :
  fst st ⊆ fst (fold_left (add_discovered visited) l st) ∧
  ∀ u, u ∈ fst (fold_left (add_discovered visited) l st) →
       u ∈ fst st ∨ ((u ∉ visited) ∧ u ∈ l).
Proof.
  revert st. induction l as [|x l IH]; intros st; simpl.
  - split; [reflexivity|auto].
  - destruct (IH (add_discovered visited st x)) as [H1 H2].
    destruct (add_discovered_step visited st x) as [S1 S2].
    split; [etrans; eassumption|].
    intros u Hu. destruct (H2 u Hu) as [Hd|[? ?]].
    + destruct (S2 u Hd) as [?|[? ->]]; [auto|].
      right. split; [assumption|]. apply elem_of_cons. auto.
    + right. split; [assumption|]. apply elem_of_cons. auto.
Qed.

(** what the body of the [try] does to the discovered set *)
Lemma download_body_discovered (self : AdvancedScraper) (url : string)
    (depth : Z) (res : DownloadResult) (d : gset string)
    (files : list FileRecord) :
  download_body self url depth = Ok (res, d, files) →
  discovered_urls self ⊆ d ∧
  (∀ u, u ∈ d → u ∈ discovered_urls self ∨ u ∉ visited_urls self) ∧
  ((max_depth self ≤ depth)%Z → d = discovered_urls self).
Proof.
  unfold download_body. intros E.
  apply exc_bind_Ok in E as (response & _ & E).
  destruct (negb _).
  { injection E as _ <- _. split; [reflexivity|]. split; auto. }
  apply exc_bind_Ok in E as (content & _ & E).
  apply exc_bind_Ok in E as ([file_type relative_path] & _ & E).
  apply exc_bind_Ok in E as (? & _ & E).
  apply exc_bind_Ok in E as (html & _ & E).
  destruct (html && (depth <? max_depth self)%Z) eqn:Hcond.
  - apply andb_true_iff in Hcond as [_ Hlt]. apply Z.ltb_lt in Hlt.
    destruct (extract_all_links parse_html _ url) as [extracted|e]; simpl in E.
    + pose proof (add_discovered_fold (visited_urls self) extracted
                    (discovered_urls self, [])) as [H1 H2].
      destruct (fold_left _ extracted _) as [discovered new_links].
      simpl in *. injection E as _ <- _.
      split; [exact H1|]. split; [|lia].
      intros u Hu. destruct (H2 u Hu) as [?|[? _]]; auto.
    + injection E as _ <- _. split; [reflexivity|]. split; auto.
  - injection E as _ <- _. split; [reflexivity|]. split; auto.
Qed.

Lemma advances_refl (urls : list string) (depth : Z) (self : AdvancedScraper) :
  advances urls depth self self.
Proof.
  unfold advances.
  split; [reflexivity|]. split; [reflexivity|]. split; [reflexivity|].
  split; [reflexivity|]. split; [auto|]. split; [reflexivity|].
  split; [auto|]. split; [auto|]. split; [|auto].
  exists []. split; [symmetry; apply app_nil_r|].
  split; [intros u Hu; apply elem_of_nil in Hu; contradiction|].
  intros u _. apply not_elem_of_nil.
Qed.

Lemma advances_trans (us vs : list string) (depth : Z)
    (a b c : AdvancedScraper) :
  advances us depth a b → advances vs depth b c → advances (us ++ vs) depth a c.
Proof.
  intros (A1 & A2 & A3 & A4 & A5 & A6 & A7 & A8 & (l1 & A9 & A9' & A9v) & A10)
         (B1 & B2 & B3 & B4 & B5 & B6 & B7 & B8 & (l2 & B9 & B9' & B9v) & B10).
  unfold advances.
  split; [congruence|]. split; [congruence|]. split; [congruence|].
  split; [etrans; eassumption|].
  split.
  { intros u Hu. destruct (B5 u Hu) as [Hb|[Hv Hs]].
    - destruct (A5 u Hb) as [?|[? ?]]; [auto|].
      right. split; [apply elem_of_app; auto|assumption].
    - right. split; [apply elem_of_app; auto|].
      rewrite <- Hs. symmetry. apply is_same_domain_parsed_base, A2. }
  split; [etrans; eassumption|].
  split; [intros u Hv Hu; apply A7; [assumption|]; apply B7; [apply A4|]; assumption|].
  split; [intros Hd; rewrite B8, A8; [reflexivity|assumption|congruence]|].
  split; [|auto].
  exists (l1 ++ l2). split; [rewrite B9, A9; symmetry; apply app_assoc|].
  split.
  - intros u Hu. apply elem_of_app. apply elem_of_app in Hu as [?|?]; auto.
  - intros u Hv Hu. apply elem_of_app in Hu as [Hu|Hu].
    + exact (A9v u Hv Hu).
    + exact (B9v u (A4 u Hv) Hu).
Qed.

(** [download_single_file] returns a dictionary, it does not raise; it
    either skips the URL and leaves the state as it is, or marks the URL
    visited, requests it once, and may enlarge the discovered set with
    URLs that are not visited *)
Lemma download_single_file_spec (self : AdvancedScraper) (url : string)
    (depth : Z) :
  ∃ res self',
    download_single_file self url depth = (Ok res, self') ∧
    advances [url] depth self self' ∧
    ((res = Skipped url "filtered_or_max_depth" ∧ self' = self ∧
      (should_download self url = Ok false ∨ (max_depth self < depth)%Z))
     ∨
     (should_download self url = Ok true ∧ (depth ≤ max_depth self)%Z ∧
      visited_urls self' = {[url]} ∪ visited_urls self ∧
      fetched self' = fetched self ++ [url])).
Proof.
  unfold download_single_file.
  destruct (should_download_total self url) as [ok Hok]. rewrite Hok.
  pose proof (advances_refl [url] depth self) as Hskip.
  destruct ok; simpl.
  2:{ eexists _, _. split; [reflexivity|]. split; [exact Hskip|]. left. auto. }
  destruct (max_depth self <? depth)%Z eqn:Hd.
  { apply Z.ltb_lt in Hd. eexists _, _. split; [reflexivity|].
    split; [exact Hskip|]. left. auto. }
  apply Z.ltb_ge in Hd.
  pose proof (should_download_not_visited self url Hok) as Hnv.
  set (marked := mkAdvancedScraper (base_url self) (parsed_base self)
                   (max_depth self) ({[url]} ∪ visited_urls self)
                   (discovered_urls self) (downloaded_files self) (fetched self)).
  assert (Hinv : ∀ d files,
           fetched_inv self →
           fetched_inv (mkAdvancedScraper (base_url self) (parsed_base self)
                          (max_depth self) ({[url]} ∪ visited_urls self)
                          d files (fetched self ++ [url]))).
  { intros d files [Hnd Hsub]. split; simpl.
    - apply NoDup_app. split; [exact Hnd|]. split; [|apply NoDup_singleton].
      intros x Hx Hx'. apply list_elem_of_singleton in Hx' as ->.
      apply Hnv, Hsub, Hx.
    - intros u Hu. apply elem_of_app in Hu as [Hu|Hu].
      + apply elem_of_union_r, Hsub, Hu.
      + apply list_elem_of_singleton in Hu as ->. set_solver. }
  assert (Hadv : ∀ d files,
           discovered_urls self ⊆ d →
           (∀ u, u ∈ d → u ∈ discovered_urls self ∨ u ∉ {[url]} ∪ visited_urls self) →
           ((max_depth self ≤ depth)%Z → d = discovered_urls self) →
           advances [url] depth self
             (mkAdvancedScraper (base_url self) (parsed_base self)
                (max_depth self) ({[url]} ∪ visited_urls self)
                d files (fetched self ++ [url]))).
  { intros d files H1 H2 H3. unfold advances. simpl.
    split; [reflexivity|]. split; [reflexivity|]. split; [reflexivity|].
    split; [apply union_subseteq_r|].
    split.
    { intros u Hu. apply elem_of_union in Hu as [Hu|Hu]; [|auto].
      apply elem_of_singleton in Hu as ->. right.
      split; [apply list_elem_of_singleton; reflexivity|].
      apply should_download_same_domain, Hok. }
    split; [exact H1|].
    split.
    { intros u Hv Hu. destruct (H2 u Hu) as [?|Hn]; [assumption|].
      exfalso. apply Hn. apply elem_of_union_r. exact Hv. }
    split; [exact H3|].
    split; [|apply Hinv].
    exists [url]. split; [reflexivity|]. split; [auto|].
    intros u Hv Hu. apply list_elem_of_singleton in Hu as ->. contradiction. }
  destruct (download_body marked url depth) as [[[result discovered] downloaded]|e]
    eqn:Hbody; simpl.
  - apply download_body_discovered in Hbody as (H1 & H2 & H3). simpl in *.
    eexists _, _. split; [reflexivity|]. split; [apply Hadv; assumption|].
    right. repeat split; auto.
  - eexists _, _. split; [reflexivity|]. split.
    + apply Hadv; [reflexivity|auto|auto].
    + right. repeat split; auto.
Qed.


Lemma advances_grows (urls : list string) (depth : Z) (a b : AdvancedScraper) :
  advances urls depth a b → grows a b.
Proof.
  intros (A1 & A2 & A3 & A4 & A5 & A6 & A7 & A8 & (l1 & A9 & _ & A9v) & A10).
  unfold grows. eauto 12.
Qed.

Lemma grows_refl (a : AdvancedScraper) : grows a a.
Proof. apply (advances_grows [] 0), advances_refl. Qed.

Lemma grows_trans (a b c : AdvancedScraper) : grows a b → grows b c → grows a c.
Proof.
  intros (A1 & A2 & A3 & A4 & A6 & A7 & (l1 & A9 & A9v) & A10)
         (B1 & B2 & B3 & B4 & B6 & B7 & (l2 & B9 & B9v) & B10).
  unfold grows.
  split; [congruence|]. split; [congruence|]. split; [congruence|].
  split; [etrans; eassumption|]. split; [etrans; eassumption|].
  split; [intros u Hv Hu; apply A7; [assumption|]; apply B7; [apply A4|]; assumption|].
  split; [|auto].
  exists (l1 ++ l2). split; [rewrite B9, A9; symmetry; apply app_assoc|].
  intros u Hv Hu. apply elem_of_app in Hu as [Hu|Hu].
  - exact (A9v u Hv Hu).
  - exact (B9v u (A4 u Hv) Hu).
Qed.

(** the tasks of a depth level return, none raises *)
Lemma gather_spec (urls : list string) (depth : Z) (self : AdvancedScraper) :
  ∃ rs self', gather urls depth self = (Ok rs, self') ∧
              advances urls depth self self'.
Proof.
  revert self. induction urls as [|url urls IH]; intros self; simpl.
  - eexists _, _. split; [reflexivity|apply advances_refl].
  - destruct (download_single_file_spec self url depth) as (r & s1 & -> & Hadv & _).
    destruct (IH s1) as (rs & s2 & -> & Hadv2).
    eexists _, _. split; [reflexivity|].
    exact (advances_trans [url] urls depth self s1 s2 Hadv Hadv2).
Qed.

Lemma depth_loop_cons (d : Z) (depths : list Z) (self : AdvancedScraper) :
  depth_loop (d :: depths) self =
  match urls_at_depth self with
  | [] => (Ok tt, self)
  | _ :: _ =>
      match gather (firstn batch_cap (urls_at_depth self)) d self with
      | (Ok _, self') => depth_loop depths self'
      | (Raise e, self') => (Raise e, self')
      end
  end.
Proof.
  change (depth_loop (d :: depths) self) with
    (match urls_at_depth self with
     | [] => (Ok tt, self)
     | u :: urls =>
         match gather (firstn batch_cap (u :: urls)) d self with
         | (Ok _, self') => depth_loop depths self'
         | (Raise e, self') => (Raise e, self')
         end
     end).
  destruct (urls_at_depth self); reflexivity.
Qed.

(** the loop over the depth levels ends without exception *)
Lemma depth_loop_spec (depths : list Z) (self : AdvancedScraper) :
  ∃ self', depth_loop depths self = (Ok tt, self') ∧ grows self self'.
Proof.
  revert self. induction depths as [|d depths IH]; intros self.
  - eexists. split; [reflexivity|apply grows_refl].
  - rewrite depth_loop_cons. destruct (urls_at_depth self) as [|u urls] eqn:E.
    + eexists. split; [reflexivity|apply grows_refl].
    + rewrite <- E.
      destruct (gather_spec (firstn batch_cap (urls_at_depth self)) d self)
        as (rs & s1 & -> & Hadv).
      destruct (IH s1) as (s2 & -> & Hg).
      eexists. split; [reflexivity|].
      eapply grows_trans; [eapply advances_grows|]; eassumption.
Qed.

Lemma frontier_spec (self : AdvancedScraper) :
  ∃ self', frontier self = (Ok tt, self') ∧
           (fetched_inv self → fetched_inv self').
Proof.
  unfold frontier. cbv zeta.
  set (s0 := mkAdvancedScraper (base_url self) (parsed_base self)
               (max_depth self) (visited_urls self)
               ({[base_url self]} ∪ discovered_urls self)
               (downloaded_files self) (fetched self)).
  destruct (depth_loop_spec (range (max_depth s0 + 1)) s0)
    as (s' & -> & (_ & _ & _ & _ & _ & _ & _ & Hinv)).
  exists s'. split; [reflexivity|]. intros Hi. apply Hinv. exact Hi.
Qed.

Lemma run_downloads_grows (calls : list (string * Z)) (self : AdvancedScraper) :
  grows self (run_downloads calls self).
Proof.
  revert self. induction calls as [|[url depth] calls IH]; intros self; simpl.
  - apply grows_refl.
  - destruct (download_single_file_spec self url depth) as (r & s1 & E & Hadv & _).
    unfold run_downloads in *. simpl. rewrite E. simpl.
    eapply grows_trans; [eapply advances_grows; eassumption|apply IH].
Qed.

Lemma urls_at_depth_elem_of (self : AdvancedScraper) (u : string) :
  u ∈ urls_at_depth self ↔ u ∈ discovered_urls self ∧ u ∉ visited_urls self.
Proof.
  unfold urls_at_depth. rewrite list_elem_of_In, filter_In, <- list_elem_of_In.
  rewrite set_iter_elem_of, negb_true_iff, bool_decide_eq_false. reflexivity.
Qed.

(** a visited URL is skipped: nothing is requested, nothing changes *)
Lemma download_visited_skipped (self : AdvancedScraper) (url : string) (depth : Z) :
  url ∈ visited_urls self →
  download_single_file self url depth
  = (Ok (Skipped url "filtered_or_max_depth"), self).
Proof.
  intros Hv. unfold download_single_file.
  rewrite (should_download_visited self url Hv). reflexivity.
Qed.

Lemma run_downloads_app (before after : list (string * Z))
    (self : AdvancedScraper) :
  run_downloads (before ++ after) self
  = run_downloads after (run_downloads before self).
Proof. unfold run_downloads. apply fold_left_app. Qed.


(** C8, amended.  The targets of a depth level beyond the cap of fifty
    are not requested at that level, but they are not dropped either:
    after the level they are still discovered and unvisited, so the next
    depth level, if there is one, has them among its targets. *)
Theorem batch_surplus_deferred (self : AdvancedScraper) (depth : Z) (u : string) :
  fetched_inv self →
  u ∈ skipn batch_cap (urls_at_depth self) →
  (u ∉ fetched (snd (gather (firstn batch_cap (urls_at_depth self)) depth self))) ∧
  u ∈ discovered_urls
        (snd (gather (firstn batch_cap (urls_at_depth self)) depth self)) ∧
  (u ∉ visited_urls
         (snd (gather (firstn batch_cap (urls_at_depth self)) depth self))) ∧
  u ∈ urls_at_depth
        (snd (gather (firstn batch_cap (urls_at_depth self)) depth self)).
Proof.
  intros Hinv Hu.
  destruct (gather_spec (firstn batch_cap (urls_at_depth self)) depth self)
    as (rs & s' & -> & Hadv). simpl.
  destruct Hadv as (_ & _ & _ & _ & Hvis & Hdisc & _ & _ & _ & Hpres).
  assert (Hnd : NoDup (urls_at_depth self)).
  { unfold urls_at_depth. apply NoDup_ListNoDup, List.NoDup_filter.
    apply NoDup_ListNoDup, set_iter_NoDup. }
  assert (Hin : u ∈ urls_at_depth self).
  { exact (subseteq_drop batch_cap _ u Hu). }
  assert (Hnot : u ∉ firstn batch_cap (urls_at_depth self)).
  { rewrite <- (take_drop batch_cap (urls_at_depth self)) in Hnd.
    apply NoDup_app in Hnd as (_ & Hdisj & _).
    intros Hf. exact (Hdisj u Hf Hu). }
  apply urls_at_depth_elem_of in Hin as [Hd Hnv].
  assert (Hnv' : u ∉ visited_urls s').
  { intros Hv. destruct (Hvis u Hv) as [?|[? _]]; contradiction. }
  assert (Hd' : u ∈ discovered_urls s') by (apply Hdisc, Hd).
  split.
  { intros Hf. apply Hnv'. destruct (Hpres Hinv) as [_ Hsub]. apply Hsub, Hf. }
  split; [exact Hd'|]. split; [exact Hnv'|].
  apply urls_at_depth_elem_of. auto.
Qed.


(** a request that raises, or that is answered with a status other than
    200, ends the task with an error dictionary *)
Lemma download_failed (self : AdvancedScraper) (url : string) (depth : Z) :
  should_download self url = Ok true →
  (depth ≤ max_depth self)%Z →
  ((∃ e, session_get (fetched self) url = Raise e) ∨
   (∃ r, session_get (fetched self) url = Ok r ∧ status r ≠ 200%Z)) →
  ∃ err,
    download_single_file self url depth
    = (Ok err,
       mkAdvancedScraper (base_url self) (parsed_base self) (max_depth self)
         ({[url]} ∪ visited_urls self) (discovered_urls self)
         (downloaded_files self) (fetched self ++ [url])) ∧
    is_error_record err.
Proof.
  intros Hsd Hd Hget. unfold download_single_file. rewrite Hsd. simpl.
  destruct (max_depth self <? depth)%Z eqn:E; [apply Z.ltb_lt in E; lia|].
  unfold download_body. simpl.
  destruct Hget as [[e ->]|(r & -> & Hst)]; simpl.
  - eexists. split; [reflexivity|exact I].
  - destruct (status r =? 200)%Z eqn:E2; [apply Z.eqb_eq in E2; contradiction|].
    simpl. eexists. split; [reflexivity|exact I].
Qed.


End Frontier.

(** ** The end-to-end scenario (C3) *)

Section Scenario.
Context `{PyLib}.
Variable session_get : list string → string → exc AioResponse.
Variable save_file : list string → string → string → exc unit.
Variable parse_html : string → Soup.

Lemma set_iter_singleton (x : string) : set_iter {[x]} = [x].
Proof.
  apply Permutation_singleton_r. rewrite set_iter_perm, elements_singleton.
  reflexivity.
Qed.

Lemma add_discovered_fold_eq (visited : gset string) (l : list string)
    (st : gset string * list string) :
  fst (fold_left (add_discovered visited) l st)
  = fst st ∪ (list_to_set l ∖ visited).
Proof.
  revert st. induction l as [|x l IH]; intros [d nl]; simpl.
  - set_solver.
  - rewrite IH. unfold add_discovered.
    destruct (bool_decide (x ∈ visited)) eqn:Ev; simpl.
    + apply bool_decide_eq_true in Ev. set_solver.
    + apply bool_decide_eq_false in Ev.
      destruct (bool_decide (x ∈ d)) eqn:Ed; simpl.
      * apply bool_decide_eq_true in Ed. set_solver.
      * set_solver.
Qed.

(** the links of the seed page, as [extract_all_links] collects them *)
Lemma seed_links (html_content : string) :
  parse_html html_content = seed_soup →
  extract_all_links parse_html html_content seed_url
  = Ok (set_iter {["https://example.com/a"; "https://example.com/a?utm_source=x";
                   "https://other.com/b"]}).
Proof.
  intros E. unfold extract_all_links. rewrite E.
  vm_compute. reflexivity.
Qed.

(** the scraper of the scenario once the seed is discovered *)
Lemma seed_download (c ct : string) :
  session_get [] seed_url = Ok (mkAioResponse 200 (Ok c) ct) →
  save_file [] "index.html" c = Ok tt →
  parse_html (decode_utf8_ignore c) = seed_soup →
  ∃ r s1,
    download_single_file session_get save_file parse_html
      (mkAdvancedScraper seed_url (parsed_base ex_scraper) 1 ∅ {[seed_url]} [] [])
      seed_url 0 = (Ok r, s1) ∧
    parsed_base s1 = parsed_base ex_scraper ∧
    max_depth s1 = 1%Z ∧
    visited_urls s1 = {[seed_url]} ∧
    discovered_urls s1 =
      {[seed_url; "https://example.com/a"; "https://example.com/a?utm_source=x";
        "https://other.com/b"]}.
Proof.
  intros Hget Hsave Hparse.
  unfold download_single_file.
  assert (Hsd : should_download
                  (mkAdvancedScraper seed_url (parsed_base ex_scraper) 1 ∅
                     {[seed_url]} [] []) seed_url = Ok true)
    by (vm_compute; reflexivity).
  rewrite Hsd. simpl.
  unfold download_body. simpl. rewrite Hget. simpl. rewrite Hsave. simpl.
  assert (Hhtml : is_html_content seed_url (Py.lower ct) = Ok true).
  { unfold is_html_content. destruct (Py.contains "html" _); [reflexivity|].
    vm_compute. reflexivity. }
  rewrite Hhtml. simpl. rewrite (seed_links _ Hparse). simpl.
  pose proof (add_discovered_fold_eq ({[seed_url]} ∪ ∅)
                (set_iter {["https://example.com/a";
                            "https://example.com/a?utm_source=x";
                            "https://other.com/b"]})
                ({[seed_url]}, [])) as Hfold.
  destruct (fold_left _ _ _) as [discovered new_links]. simpl in Hfold.
  eexists _, _. split; [reflexivity|]. simpl.
  split; [reflexivity|]. split; [reflexivity|].
  split; [apply union_empty_r_L|].
  rewrite Hfold.
  replace (list_to_set
             (set_iter {["https://example.com/a";
                         "https://example.com/a?utm_source=x";
                         "https://other.com/b"]}))
    with ({["https://example.com/a"; "https://example.com/a?utm_source=x";
            "https://other.com/b"]} : gset string).
  - vm_compute. reflexivity.
  - apply set_eq. intros x. rewrite elem_of_list_to_set, set_iter_elem_of.
    reflexivity.
Qed.

(** C3, amended.  For a crawl seeded at https://example.com with
    max_depth 1 whose seed page is fetched, saved and has anchors to /a,
    /a#frag, https://example.com/a?utm_source=x and https://other.com/b:
    the crawl ends, and what it discovered beside the seed is
    https://example.com/a, https://example.com/a?utm_source=x and
    https://other.com/b; the last one is never visited. *)
Theorem discovery_scenario (c ct : string) :
  session_get [] seed_url = Ok (mkAioResponse 200 (Ok c) ct) →
  save_file [] "index.html" c = Ok tt →
  parse_html (decode_utf8_ignore c) = seed_soup →
  init seed_url 1 = Ok ex_scraper ∧
  ∃ s', frontier session_get save_file parse_html ex_scraper = (Ok tt, s') ∧
        discovered_urls s' ∖ {[seed_url]} =
          {["https://example.com/a"; "https://example.com/a?utm_source=x";
            "https://other.com/b"]} ∧
        "https://other.com/b" ∉ visited_urls s'.
Proof.
  intros Hget Hsave Hparse.
  split; [vm_compute; reflexivity|].
  destruct (seed_download c ct Hget Hsave Hparse)
    as (r & s1 & Hdl & Hpb & Hmd & Hvis & Hdisc).
  unfold frontier. cbv zeta.
  change (range (max_depth _ + 1)) with [0%Z; 1%Z].
  assert (Hs0 : mkAdvancedScraper (base_url ex_scraper) (parsed_base ex_scraper)
                  (max_depth ex_scraper) (visited_urls ex_scraper)
                  ({[base_url ex_scraper]} ∪ discovered_urls ex_scraper)
                  (downloaded_files ex_scraper) (fetched ex_scraper)
                = mkAdvancedScraper seed_url (parsed_base ex_scraper) 1 ∅
                    {[seed_url]} [] []).
  { unfold ex_scraper. simpl. f_equal. }
  rewrite Hs0. clear Hs0.
  assert (Hurls : urls_at_depth
                    (mkAdvancedScraper seed_url (parsed_base ex_scraper) 1 ∅
                       {[seed_url]} [] []) = [seed_url]).
  { unfold urls_at_depth. simpl. rewrite set_iter_singleton.
    vm_compute. reflexivity. }
  rewrite depth_loop_cons, Hurls.
  change (take batch_cap [seed_url]) with [seed_url].
  unfold gather. rewrite Hdl.
  assert (Hother : "https://other.com/b" ∉ visited_urls s1).
  { rewrite Hvis, elem_of_singleton. discriminate. }
  assert (Hgoal : discovered_urls s1 ∖ {[seed_url]} =
                  {["https://example.com/a"; "https://example.com/a?utm_source=x";
                    "https://other.com/b"]}).
  { rewrite Hdisc. vm_compute. reflexivity. }
  rewrite depth_loop_cons.
  destruct (urls_at_depth s1) as [|u urls] eqn:E.
  { exists s1. auto. }
  rewrite <- E. clear E u urls.
  destruct (gather_spec session_get save_file parse_html
              (firstn batch_cap (urls_at_depth s1)) 1 s1)
    as (rs & s2 & -> & (_ & _ & _ & _ & Hv2 & _ & _ & Hd2 & _)).
  exists s2. split; [reflexivity|].
  rewrite Hd2 by lia. split; [exact Hgoal|].
  intros Hin. destruct (Hv2 _ Hin) as [?|[_ Hsame]]; [contradiction|].
  unfold is_same_domain in Hsame. rewrite Hpb in Hsame.
  vm_compute in Hsame. discriminate.
Qed.

End Scenario.

(** ** The bundle heuristic (C7) *)

Section BundleLemmas.
Context `{PyLib}.
Import Py Urllib Re.

Lemma contains_hash_cons (c : ascii) (s : string) :
  contains "#" (String c s) = Ascii.eqb c "#" || contains "#" s.
Proof.
  destruct c as [[] [] [] [] [] [] [] []]; destruct s; reflexivity.
Qed.

Lemma no_hash_forall (p : ascii → bool) (s : string) :
  p "#"%char = false → forall_chr p s = true → contains "#" s = false.
Proof.
  intros Hp. unfold forall_chr. induction s as [|c s IH]; [reflexivity|].
  simpl list_ascii_of_string. simpl forallb. intros Hall.
  apply andb_true_iff in Hall as [Hc Hs].
  rewrite contains_hash_cons, (IH Hs), orb_false_r.
  destruct (Ascii.eqb_spec c "#") as [->|_]; [congruence|reflexivity].
Qed.

Lemma no_hash_app (a b : string) :
  contains "#" a = false → contains "#" b = false →
  contains "#" (a +:+ b) = false.
Proof.
  intros Ha Hb. induction a as [|c a IH]; [exact Hb|].
  rewrite app_cons, contains_hash_cons.
  rewrite contains_hash_cons in Ha. apply orb_false_iff in Ha as [-> Ha].
  simpl. apply IH, Ha.
Qed.

Lemma lower_chr_hash (c : ascii) : Ascii.eqb (lower_chr c) "#" = Ascii.eqb c "#".
Proof. destruct c as [[] [] [] [] [] [] [] []]; reflexivity. Qed.

Lemma no_hash_lower (s : string) :
  contains "#" s = false → contains "#" (lower s) = false.
Proof.
  induction s as [|c s IH]; [reflexivity|]. simpl lower.
  rewrite !contains_hash_cons, lower_chr_hash. intros Hs.
  apply orb_false_iff in Hs as [-> Hs]. simpl. apply IH, Hs.
Qed.

Lemma span_forall (p : ascii → bool) (s : string) :
  forall_chr p (fst (span p s)) = true.
Proof.
  unfold forall_chr. induction s as [|c s IH]; [reflexivity|].
  simpl. destruct (p c) eqn:Hc; [|reflexivity].
  destruct (span p s) as [a b]. simpl in *. rewrite Hc. exact IH.
Qed.

(** neither the scheme nor the netloc of a parsed URL has a '#' in it *)
Lemma urlparse_no_hash (url : string) (parsed : ParseResult) :
  urlparse url "" = Ok parsed →
  contains "#" (scheme parsed) = false ∧ contains "#" (netloc parsed) = false.
Proof.
  unfold urlparse. intros E. apply exc_bind_Ok in E as (sr & Hsr & E).
  assert (Hgoal : contains "#" (s_scheme sr) = false ∧
                  contains "#" (s_netloc sr) = false).
  { clear E. unfold urlsplit in Hsr.
    match type of Hsr with
    | (let '(_, _) := ?m in _) = _ => set (X := m) in Hsr
    end.
    assert (HX : contains "#" (fst X) = false).
    { subst X. destruct (split1 ":" _) as [[[|c0 pre] rest]|]; try reflexivity.
      destruct (is_ascii c0 && is_alpha c0
                && forall_chr scheme_chars (String c0 pre)) eqn:Hc; [|reflexivity].
      apply andb_true_iff in Hc as [_ Hc].
      apply (no_hash_lower (String c0 pre)), (no_hash_forall scheme_chars);
        [reflexivity|exact Hc]. }
    destruct X as [sch u1]. simpl in HX.
    apply exc_bind_Ok in Hsr as ([nl u2] & Hnl & Hsr).
    assert (Hn : contains "#" nl = false).
    { destruct (startswith u1 "//").
      - unfold splitnetloc in Hnl.
        pose proof (span_forall (fun c => negb (chr_in c "/?#")) (drop 2 u1)) as Hsp.
        destruct (span _ (drop 2 u1)) as [n r]. simpl in Hsp.
        assert (Hnh : contains "#" n = false)
          by (exact (no_hash_forall _ n eq_refl Hsp)).
        destruct (_ || _); [discriminate|].
        destruct (_ && _).
        + destruct (bracketed_netloc_ok _); [|discriminate].
          injection Hnl as <- _. exact Hnh.
        + injection Hnl as <- _. exact Hnh.
      - injection Hnl as <- _. reflexivity. }
    destruct (match split1 "#" u2 with Some (a, b) => (a, b) | None => (u2, "") end)
      as [u3 frag].
    destruct (match split1 "?" u3 with Some (a, b) => (a, b) | None => (u3, "") end)
      as [u4 q].
    apply exc_bind_Ok in Hsr as (? & _ & Hsr). injection Hsr as <-. simpl. auto. }
  destruct (_ && _); [destruct (splitparams _)|]; injection E as <-; exact Hgoal.
Qed.

Lemma fold_left_set_mono {B} (f : gset string → B → gset string)
    (l : list B) (acc : gset string) :
  (∀ a b, a ⊆ f a b) → acc ⊆ fold_left f l acc.
Proof.
  intros Hf. revert acc. induction l as [|b l IH]; intros acc; simpl.
  - reflexivity.
  - etrans; [apply (Hf acc b)|apply IH].
Qed.

Lemma fold_left_set_elem {B} (f : gset string → B → gset string)
    (l : list B) (acc : gset string) (x : string) (b : B) :
  (∀ a b, a ⊆ f a b) → b ∈ l → (∀ a, x ∈ f a b) → x ∈ fold_left f l acc.
Proof.
  intros Hf Hb Hx. revert acc. induction l as [|b' l IH]; intros acc; simpl.
  - apply elem_of_nil in Hb. contradiction.
  - apply elem_of_cons in Hb as [<-|Hb].
    + apply (fold_left_set_mono f l (f acc b) Hf), Hx.
    + apply IH, Hb.
Qed.

Lemma add_slugs_mono (keep : string → bool) (found : list string)
    (acc : gset string) :
  acc ⊆ add_slugs keep found acc.
Proof.
  unfold add_slugs. apply fold_left_set_mono.
  intros a b. destruct (keep b); [apply union_subseteq_r|reflexivity].
Qed.

Lemma add_slugs_elem (keep : string → bool) (found : list string)
    (acc : gset string) (slug : string) :
  slug ∈ found → keep slug = true → slug ∈ add_slugs keep found acc.
Proof.
  intros Hin Hk. unfold add_slugs.
  apply (fold_left_set_elem _ found acc slug slug); [|exact Hin|].
  - intros a b. destruct (keep b); [apply union_subseteq_r|reflexivity].
  - intros a. rewrite Hk. apply elem_of_union_l, elem_of_singleton. reflexivity.
Qed.

Lemma scan_script_mono (acc : gset string) (content : string) :
  acc ⊆ scan_script acc content.
Proof.
  unfold scan_script. destruct (_ || _); [reflexivity|].
  etrans; [|apply add_slugs_mono]. etrans; [|apply add_slugs_mono].
  etrans; [|apply add_slugs_mono]. apply add_slugs_mono.
Qed.

Lemma finditer_first (r : regex) (s : string) (m : Match) :
  match_at r s = Some m → ∃ ms, finditer r s = m :: ms.
Proof.
  intros E. unfold finditer. destruct s; simpl; rewrite E; eauto.
Qed.

Lemma str_len_app (a b : string) : str_len (a +:+ b) = str_len a + str_len b.
Proof.
  induction a as [|c a IH]; [reflexivity|].
  change (String c a +:+ b) with (String c (a +:+ b)). cbn [str_len].
  rewrite IH. lia.
Qed.

Lemma contains_brace_cons (c : ascii) (s : string) :
  contains "{" (String c s) = Ascii.eqb c "{" || contains "{" s.
Proof.
  destruct c as [[] [] [] [] [] [] [] []]; destruct s; reflexivity.
Qed.

Lemma matches_first_chr {R : Type} (p : ascii → bool) (r : regex) (c : ascii)
    (s : string) (pos : nat) (caps : captures)
    (k : string → nat → captures → option R) :
  p c = false → matches (Seq (Seq (Chr p) Eps) r) (String c s) pos caps k = None.
Proof. intros Hc. cbn [matches]. rewrite Hc. reflexivity. Qed.

(** a match of the second pattern starts at an opening brace *)
Lemma post_object_head (c : ascii) (s : string) :
  Ascii.eqb c "{" = false → match_at post_object_pattern (String c s) = None.
Proof.
  intros Hc. unfold match_at. apply matches_first_chr.
  rewrite Ascii.eqb_sym. exact Hc.
Qed.

(** the matches of the second pattern after a text without opening
    brace are those of what follows the text *)
Lemma finditer_brace_free (pre s : string) :
  contains "{" pre = false →
  finditer post_object_pattern (pre +:+ s) = finditer post_object_pattern s.
Proof.
  unfold finditer. induction pre as [|c pre IH]; intros Hpre; [reflexivity|].
  rewrite contains_brace_cons in Hpre. apply orb_false_iff in Hpre as [Hc Hpre].
  change (String c pre +:+ s) with (String c (pre +:+ s)).
  cbn [finditer_go]. rewrite (post_object_head c _ Hc). exact (IH Hpre).
Qed.

(** the second pattern finds the slug of the object text, whatever
    follows it and whatever text without opening brace precedes it *)
Lemma post_object_found (pre rest : string) :
  contains "{" pre = false →
  "my-post-title" ∈ findall1 post_object_pattern (pre +:+ slug_object +:+ rest).
Proof.
  intros Hpre.
  assert (E : match_at post_object_pattern (slug_object +:+ rest)
              = Some (mkMatch slug_object [(1, "my-post-title")]))
    by (vm_compute; reflexivity).
  apply finditer_first in E as [ms E]. unfold findall1.
  rewrite (finditer_brace_free pre _ Hpre), E.
  simpl. left.
Qed.

Lemma scan_script_slug (acc : gset string) (pre rest : string) :
  contains "{" pre = false →
  100 ≤ str_len (pre +:+ slug_object +:+ rest) →
  "my-post-title" ∈ scan_script acc (pre +:+ slug_object +:+ rest).
Proof.
  intros Hpre Hlen. unfold scan_script.
  destruct (String.eqb_spec (pre +:+ slug_object +:+ rest) "") as [E|_];
    [rewrite E in Hlen; simpl in Hlen; lia|].
  destruct (str_len (pre +:+ slug_object +:+ rest) <? 100) eqn:Hlt;
    [apply Nat.ltb_lt in Hlt; lia|].
  unfold orb. cbv beta iota zeta. apply add_slugs_mono, add_slugs_mono.
  apply add_slugs_elem; [apply post_object_found, Hpre|reflexivity].
Qed.

Lemma construct_mono (base_url current_path : string) (acc : gset string)
    (slug : string) :
  acc ⊆ construct base_url current_path acc slug.
Proof.
  unfold construct. destruct (_ && _); [apply union_subseteq_r|reflexivity].
Qed.

Lemma add_navigation_mono (base_url current_path : string) (acc : gset string)
    (click : exc (option string)) :
  acc ⊆ add_navigation base_url current_path acc click.
Proof.
  unfold add_navigation. destruct click as [[nav|]|]; try reflexivity.
  destruct (_ && _); [apply union_subseteq_r|reflexivity].
Qed.

Lemma len_app (a b : string) : len (a +:+ b) = len a + len b.
Proof.
  induction a as [|c a IH]; [reflexivity|]. rewrite app_cons. simpl.
  f_equal. exact IH.
Qed.

Lemma app_assoc_string (a b c : string) : (a +:+ b) +:+ c = a +:+ (b +:+ c).
Proof.
  induction a as [|x a IH]; [reflexivity|]. rewrite !app_cons, IH. reflexivity.
Qed.

(** what step 3 builds from the slug *)
Lemma construct_slug (base_url : string) (acc : gset string) :
  contains "#" base_url = false →
  (base_url +:+ "/blog" +:+ "/" +:+ "my-post-title")
    ∈ construct base_url "/blog" acc "my-post-title".
Proof.
  intros Hb. unfold construct.
  change (clean_slug "my-post-title") with "my-post-title".
  change ((5 <=? len "my-post-title") && contains "-" "my-post-title") with true.
  cbv beta iota. unfold drop_fragment.
  rewrite (no_hash_app base_url ("/blog" +:+ "/" +:+ "my-post-title") Hb eq_refl).
  apply elem_of_union_l, elem_of_singleton. reflexivity.
Qed.

Lemma keep_post_slug (base_url : string) :
  keep_post base_url "/blog" (base_url +:+ "/blog" +:+ "/" +:+ "my-post-title") = true.
Proof.
  unfold keep_post.
  destruct (String.eqb_spec (base_url +:+ "/blog" +:+ "/" +:+ "my-post-title")
              (base_url +:+ "/blog")) as [E|_].
  { apply (inj (String.app base_url)) in E. discriminate. }
  destruct (String.eqb_spec (base_url +:+ "/blog" +:+ "/" +:+ "my-post-title")
              (base_url +:+ "/blog" +:+ "/")) as [E|_].
  { apply (inj (String.app base_url)) in E. discriminate. }
  simpl. apply Nat.ltb_lt. rewrite !str_len_app. simpl. lia.
Qed.

End BundleLemmas.




(** ** The scenarios, evaluated *)

Lemma ex_scraper_inv : fetched_inv ex_scraper.
Proof.
  split; [constructor|]. intros u Hu. apply elem_of_nil in Hu. contradiction.
Defined.

(** C3, as the specification words it, fails: at the end of the crawl
    of the scenario the discovered set holds, beside the seed and
    https://example.com/a, the URL with the tracking parameter and the URL
    of the other host. *)
Lemma discovery_counterexample :
  init seed_url 1 = Ok ex_scraper ∧
  discovered_urls ex_final ∖ {[seed_url]} ≠ {["https://example.com/a"]} ∧
  "https://example.com/a?utm_source=x" ∈ discovered_urls ex_final ∧
  "https://other.com/b" ∈ discovered_urls ex_final.
Proof.
  split; [vm_compute; reflexivity|]. split.
  - intros E. apply (f_equal size) in E. vm_compute in E. discriminate.
  - split; apply (bool_decide_unpack _); vm_compute; exact I.
Qed.

Lemma discovery_scenario_witness :
  init seed_url 1 = Ok ex_scraper ∧
  ∃ s', frontier ex_session_get ex_save_file ex_parse_html ex_scraper = (Ok tt, s') ∧
        discovered_urls s' ∖ {[seed_url]} =
          {["https://example.com/a"; "https://example.com/a?utm_source=x";
            "https://other.com/b"]} ∧
        "https://other.com/b" ∉ visited_urls s'.
Proof.
  exact (discovery_scenario ex_session_get ex_save_file ex_parse_html
           seed_url "text/html" eq_refl eq_refl eq_refl).
Defined.


Lemma cap_level0_inv : fetched_inv cap_level0.
Proof.
  assert (E : fetched cap_level0 = [cap_seed]) by (vm_compute; reflexivity).
  split; rewrite E.
  - apply NoDup_singleton.
  - intros u Hu. apply list_elem_of_singleton in Hu as ->.
    apply (bool_decide_unpack _). vm_compute. exact I.
Defined.

Lemma cap_level0_surplus :
  skipn batch_cap (urls_at_depth cap_level0) = ["https://e.com/p0"].
Proof. vm_compute. reflexivity. Defined.

Lemma last_In {A} (l : list A) (d : A) : l ≠ [] → In (List.last l d) l.
Proof.
  induction l as [|a [|b l] IH]; intros Hne;
    [contradiction|left; reflexivity|].
  right. apply IH. discriminate.
Qed.

(** C8, as the specification words it, fails: the seed page has 51
    links, the depth level 1 takes 50 of them, and the one left over,
    https://e.com/p0, is requested at the depth level 2. *)
Lemma batch_cap_counterexample :
  snd (depth_loop ex_session_get ex_save_file cap_parse_html [1%Z; 2%Z] cap_level0)
    = cap_final ∧
  length (urls_at_depth cap_level0) = 51 ∧
  skipn batch_cap (urls_at_depth cap_level0) = ["https://e.com/p0"] ∧
  "https://e.com/p0" ∈ fetched cap_final ∧
  ∃ r, r ∈ downloaded_files cap_final ∧ f_url r = "https://e.com/p0" ∧
       f_depth r = 2%Z.
Proof.
  split; [vm_compute; reflexivity|]. split; [vm_compute; reflexivity|].
  split; [exact cap_level0_surplus|]. split.
  - apply (bool_decide_unpack _). vm_compute. exact I.
  - exists (List.last (downloaded_files cap_final)
              (mkFileRecord "" "" "" 0 "" 0 "" None None)).
    split; [|split; vm_compute; reflexivity].
    apply list_elem_of_In, last_In. vm_compute. discriminate.
Qed.

Lemma batch_surplus_deferred_witness :
  "https://e.com/p0"
    ∈ urls_at_depth
        (snd (gather ex_session_get ex_save_file cap_parse_html
                (firstn batch_cap (urls_at_depth cap_level0)) 1 cap_level0)).
Proof.
  assert (Hin : "https://e.com/p0" ∈ skipn batch_cap (urls_at_depth cap_level0)).
  { rewrite cap_level0_surplus. apply list_elem_of_singleton. reflexivity. }
  exact (proj2 (proj2 (proj2
    (batch_surplus_deferred ex_session_get ex_save_file cap_parse_html
       cap_level0 1 "https://e.com/p0" cap_level0_inv Hin)))).
Defined.


Section Crawl.
Context `{PyLib}.
Import Py Urllib.
Variable session_get : list string → string → exc AioResponse.
Variable save_file : list string → string → string → exc unit.
Variable parse_html : string → Soup.
Variable save_summary : Summary → exc unit.

#[local] Abbreviation download_single_file :=
  (download_single_file session_get save_file parse_html).
#[local] Abbreviation download_body :=
  (download_body session_get save_file parse_html).
#[local] Abbreviation gather := (gather session_get save_file parse_html).
#[local] Abbreviation depth_loop := (depth_loop session_get save_file parse_html).
#[local] Abbreviation frontier := (frontier session_get save_file parse_html).
#[local] Abbreviation scrape_recursive :=
  (scrape_recursive session_get save_file parse_html save_summary).

(** what the body of the [try] does to the list of downloaded files *)
Lemma download_body_files (self : AdvancedScraper) (url : string) (depth : Z)
    (res : DownloadResult) (d : gset string) (files : list FileRecord) :
  download_body self url depth = Ok (res, d, files) →
  (files = downloaded_files self ∧ ∃ err, res = HttpError err url) ∨
  (∃ r, res = Downloaded r ∧ files = downloaded_files self ++ [r] ∧
        f_url r = url ∧ f_depth r = depth ∧ f_status r = "success" ∧
        get_file_type_and_path url = Ok (file_type r, filename r)).
Proof.
  unfold download_body. intros E.
  apply exc_bind_Ok in E as (response & _ & E).
  destruct (negb _).
  { injection E as <- _ <-. left. eauto. }
  apply exc_bind_Ok in E as (content & _ & E).
  apply exc_bind_Ok in E as ([ft rp] & Hft & E).
  apply exc_bind_Ok in E as (? & _ & E).
  apply exc_bind_Ok in E as (html & _ & E).
  right.
  destruct (html && (depth <? max_depth self)%Z).
  - destruct (extract_all_links parse_html _ url) as [extracted|e]; simpl in E.
    + destruct (fold_left _ extracted _) as [discovered new_links].
      simpl in E. injection E as <- _ <-. eexists. repeat split; assumption.
    + injection E as <- _ <-. eexists. repeat split; assumption.
  - injection E as <- _ <-. eexists. repeat split; assumption.
Qed.

(** one task: the state it leaves *)
Lemma download_single_file_cases (self : AdvancedScraper) (url : string)
    (depth : Z) :
  let r := fst (download_single_file self url depth) in
  let self' := snd (download_single_file self url depth) in
  (r = Ok (Skipped url "filtered_or_max_depth") ∧ self' = self) ∨
  (should_download self url = Ok true ∧ (depth ≤ max_depth self)%Z ∧
   base_url self' = base_url self ∧ parsed_base self' = parsed_base self ∧
   max_depth self' = max_depth self ∧
   visited_urls self' = {[url]} ∪ visited_urls self ∧
   fetched self' = fetched self ++ [url] ∧
   ((downloaded_files self' = downloaded_files self ∧
     ∃ err, r = Ok (HttpError err url) ∨ r = Ok (Failed err url depth)) ∨
    (∃ rec, r = Ok (Downloaded rec) ∧
            downloaded_files self' = downloaded_files self ++ [rec] ∧
            f_url rec = url ∧ f_depth rec = depth ∧ f_status rec = "success" ∧
            get_file_type_and_path url = Ok (file_type rec, filename rec)))).
Proof.
  unfold download_single_file.
  destruct (should_download_total self url) as [ok Hok]. rewrite Hok.
  destruct ok; simpl; [|left; auto].
  destruct (max_depth self <? depth)%Z eqn:Hd; simpl; [left; auto|].
  apply Z.ltb_ge in Hd. right.
  split; [reflexivity|]. split; [exact Hd|].
  match goal with
  | |- context [download_body ?m url depth] => set (marked := m)
  end.
  destruct (download_body marked url depth) as [[[result discovered] downloaded]|e]
    eqn:Hbody; simpl.
  - repeat (split; [reflexivity|]).
    apply download_body_files in Hbody as [[-> [err ->]]|(rec & -> & -> & Hrec)].
    + left. split; [reflexivity|]. exists err. auto.
    + right. exists rec. auto.
  - repeat (split; [reflexivity|]). left. split; [reflexivity|]. eauto.
Qed.

Lemma gather_cons (url : string) (urls : list string) (depth : Z)
    (self : AdvancedScraper) :
  snd (gather (url :: urls) depth self)
  = snd (gather urls depth (snd (download_single_file self url depth))).
Proof.
  simpl. destruct (download_single_file_spec session_get save_file parse_html
                     self url depth) as (r & s1 & -> & _).
  simpl. destruct (gather urls depth s1) as [[rs|e] s2]; reflexivity.
Qed.

(** what every task preserves, the crawl preserves *)
Lemma gather_preserves (P : AdvancedScraper → Prop) :
  (∀ s u d, P s → P (snd (download_single_file s u d))) →
  ∀ urls d s, P s → P (snd (gather urls d s)).
Proof.
  intros Hstep urls d. induction urls as [|u urls IH]; intros s Hs.
  - exact Hs.
  - rewrite gather_cons. apply IH, Hstep, Hs.
Qed.

Lemma depth_loop_preserves (P : AdvancedScraper → Prop) :
  (∀ s u d, P s → P (snd (download_single_file s u d))) →
  ∀ depths s, P s → P (snd (depth_loop depths s)).
Proof.
  intros Hstep depths. induction depths as [|d depths IH]; intros s Hs.
  - exact Hs.
  - rewrite depth_loop_cons. destruct (urls_at_depth s) as [|u urls] eqn:E.
    + exact Hs.
    + rewrite <- E.
      pose proof (gather_preserves P Hstep (firstn batch_cap (urls_at_depth s)) d s Hs)
        as Hg.
      destruct (gather_spec session_get save_file parse_html
                  (firstn batch_cap (urls_at_depth s)) d s) as (rs & s1 & Eg & _).
      rewrite Eg in *. simpl in Hg. apply IH, Hg.
Qed.

Lemma scrape_recursive_state (self : AdvancedScraper) :
  snd (scrape_recursive self) = snd (frontier self).
Proof.
  unfold scrape_recursive.
  destruct (frontier self) as [[[]|e] s']; [|reflexivity].
  destruct (save_summary _); reflexivity.
Qed.

Lemma files_inv_step (s : AdvancedScraper) (u : string) (d : Z) :
  files_inv s → files_inv (snd (download_single_file s u d)).
Proof.
  intros [Hsub Hall].
  destruct (download_single_file_cases s u d)
    as [[_ ->]|(_ & Hd & _ & _ & Hmd & _ & Hf & Hfiles)]; [split; assumption|].
  unfold files_inv. rewrite Hf, Hmd.
  destruct Hfiles as [[-> _]|(rec & _ & -> & Hu & Hdp & Hst & _)].
  - split; [apply sublist_inserts_r, Hsub|exact Hall].
  - split.
    + rewrite map_app. simpl. rewrite Hu. apply sublist_app; [exact Hsub|reflexivity].
    + apply Forall_app. split; [exact Hall|]. apply Forall_singleton.
      split; [exact Hst|lia].
Qed.

(** a task makes at most one request and records at most one file *)
Lemma download_single_file_lengths (s : AdvancedScraper) (u : string) (d : Z) :
  length (fetched (snd (download_single_file s u d))) ≤ S (length (fetched s)) ∧
  length (downloaded_files (snd (download_single_file s u d)))
    ≤ S (length (downloaded_files s)) ∧
  max_depth (snd (download_single_file s u d)) = max_depth s.
Proof.
  destruct (download_single_file_cases s u d)
    as [[_ ->]|(_ & _ & _ & _ & Hmd & _ & Hf & Hfiles)]; [lia|].
  rewrite Hf, length_app. simpl.
  destruct Hfiles as [[-> _]|(rec & _ & -> & _)]; [lia|].
  rewrite length_app. simpl. lia.
Qed.

Lemma gather_lengths (urls : list string) (d : Z) (s : AdvancedScraper) :
  length (fetched (snd (gather urls d s))) ≤ length (fetched s) + length urls ∧
  length (downloaded_files (snd (gather urls d s)))
    ≤ length (downloaded_files s) + length urls ∧
  max_depth (snd (gather urls d s)) = max_depth s.
Proof.
  revert s. induction urls as [|u urls IH]; intros s.
  - simpl. lia.
  - rewrite gather_cons.
    destruct (download_single_file_lengths s u d) as (H1 & H2 & H3).
    destruct (IH (snd (download_single_file s u d))) as (I1 & I2 & I3).
    simpl length. lia.
Qed.

Lemma depth_loop_lengths (depths : list Z) (s : AdvancedScraper) :
  length (fetched (snd (depth_loop depths s)))
    ≤ length (fetched s) + batch_cap * length depths ∧
  length (downloaded_files (snd (depth_loop depths s)))
    ≤ length (downloaded_files s) + batch_cap * length depths ∧
  max_depth (snd (depth_loop depths s)) = max_depth s.
Proof.
  revert s. induction depths as [|d depths IH]; intros s.
  - simpl. lia.
  - rewrite depth_loop_cons. destruct (urls_at_depth s) as [|u urls] eqn:E.
    + simpl. lia.
    + rewrite <- E.
      destruct (gather_lengths (firstn batch_cap (urls_at_depth s)) d s)
        as (G1 & G2 & G3).
      destruct (gather_spec session_get save_file parse_html
                  (firstn batch_cap (urls_at_depth s)) d s) as (rs & s1 & Eg & _).
      rewrite Eg in *. simpl in G1, G2, G3.
      destruct (IH s1) as (I1 & I2 & I3).
      assert (Hcap : length (firstn batch_cap (urls_at_depth s)) ≤ batch_cap)
        by (rewrite length_take; lia).
      cbn [length]. lia.
Qed.

Lemma frontier_lengths (self : AdvancedScraper) :
  length (fetched (snd (frontier self)))
    ≤ length (fetched self) + batch_cap * Z.to_nat (max_depth self + 1) ∧
  length (downloaded_files (snd (frontier self)))
    ≤ length (downloaded_files self) + batch_cap * Z.to_nat (max_depth self + 1).
Proof.
  unfold frontier. cbv zeta.
  match goal with
  | |- context [depth_loop ?ds ?s] =>
      destruct (depth_loop_lengths ds s) as (H1 & H2 & _); revert H1 H2
  end.
  unfold range. rewrite length_map, length_seq. simpl. auto.
Qed.

Lemma files_inv_frontier (self : AdvancedScraper) :
  files_inv self → files_inv (snd (frontier self)).
Proof.
  intros Hf. unfold frontier. cbv zeta.
  apply (depth_loop_preserves files_inv files_inv_step). exact Hf.
Qed.

Lemma frontier_max_depth (self : AdvancedScraper) :
  max_depth (snd (frontier self)) = max_depth self ∧
  base_url (snd (frontier self)) = base_url self.
Proof.
  unfold frontier. cbv zeta.
  match goal with
  | |- context [depth_loop ?ds ?s] =>
      destruct (depth_loop_spec session_get save_file parse_html ds s)
        as (s' & -> & (Hb & _ & Hm & _))
  end.
  simpl in *. auto.
Qed.

(** the visited URLs stay within the discovered ones *)
Lemma depth_loop_visited_discovered (depths : list Z) (s : AdvancedScraper) :
  visited_urls s ⊆ discovered_urls s →
  visited_urls (snd (depth_loop depths s)) ⊆ discovered_urls (snd (depth_loop depths s)).
Proof.
  revert s. induction depths as [|d depths IH]; intros s Hs.
  - exact Hs.
  - rewrite depth_loop_cons. destruct (urls_at_depth s) as [|u urls] eqn:E.
    + exact Hs.
    + rewrite <- E.
      destruct (gather_spec session_get save_file parse_html
                  (firstn batch_cap (urls_at_depth s)) d s)
        as (rs & s1 & -> & (_ & _ & _ & _ & Hv & Hd & _)).
      apply IH. intros x Hx. destruct (Hv x Hx) as [Hx'|[Hx' _]].
      * apply Hd, Hs, Hx'.
      * apply Hd. apply subseteq_take in Hx'.
        apply urls_at_depth_elem_of in Hx' as [? _]. assumption.
Qed.

(** X1.  A crawl makes at most fifty requests per depth level: from any
    state, [scrape_recursive] adds at most 50 * (max_depth + 1) requests to
    those made before (none when max_depth is negative), and at most as
    many records to the downloaded files. *)
Theorem crawl_request_budget (self : AdvancedScraper) :
  length (fetched (snd (scrape_recursive self)))
    ≤ length (fetched self) + 50 * Z.to_nat (max_depth self + 1) ∧
  length (downloaded_files (snd (scrape_recursive self)))
    ≤ length (downloaded_files self) + 50 * Z.to_nat (max_depth self + 1).
Proof.
  rewrite scrape_recursive_state. exact (frontier_lengths self).
Qed.

(** X2.  From a state in which the records of the downloaded files follow
    the requests and no URL was requested twice (a new scraper is in such
    a state), at the end of [scrape_recursive] no two records of
    downloaded_files have the same URL, and each record is of a visited
    URL, has the status success and a depth that is at most max_depth. *)
Theorem downloaded_files_distinct (self : AdvancedScraper) :
  fetched_inv self → files_inv self →
  NoDup (map f_url (downloaded_files (snd (scrape_recursive self)))) ∧
  ∀ r, r ∈ downloaded_files (snd (scrape_recursive self)) →
       f_url r ∈ visited_urls (snd (scrape_recursive self)) ∧
       f_status r = "success" ∧ (f_depth r ≤ max_depth self)%Z.
Proof.
  intros Hinv Hfiles. rewrite scrape_recursive_state.
  destruct (frontier_spec session_get save_file parse_html self)
    as (s' & Es & Hpres).
  pose proof (files_inv_frontier self Hfiles) as [Hsub Hall].
  pose proof (frontier_max_depth self) as [Hmd _].
  rewrite Es in *. simpl in *.
  destruct (Hpres Hinv) as [Hnd Hvis].
  split; [exact (sublist_NoDup _ _ Hnd Hsub)|].
  intros r Hr. rewrite Forall_forall in Hall.
  destruct (Hall r Hr) as [Hst Hdp].
  split; [|split; [exact Hst|lia]].
  apply Hvis. eapply elem_of_sublist; [|exact Hsub].
  apply list_elem_of_fmap. eauto.
Qed.

(** X4.  With max_depth 0 or less the crawl extracts no link: the
    discovered set ends as it started, with the base URL added; the only
    URLs requested are the base URL and URLs that were discovered before,
    none of them visited before; with a negative max_depth nothing is
    requested at all. *)
Theorem shallow_crawl (self : AdvancedScraper) :
  (max_depth self ≤ 0)%Z →
  discovered_urls (snd (frontier self)) = {[base_url self]} ∪ discovered_urls self ∧
  ∃ l, fetched (snd (frontier self)) = fetched self ++ l ∧
       (∀ u, u ∈ l → (u = base_url self ∨ u ∈ discovered_urls self) ∧
                     u ∉ visited_urls self) ∧
       ((max_depth self < 0)%Z → l = []).
Proof.
  intros Hmd. unfold frontier. cbv zeta.
  set (s0 := mkAdvancedScraper (base_url self) (parsed_base self)
               (max_depth self) (visited_urls self)
               ({[base_url self]} ∪ discovered_urls self)
               (downloaded_files self) (fetched self)).
  change (max_depth s0) with (max_depth self).
  assert (Hnone : ∃ l, fetched s0 = fetched self ++ l ∧
            (∀ u, u ∈ l → (u = base_url self ∨ u ∈ discovered_urls self) ∧
                          u ∉ visited_urls self) ∧
            ((max_depth self < 0)%Z → l = [])).
  { exists []. split; [symmetry; apply app_nil_r|]. split; [|auto].
    intros u Hu. apply elem_of_nil in Hu. contradiction. }
  destruct (Z.eq_dec (max_depth self) 0%Z) as [E0|Hneg].
  - replace (range (max_depth self + 1)) with [0%Z] by (rewrite E0; reflexivity).
    rewrite depth_loop_cons. destruct (urls_at_depth s0) as [|u urls] eqn:E.
    + split; [reflexivity|exact Hnone].
    + rewrite <- E.
      destruct (gather_spec session_get save_file parse_html
                  (firstn batch_cap (urls_at_depth s0)) 0 s0)
        as (rs & s1 & -> & (_ & _ & _ & _ & _ & _ & _ & Hd & (l & Hl & Hin & _) & _)).
      simpl. split; [apply Hd; simpl; lia|].
      exists l. split; [exact Hl|]. split; [|lia].
      intros x Hx. apply Hin, subseteq_take, urls_at_depth_elem_of in Hx as [Hx Hnv].
      simpl in Hx, Hnv. split; [|exact Hnv].
      apply elem_of_union in Hx as [Hx|Hx]; [|auto].
      apply elem_of_singleton in Hx. auto.
  - assert (Er : range (max_depth self + 1) = []).
    { unfold range. replace (Z.to_nat (max_depth self + 1)) with 0 by lia.
      reflexivity. }
    rewrite Er. simpl. split; [reflexivity|exact Hnone].
Qed.

(** X5.  From a state in which the records of the downloaded files
    follow the requests, no URL was requested twice and every visited URL
    is discovered (a new scraper is in such a state), the summary
    [scrape_recursive] returns is consistent: its files are the downloaded files, total_files
    is their number, the base URL is discovered, every visited URL is
    discovered, and total_files is at most the number of the visited URLs,
    which is at most total_discovered. *)
Theorem summary_counts_consistent (self : AdvancedScraper) (summary : Summary)
    (self' : AdvancedScraper) :
  fetched_inv self → files_inv self →
  visited_urls self ⊆ discovered_urls self →
  scrape_recursive self = (Ok summary, self') →
  files summary = downloaded_files self' ∧
  total_files summary = length (files summary) ∧
  total_discovered summary = size (discovered_urls self') ∧
  base_url self ∈ discovered_urls self' ∧
  visited_urls self' ⊆ discovered_urls self' ∧
  total_files summary ≤ size (visited_urls self') ∧
  size (visited_urls self') ≤ total_discovered summary.
Proof.
  intros Hinv Hfiles Hvd E.
  pose proof (scrape_recursive_state self) as Hstate. rewrite E in Hstate.
  simpl in Hstate.
  assert (Hsum : summary =
            {| sum_base_url := base_url self'; sum_max_depth := max_depth self';
               total_files := length (downloaded_files self');
               total_discovered := size (discovered_urls self');
               files_by_type := get_files_by_type self';
               files := downloaded_files self' |}).
  { unfold scrape_recursive in E.
    destruct (frontier self) as [[[]|e] s1]; [|discriminate].
    simpl in Hstate. subst s1.
    destruct (save_summary _); [|discriminate]. injection E as <-. reflexivity. }
  assert (Hvd' : visited_urls self' ⊆ discovered_urls self').
  { rewrite Hstate. unfold frontier. cbv zeta.
    apply depth_loop_visited_discovered. simpl. set_solver. }
  assert (Hbase : base_url self ∈ discovered_urls self').
  { rewrite Hstate. unfold frontier. cbv zeta.
    match goal with
    | |- context [depth_loop ?ds ?s] =>
        destruct (depth_loop_spec session_get save_file parse_html ds s)
          as (s' & -> & (_ & _ & _ & _ & Hd & _))
    end.
    simpl in *. apply Hd. set_solver. }
  destruct (frontier_spec session_get save_file parse_html self)
    as (s' & Es & Hpres).
  pose proof (files_inv_frontier self Hfiles) as [Hsub _].
  rewrite Es in *. simpl in Hstate, Hsub. subst s'.
  destruct (Hpres Hinv) as [Hnd Hvis].
  rewrite Hsum. simpl.
  split; [reflexivity|]. split; [reflexivity|]. split; [reflexivity|].
  split; [exact Hbase|]. split; [exact Hvd'|].
  split; [|apply subseteq_size, Hvd'].
  rewrite <- (length_map f_url).
  pose proof (sublist_NoDup _ _ Hnd Hsub) as Hnd'.
  rewrite <- (size_list_to_set (C := gset string) _ Hnd').
  apply subseteq_size. intros x Hx. apply elem_of_list_to_set in Hx.
  apply Hvis. eapply elem_of_sublist; eassumption.
Qed.

End Crawl.

Section Counts.

Lemma files_of_type_snoc (t : string) (p : list FileRecord) (r : FileRecord) :
  files_of_type t (p ++ [r])
  = files_of_type t p + (if String.eqb (file_type r) t then 1 else 0).
Proof.
  unfold files_of_type. rewrite List.filter_app, length_app. simpl.
  destruct (String.eqb (file_type r) t); reflexivity.
Qed.

Lemma find_app_key {A} (f : A → bool) (l1 l2 : list A) :
  List.find f (l1 ++ l2)
  = match List.find f l1 with Some x => Some x | None => List.find f l2 end.
Proof.
  induction l1 as [|x l1 IH]; [reflexivity|]. simpl.
  destruct (f x); [reflexivity|exact IH].
Qed.

Lemma find_map_key (ft t : string) (counts : list (string * nat)) :
  List.find (fun kv => String.eqb (fst kv) t)
    (map (fun kv => if String.eqb (fst kv) ft then (fst kv, snd kv + 1) else kv) counts)
  = (fun kv => if String.eqb (fst kv) ft then (fst kv, snd kv + 1) else kv)
      <$> List.find (fun kv => String.eqb (fst kv) t) counts.
Proof.
  induction counts as [|[k n] counts IH]; [reflexivity|]. simpl.
  destruct (String.eqb k ft) eqn:Ek; simpl; destruct (String.eqb k t) eqn:Et; simpl;
    try rewrite Ek; try reflexivity; exact IH.
Qed.

Lemma sum_map_key (ft : string) (counts : list (string * nat)) (m : nat) :
  NoDup (map fst counts) → (ft, m) ∈ counts →
  list_sum (map snd
    (map (fun kv => if String.eqb (fst kv) ft then (fst kv, snd kv + 1) else kv) counts))
  = S (list_sum (map snd counts)).
Proof.
  induction counts as [|[k n] counts IH]; intros Hnd Hin.
  - apply elem_of_nil in Hin. contradiction.
  - simpl in Hnd. apply NoDup_cons in Hnd as [Hk Hnd]. simpl.
    apply elem_of_cons in Hin as [Hin|Hin].
    + injection Hin as <- <-. rewrite String.eqb_refl. simpl.
      assert (Hsame : map (fun kv : string * nat =>
                             if String.eqb (fst kv) ft then (fst kv, snd kv + 1) else kv)
                        counts = counts).
      { clear IH Hnd. induction counts as [|[k' n'] counts IH]; [reflexivity|].
        simpl. destruct (String.eqb_spec k' ft) as [->|_].
        - exfalso. apply Hk. simpl. left.
        - f_equal. apply IH. intros Hin. apply Hk. simpl. right. exact Hin. }
      rewrite Hsame. lia.
    + destruct (String.eqb_spec k ft) as [->|_].
      * exfalso. apply Hk. apply list_elem_of_fmap. exists (ft, m). auto.
      * simpl. rewrite (IH Hnd Hin). lia.
Qed.

Lemma find_key_elem (t : string) (counts : list (string * nat)) (kv : string * nat) :
  List.find (fun kv => String.eqb (fst kv) t) counts = Some kv →
  kv ∈ counts ∧ fst kv = t.
Proof.
  intros E. apply List.find_some in E as [Hin Hk].
  apply String.eqb_eq in Hk. split; [apply list_elem_of_In, Hin|exact Hk].
Qed.

Lemma count_step_ok (counts : list (string * nat)) (p : list FileRecord)
    (r : FileRecord) :
  counts_ok counts p → counts_ok (count_step counts r) (p ++ [r]).
Proof.
  intros (Hnd & Hget & Hsum). unfold count_step. cbv zeta.
  destruct (List.find _ counts) as [[k m]|] eqn:Efind.
  - apply find_key_elem in Efind as [Hin Hk]. simpl in Hk. subst k.
    split; [|split].
    + rewrite <- list_fmap_compose.
      erewrite list_fmap_ext; [exact Hnd|].
      intros i [k n] _. simpl. destruct (String.eqb k (file_type r)); reflexivity.
    + intros t. unfold counts_get. rewrite find_map_key.
      specialize (Hget t). unfold counts_get in Hget.
      rewrite files_of_type_snoc.
      destruct (List.find _ counts) as [[k n]|] eqn:Et; simpl in *.
      * apply find_key_elem in Et as [_ Hk]. simpl in Hk. subst k.
        destruct (files_of_type t p =? 0) eqn:Hz; [discriminate|].
        injection Hget as ->. apply Nat.eqb_neq in Hz.
        rewrite (String.eqb_sym t). 
        destruct (String.eqb (file_type r) t); simpl.
        -- destruct (_ =? 0) eqn:Hz'; [apply Nat.eqb_eq in Hz'; lia|reflexivity].
        -- rewrite Nat.add_0_r. apply Nat.eqb_neq in Hz. rewrite Hz. reflexivity.
      * destruct (files_of_type t p =? 0) eqn:Hz; [|discriminate].
        apply Nat.eqb_eq in Hz.
        destruct (String.eqb_spec (file_type r) t) as [<-|_].
        -- exfalso. specialize (List.find_none _ _ Et (file_type r, m)).
           simpl. rewrite String.eqb_refl. intros Hc.
           specialize (Hc (proj1 (list_elem_of_In _ _) Hin)). discriminate.
        -- rewrite Hz. reflexivity.
    + rewrite (sum_map_key (file_type r) counts m Hnd Hin), length_app. simpl. lia.
  - split; [|split].
    + rewrite map_app. simpl. apply NoDup_app. split; [exact Hnd|].
      split; [|apply NoDup_singleton].
      intros k Hk Hk'. apply list_elem_of_singleton in Hk' as ->.
      apply list_elem_of_fmap in Hk as ([k n] & Hk & Hin). simpl in Hk. subst k.
      specialize (List.find_none _ _ Efind (file_type r, n)).
      simpl. rewrite String.eqb_refl. intros Hc.
      specialize (Hc (proj1 (list_elem_of_In _ _) Hin)). discriminate.
    + intros t. unfold counts_get. rewrite find_app_key.
      specialize (Hget t). unfold counts_get in Hget.
      rewrite files_of_type_snoc.
      destruct (List.find _ counts) as [[k n]|] eqn:Et; simpl in *.
      * apply find_key_elem in Et as [Hin Hk]. simpl in Hk. subst k.
        destruct (String.eqb_spec (file_type r) t) as [<-|_].
        -- exfalso. specialize (List.find_none _ _ Efind (file_type r, n)).
           simpl. rewrite String.eqb_refl. intros Hc.
           specialize (Hc (proj1 (list_elem_of_In _ _) Hin)). discriminate.
        -- rewrite Nat.add_0_r. exact Hget.
      * destruct (files_of_type t p =? 0) eqn:Hz; [|discriminate].
        apply Nat.eqb_eq in Hz. rewrite Hz.
        destruct (String.eqb (file_type r) t); reflexivity.
    + rewrite map_app, list_sum_app, length_app. simpl. lia.
Qed.

Lemma count_fold_ok (l p : list FileRecord) (counts : list (string * nat)) :
  counts_ok counts p → counts_ok (fold_left count_step l counts) (p ++ l).
Proof.
  revert p counts. induction l as [|r l IH]; intros p counts Hok; simpl.
  - rewrite app_nil_r. exact Hok.
  - replace (p ++ r :: l) with ((p ++ [r]) ++ l) by (rewrite <- app_assoc; reflexivity).
    apply IH, count_step_ok, Hok.
Qed.

(** X3.  [_get_files_by_type] counts the downloaded files by type: each
    type has at most one key; the value of a type is the number of the
    downloaded files of that type, and a type of which there is no file
    has no key; the values add up to the number of the downloaded
    files. *)
Theorem files_by_type_counts `{PyLib} (self : AdvancedScraper) :
  NoDup (map fst (get_files_by_type self)) ∧
  (∀ t, counts_get t (get_files_by_type self)
        = if files_of_type t (downloaded_files self) =? 0 then None
          else Some (files_of_type t (downloaded_files self))) ∧
  list_sum (map snd (get_files_by_type self)) = length (downloaded_files self).
Proof.
  assert (Hinit : counts_ok [] []).
  { split; [constructor|]. split; [reflexivity|reflexivity]. }
  exact (count_fold_ok (downloaded_files self) [] [] Hinit).
Qed.

End Counts.

Lemma ex_scraper_files : files_inv ex_scraper.
Proof. split; [constructor|constructor]. Defined.

Lemma downloaded_files_distinct_witness :
  NoDup (map f_url (downloaded_files (snd ex_crawl))).
Proof.
  exact (proj1 (downloaded_files_distinct ex_session_get ex_save_file ex_parse_html
                  ex_save_summary ex_scraper ex_scraper_inv ex_scraper_files)).
Defined.

Lemma shallow_crawl_witness :
  discovered_urls
    (snd (frontier ex_session_get ex_save_file ex_parse_html single_page_scraper))
  = {[seed_url]} ∪ ∅.
Proof.
  assert (Hd : (max_depth single_page_scraper ≤ 0)%Z) by (simpl; lia).
  exact (proj1 (shallow_crawl ex_session_get ex_save_file ex_parse_html
                  single_page_scraper Hd)).
Defined.

Lemma summary_counts_consistent_witness :
  ∃ summary, fst ex_crawl = Ok summary ∧
             total_files summary ≤ total_discovered summary.
Proof.
  destruct ex_crawl as [[summary|e] s'] eqn:E; [|vm_compute in E; discriminate].
  exists summary. split; [reflexivity|].
  assert (Hsub : visited_urls ex_scraper ⊆ discovered_urls ex_scraper)
    by (simpl; set_solver).
  destruct (summary_counts_consistent ex_session_get ex_save_file ex_parse_html
              ex_save_summary ex_scraper summary s' ex_scraper_inv ex_scraper_files
              Hsub E) as (_ & _ & _ & _ & _ & H1 & H2).
  lia.
Defined.

(** ** Strings *)

Section StringLemmas.
Import Py.

Lemma forall_chr_nil (p : ascii → bool) : forall_chr p "" = true.
Proof. reflexivity. Qed.

Lemma forall_chr_cons (p : ascii → bool) (c : ascii) (s : string) :
  forall_chr p (String c s) = p c && forall_chr p s.
Proof. reflexivity. Qed.

Lemma forall_chr_app (p : ascii → bool) (a b : string) :
  forall_chr p (a +:+ b) = forall_chr p a && forall_chr p b.
Proof.
  induction a as [|c a IH]; [reflexivity|].
  rewrite app_cons, !forall_chr_cons, IH, andb_assoc. reflexivity.
Qed.

Lemma forall_chr_impl (p q : ascii → bool) (s : string) :
  (∀ c, p c = true → q c = true) → forall_chr p s = true → forall_chr q s = true.
Proof.
  intros Hpq. induction s as [|c s IH]; [reflexivity|].
  rewrite !forall_chr_cons. intros Hs. apply andb_true_iff in Hs as [Hc Hs].
  rewrite (Hpq c Hc), (IH Hs). reflexivity.
Qed.

Lemma prefix_chr_cons (c d : ascii) (s : string) :
  String.prefix (String c "") (String d s) = Ascii.eqb d c.
Proof.
  simpl. destruct (ascii_dec c d) as [->|N].
  - rewrite Ascii.eqb_refl. destruct s; reflexivity.
  - symmetry. apply Ascii.eqb_neq. congruence.
Qed.

Lemma contains_chr_cons (c d : ascii) (s : string) :
  contains (String c "") (String d s) = Ascii.eqb d c || contains (String c "") s.
Proof.
  change (contains (String c "") (String d s))
    with (String.prefix (String c "") (String d s) || contains (String c "") s).
  rewrite prefix_chr_cons. reflexivity.
Qed.

(** [c in s] is false when no character of [s] is [c] *)
Lemma contains_chr_forall (c : ascii) (s : string) :
  contains (String c "") s = negb (forall_chr (is_not c) s) .
Proof.
  induction s as [|d s IH]; [reflexivity|].
  rewrite contains_chr_cons, forall_chr_cons, IH. unfold is_not.
  destruct (Ascii.eqb d c); reflexivity.
Qed.

Lemma not_contains_chr (c : ascii) (s : string) :
  contains (String c "") s = false ↔ forall_chr (is_not c) s = true.
Proof. rewrite contains_chr_forall, negb_false_iff. reflexivity. Qed.

Lemma split1_forall (p : ascii → bool) (sep : ascii) (s a b : string) :
  split1 sep s = Some (a, b) → forall_chr p s = true →
  forall_chr p a = true ∧ forall_chr p b = true.
Proof.
  revert a b. induction s as [|c s IH]; intros a b; [discriminate|].
  simpl. rewrite forall_chr_cons. destruct (Ascii.eqb c sep).
  - intros E Hs. injection E as <- <-. apply andb_true_iff in Hs as [_ Hs]. auto.
  - destruct (split1 sep s) as [[a' b']|]; [|discriminate].
    intros E Hs. injection E as <- <-. apply andb_true_iff in Hs as [Hc Hs].
    destruct (IH a' b' eq_refl Hs) as [Ha Hb].
    rewrite forall_chr_cons, Hc, Ha. auto.
Qed.

(** the text before the first separator has no separator in it *)
Lemma split1_fst (sep : ascii) (s a b : string) :
  split1 sep s = Some (a, b) → forall_chr (is_not sep) a = true.
Proof.
  revert a b. induction s as [|c s IH]; intros a b; [discriminate|].
  simpl. destruct (Ascii.eqb c sep) eqn:Ec.
  - intros E. injection E as <- <-. reflexivity.
  - destruct (split1 sep s) as [[a' b']|]; [|discriminate].
    intros E. injection E as <- <-. rewrite forall_chr_cons.
    unfold is_not at 1. rewrite Ec. simpl. exact (IH a' b' eq_refl).
Qed.

Lemma split1_none (sep : ascii) (s : string) :
  split1 sep s = None → forall_chr (is_not sep) s = true.
Proof.
  induction s as [|c s IH]; [reflexivity|].
  simpl. destruct (Ascii.eqb c sep) eqn:Ec; [discriminate|].
  destruct (split1 sep s) as [[a' b']|]; [discriminate|].
  intros _. rewrite forall_chr_cons. unfold is_not at 1. rewrite Ec. simpl.
  apply IH. reflexivity.
Qed.

(** the text is put together again from the two parts *)
Lemma split1_app (sep : ascii) (s a b : string) :
  split1 sep s = Some (a, b) → s = a +:+ String sep b.
Proof.
  revert a b. induction s as [|c s IH]; intros a b; [discriminate|].
  simpl. destruct (Ascii.eqb_spec c sep) as [->|_].
  - intros E. injection E as <- <-. reflexivity.
  - destruct (split1 sep s) as [[a' b']|]; [|discriminate].
    intros E. injection E as <- <-. rewrite app_cons. f_equal. apply IH. reflexivity.
Qed.

Lemma split_not_nil (sep : ascii) (s : string) : split sep s ≠ [].
Proof.
  destruct s as [|c s]; simpl; [discriminate|].
  destruct (Ascii.eqb c sep); [discriminate|].
  destruct (split sep s); discriminate.
Qed.

Lemma split_forall (p : ascii → bool) (sep : ascii) (s : string) :
  forall_chr p s = true → Forall (fun w => forall_chr p w = true) (split sep s).
Proof.
  induction s as [|c s IH]; [repeat constructor|].
  rewrite forall_chr_cons. intros Hs. apply andb_true_iff in Hs as [Hc Hs].
  specialize (IH Hs). simpl. destruct (Ascii.eqb c sep).
  - constructor; [reflexivity|exact IH].
  - destruct (split sep s) as [|w ws]; [repeat constructor; rewrite forall_chr_cons, Hc; reflexivity|].
    apply Forall_cons in IH as [Hw Hws]. constructor; [|exact Hws].
    rewrite forall_chr_cons, Hc, Hw. reflexivity.
Qed.

(** no item of [s.split(sep)] has the separator in it *)
Lemma split_no_sep (sep : ascii) (s : string) :
  Forall (fun w => forall_chr (is_not sep) w = true) (split sep s).
Proof.
  induction s as [|c s IH]; [repeat constructor|].
  simpl. destruct (Ascii.eqb c sep) eqn:Ec.
  - constructor; [reflexivity|exact IH].
  - destruct (split sep s) as [|w ws];
      [repeat constructor; rewrite forall_chr_cons; unfold is_not; rewrite Ec; reflexivity|].
    apply Forall_cons in IH as [Hw Hws]. constructor; [|exact Hws].
    rewrite forall_chr_cons, Hw. unfold is_not at 1. rewrite Ec. reflexivity.
Qed.

Lemma join_forall (p : ascii → bool) (sep : string) (l : list string) :
  forall_chr p sep = true → Forall (fun w => forall_chr p w = true) l →
  forall_chr p (join sep l) = true.
Proof.
  intros Hsep. unfold join. induction l as [|w [|w' l] IH]; intros Hl.
  - reflexivity.
  - apply Forall_cons in Hl as [Hw _]. exact Hw.
  - apply Forall_cons in Hl as [Hw Hl].
    change (String.concat sep (w :: w' :: l))
      with (w +:+ sep +:+ String.concat sep (w' :: l)).
    rewrite !forall_chr_app, Hw, Hsep, (IH Hl). reflexivity.
Qed.

Lemma last_forall {A} (P : A → Prop) (l : list A) (d : A) :
  P d → Forall P l → P (List.last l d).
Proof.
  intros Hd. induction l as [|x [|y l] IH]; intros Hl.
  - exact Hd.
  - apply Forall_cons in Hl as [Hx _]. exact Hx.
  - apply Forall_cons in Hl as [_ Hl]. exact (IH Hl).
Qed.

Lemma removelast_forall {A} (P : A → Prop) (l : list A) :
  Forall P l → Forall P (removelast l).
Proof.
  induction l as [|x [|y l] IH]; intros Hl; [constructor|constructor|].
  apply Forall_cons in Hl as [Hx Hl].
  change (removelast (x :: y :: l)) with (x :: removelast (y :: l)).
  constructor; [exact Hx|exact (IH Hl)].
Qed.

Lemma rstrip_forall (p : ascii → bool) (chars s : string) :
  forall_chr p s = true → forall_chr p (rstrip chars s) = true.
Proof.
  induction s as [|c s IH]; [reflexivity|].
  rewrite forall_chr_cons. intros Hs. apply andb_true_iff in Hs as [Hc Hs].
  specialize (IH Hs). simpl. destruct (rstrip chars s) as [|d r].
  - destruct (chr_in c chars); [reflexivity|].
    rewrite forall_chr_cons, Hc. reflexivity.
  - rewrite forall_chr_cons, Hc. exact IH.
Qed.

Lemma lstrip_forall (p : ascii → bool) (chars s : string) :
  forall_chr p s = true → forall_chr p (lstrip chars s) = true.
Proof.
  induction s as [|c s IH]; [reflexivity|].
  intros Hs. simpl. destruct (chr_in c chars); [|exact Hs].
  rewrite forall_chr_cons in Hs. apply andb_true_iff in Hs as [_ Hs]. exact (IH Hs).
Qed.

Lemma filter_chr_forall (p q : ascii → bool) (s : string) :
  forall_chr p s = true → forall_chr p (filter_chr q s) = true.
Proof.
  induction s as [|c s IH]; [reflexivity|].
  rewrite forall_chr_cons. intros Hs. apply andb_true_iff in Hs as [Hc Hs].
  simpl. destruct (q c); [rewrite forall_chr_cons, Hc|]; exact (IH Hs).
Qed.

Lemma drop_forall (p : ascii → bool) (n : nat) (s : string) :
  forall_chr p s = true → forall_chr p (drop n s) = true.
Proof.
  revert s. induction n as [|n IH]; intros s Hs; [exact Hs|].
  destruct s as [|c s]; [reflexivity|].
  rewrite forall_chr_cons in Hs. apply andb_true_iff in Hs as [_ Hs].
  exact (IH s Hs).
Qed.

Lemma span_forall_both (p q : ascii → bool) (s : string) :
  forall_chr p s = true →
  forall_chr p (fst (span q s)) = true ∧ forall_chr p (snd (span q s)) = true.
Proof.
  induction s as [|c s IH]; [auto|].
  intros Hs. simpl. destruct (q c); [|auto].
  rewrite forall_chr_cons in Hs. apply andb_true_iff in Hs as [Hc Hs].
  destruct (IH Hs) as [Ha Hb]. destruct (span q s) as [a b]. simpl in *.
  rewrite forall_chr_cons, Hc. auto.
Qed.

Lemma replace_slash_forall (s : string) :
  forall_chr (is_not "/") (replace "/" "_" s) = true.
Proof.
  unfold replace. induction s as [|c s IH]; [reflexivity|].
  change (replace_go "/" "_" 0 (String c s))
    with (if String.prefix "/" (String c s)
          then "_" +:+ replace_go "/" "_" 0 s
          else String c (replace_go "/" "_" 0 s)).
  rewrite prefix_chr_cons. destruct (Ascii.eqb c "/") eqn:Ec.
  - rewrite forall_chr_app, IH. reflexivity.
  - rewrite forall_chr_cons, IH. unfold is_not. rewrite Ec. reflexivity.
Qed.

Lemma drop_len_app (a b : string) : drop (len a) (a +:+ b) = b.
Proof. induction a as [|c a IH]; [reflexivity|]. exact IH. Qed.

Lemma endswith_app (a b : string) : endswith (a +:+ b) b = true.
Proof.
  unfold endswith. rewrite len_app.
  replace (len a + len b - len b) with (len a) by lia.
  rewrite drop_len_app, String.eqb_refl.
  destruct (len b <=? len a + len b) eqn:E; [reflexivity|].
  apply Nat.leb_gt in E. lia.
Qed.

Lemma startswith_app (a b : string) : startswith (a +:+ b) a = true.
Proof.
  unfold startswith. induction a as [|c a IH]; [destruct b; reflexivity|].
  rewrite app_cons. simpl. destruct (ascii_dec c c); [exact IH|contradiction].
Qed.

Lemma startswith_inv (s p : string) :
  startswith s p = true → ∃ r, s = p +:+ r.
Proof.
  unfold startswith. revert s. induction p as [|c p IH]; intros s.
  - intros _. exists s. reflexivity.
  - destruct s as [|d s]; [discriminate|]. simpl.
    destruct (ascii_dec c d) as [->|_]; [|discriminate].
    intros Hp. destruct (IH s Hp) as [r ->]. exists r. reflexivity.
Qed.

End StringLemmas.

(** ** The parts of a parsed URL *)

Section UrlParts.
Context `{PyLib}.
Import Py Urllib.

Lemma splitparams_forall (p : ascii → bool) (url : string) :
  forall_chr p url = true →
  forall_chr p (fst (splitparams url)) = true ∧
  forall_chr p (snd (splitparams url)) = true.
Proof.
  intros Hu. unfold splitparams.
  pose proof (split_forall p "/" url Hu) as Hsegs.
  destruct (split1 ";" (List.last (split "/" url) "")) as [[a b]|] eqn:E; [|auto].
  assert (Hlast : forall_chr p (List.last (split "/" url) "") = true)
    by (apply (last_forall (fun w => forall_chr p w = true)); [reflexivity|exact Hsegs]).
  destruct (split1_forall p ";" _ a b E Hlast) as [Ha Hb].
  simpl. split; [|exact Hb].
  destruct (p "/"%char) eqn:Hslash.
  - apply join_forall; [rewrite forall_chr_cons, Hslash; reflexivity|].
    apply Forall_app. split; [apply removelast_forall, Hsegs|].
    apply Forall_singleton, Ha.
  - (* no character of url is a slash: there is one segment *)
    assert (Hone : split "/" url = [url]).
    { clear -Hu Hslash. induction url as [|c url IH]; [reflexivity|].
      rewrite forall_chr_cons in Hu. apply andb_true_iff in Hu as [Hc Hu].
      simpl. destruct (Ascii.eqb_spec c "/") as [->|_]; [congruence|].
      rewrite (IH Hu). reflexivity. }
    rewrite Hone. simpl. exact Ha.
Qed.

(** no part of a parsed URL but the fragment has a '#' in it *)
Lemma urlparse_parts_no_hash (url : string) (parsed : ParseResult) :
  urlparse url "" = Ok parsed →
  forall_chr (is_not "#") (scheme parsed) = true ∧
  forall_chr (is_not "#") (netloc parsed) = true ∧
  forall_chr (is_not "#") (path parsed) = true ∧
  forall_chr (is_not "#") (params parsed) = true ∧
  forall_chr (is_not "#") (query parsed) = true.
Proof.
  intros E. destruct (urlparse_no_hash url parsed E) as [Hs Hn].
  apply not_contains_chr in Hs, Hn.
  split; [exact Hs|]. split; [exact Hn|].
  unfold urlparse in E. apply exc_bind_Ok in E as (sr & Hsr & E).
  assert (Hpq : forall_chr (is_not "#") (s_path sr) = true ∧
                forall_chr (is_not "#") (s_query sr) = true).
  { clear E Hs Hn. unfold urlsplit in Hsr.
    match type of Hsr with
    | (let '(_, _) := ?m in _) = _ => destruct m as [sch u1]
    end.
    apply exc_bind_Ok in Hsr as ([nl u2] & _ & Hsr).
    assert (H3 : forall_chr (is_not "#")
                   (fst (match split1 "#" u2 with
                         | Some (a, b) => (a, b) | None => (u2, "") end)) = true).
    { destruct (split1 "#" u2) as [[a b]|] eqn:E3; simpl.
      - exact (split1_fst "#" u2 a b E3).
      - exact (split1_none "#" u2 E3). }
    destruct (match split1 "#" u2 with Some (a, b) => (a, b) | None => (u2, "") end)
      as [u3 frag]. simpl in H3.
    assert (H4 : forall_chr (is_not "#")
                   (fst (match split1 "?" u3 with
                         | Some (a, b) => (a, b) | None => (u3, "") end)) = true ∧
                 forall_chr (is_not "#")
                   (snd (match split1 "?" u3 with
                         | Some (a, b) => (a, b) | None => (u3, "") end)) = true).
    { destruct (split1 "?" u3) as [[a b]|] eqn:E4; simpl; [|auto].
      exact (split1_forall _ "?" u3 a b E4 H3). }
    destruct (match split1 "?" u3 with Some (a, b) => (a, b) | None => (u3, "") end)
      as [u4 q]. simpl in H4.
    apply exc_bind_Ok in Hsr as (? & _ & Hsr). injection Hsr as <-. exact H4. }
  destruct Hpq as [Hp Hq].
  destruct (splitparams_forall (is_not "#") (s_path sr) Hp) as [Hp1 Hp2].
  destruct (_ && _); [destruct (splitparams _) as [a b]|];
    injection E as <-; simpl in *; auto.
Qed.

Lemma urlunsplit_forall (p : ascii → bool) (scheme netloc url query : string) :
  p "/"%char = true → p ":"%char = true → p "?"%char = true →
  forall_chr p scheme = true → forall_chr p netloc = true →
  forall_chr p url = true → forall_chr p query = true →
  forall_chr p (urlunsplit scheme netloc url query "") = true.
Proof.
  intros Hsl Hco Hqm Hs Hn Hu Hq. unfold urlunsplit.
  change (negb (String.eqb "" "")) with false. cbv iota zeta.
  repeat match goal with
         | |- context [if ?b then _ else _] => destruct b
         end;
    rewrite ?forall_chr_app, ?forall_chr_cons, ?Hs, ?Hn, ?Hu, ?Hq, ?Hsl, ?Hco, ?Hqm;
    reflexivity.
Qed.

Lemma urlunparse_forall (p : ascii → bool)
    (scheme netloc url params query : string) :
  p "/"%char = true → p ":"%char = true → p "?"%char = true → p ";"%char = true →
  forall_chr p scheme = true → forall_chr p netloc = true →
  forall_chr p url = true → forall_chr p params = true →
  forall_chr p query = true →
  forall_chr p (urlunparse scheme netloc url params query "") = true.
Proof.
  intros Hsl Hco Hqm Hsc Hs Hn Hu Hp Hq. unfold urlunparse.
  apply urlunsplit_forall; try assumption.
  destruct (negb _); [|exact Hu].
  rewrite !forall_chr_app, Hu, Hp, forall_chr_cons, Hsc. reflexivity.
Qed.

(** [clean_url] returns a URL without fragment *)
Lemma clean_url_no_hash (url c : string) :
  clean_url url = Ok c → contains "#" c = false.
Proof.
  unfold clean_url. intros E. apply exc_bind_Ok in E as (parsed & Hp & E).
  injection E as <-. apply not_contains_chr.
  destruct (urlparse_parts_no_hash url parsed Hp) as (Hs & Hn & Hpa & Hpr & Hq).
  apply urlunparse_forall; try assumption; reflexivity.
Qed.

End UrlParts.

(** what every step of a loop preserves holds at its end *)
Lemma foldM_inv {A B} (P : A → Prop) (f : A → B → exc A) (l : list B) (a r : A) :
  (∀ a b a', P a → f a b = Ok a' → P a') → P a → foldM f l a = Ok r → P r.
Proof.
  intros Hstep. revert a. induction l as [|x l IH]; intros a Ha E; simpl in E.
  - injection E as <-. exact Ha.
  - apply exc_bind_Ok in E as (a' & Ea & E). exact (IH a' (Hstep a x a' Ha Ea) E).
Qed.

Lemma fold_left_inv {A B} (P : A → Prop) (f : A → B → A) (l : list B) (a : A) :
  (∀ a b, P a → P (f a b)) → P a → P (fold_left f l a).
Proof.
  intros Hstep. revert a. induction l as [|x l IH]; intros a Ha; simpl; auto.
Qed.

Section FileTypes.
Context `{PyLib}.
Import Py Urllib.

Lemma basename_no_slash (path : string) : contains "/" (basename path) = false.
Proof.
  apply not_contains_chr. unfold basename.
  apply (last_forall (fun w => forall_chr (is_not "/") w = true));
    [reflexivity|apply split_no_sep].
Qed.

Lemma replace_slash_no_slash (path : string) :
  contains "/" (replace "/" "_" path) = false.
Proof. apply not_contains_chr, replace_slash_forall. Qed.


End FileTypes.


Section AllLinks.
Context `{PyLib}.
Import Py Urllib.
Variable parse_html : string → Soup.

Lemma add_link_no_hash (base_url : string) (links links' : gset string)
    (ref : string) :
  (∀ u, u ∈ links → contains "#" u = false) →
  add_link base_url links ref = Ok links' →
  ∀ u, u ∈ links' → contains "#" u = false.
Proof.
  intros Hl E. unfold add_link in E.
  apply exc_bind_Ok in E as (absolute_url & _ & E).
  apply exc_bind_Ok in E as (c & Hc & E). injection E as <-.
  intros u Hu. apply elem_of_union in Hu as [Hu|Hu]; [|exact (Hl u Hu)].
  apply elem_of_singleton in Hu as ->. exact (clean_url_no_hash _ _ Hc).
Qed.

(** X7.  The links [extract_all_links] returns are pairwise different and
    none has a fragment: no '#' occurs in them. *)
Theorem extracted_links_clean (html_content base_url : string) (l : list string) :
  extract_all_links parse_html html_content base_url = Ok l →
  NoDup l ∧ ∀ u, u ∈ l → contains "#" u = false.
Proof.
  unfold extract_all_links. intros E.
  set (P := fun links : gset string => ∀ u, u ∈ links → contains "#" u = false).
  assert (P0 : P ∅) by (intros u Hu; apply elem_of_empty in Hu; contradiction).
  assert (Hplain : ∀ (a : gset string) (raw : string) (a' : gset string), P a →
            (let ref := strip whitespace raw in
             if negb (String.eqb ref "") then add_link base_url a ref else Ok a)
            = Ok a' → P a').
  { intros a raw a' Ha Ea. cbv zeta in Ea. destruct (negb _).
    - exact (add_link_no_hash base_url a a' _ Ha Ea).
    - injection Ea as <-. exact Ha. }
  apply exc_bind_Ok in E as (l1 & E1 & E).
  assert (P1 : P l1).
  { refine (foldM_inv P _ _ _ _ _ P0 E1). intros a raw a' Ha Ea. cbv zeta in Ea.
    destruct (_ && _).
    - exact (add_link_no_hash base_url a a' _ Ha Ea).
    - injection Ea as <-. exact Ha. }
  apply exc_bind_Ok in E as (l2 & E2 & E).
  pose proof (foldM_inv P _ _ _ _ Hplain P1 E2) as P2.
  apply exc_bind_Ok in E as (l3 & E3 & E).
  pose proof (foldM_inv P _ _ _ _ Hplain P2 E3) as P3.
  apply exc_bind_Ok in E as (l4 & E4 & E).
  pose proof (foldM_inv P _ _ _ _ Hplain P3 E4) as P4.
  apply exc_bind_Ok in E as (l5 & E5 & E).
  assert (P5 : P l5).
  { refine (foldM_inv P _ _ _ _ _ P4 E5). intros a style a' Ha Ea.
    refine (foldM_inv P _ _ _ _ _ Ha Ea). intros b url b' Hb Eb.
    exact (add_link_no_hash base_url b b' _ Hb Eb). }
  injection E as <-. split; [apply set_iter_NoDup|].
  intros u Hu. apply P5, set_iter_elem_of, Hu.
Qed.

End AllLinks.

Lemma extracted_links_clean_witness :
  ∃ l, extract_all_links ex_parse_html seed_url seed_url = Ok l ∧ NoDup l.
Proof.
  destruct (extract_all_links ex_parse_html seed_url seed_url) as [l|e] eqn:E;
    [|vm_compute in E; discriminate].
  exists l. split; [reflexivity|].
  exact (proj1 (extracted_links_clean ex_parse_html seed_url seed_url l E)).
Defined.

(** ** scraper_network.py *)

Section NetworkLemmas.
Context `{PyLib}.
Import Py Urllib Re.

(** X8.  [process_match] never removes a link and adds at most one; it
    adds nothing for a match of fewer than three characters; a link it
    adds starts with http or with the base URL followed by /blog/. *)
Theorem process_match_adds (m base_url : string) (links : gset string) :
  (len m < 3 → process_match m base_url links = links) ∧
  (process_match m base_url links = links ∨
   ∃ u, process_match m base_url links = {[u]} ∪ links ∧
        (startswith u "http" = true ∨
         startswith u (base_url +:+ "/blog/") = true)).
Proof.
  unfold process_match. split.
  - intros Hlen. apply Nat.ltb_lt in Hlen. rewrite Hlen, orb_true_r. reflexivity.
  - destruct (String.eqb m "" || (len m <? 3)); [left; reflexivity|].
    set (m' := strip _ m).
    destruct (startswith m' "http") eqn:Hhttp; [right; eauto|].
    destruct (startswith m' "/blog/") eqn:Hblog.
    { right. eexists. split; [reflexivity|]. right.
      apply startswith_inv in Hblog as [r ->].
      rewrite <- app_assoc_string. apply startswith_app. }
    destruct (startswith m' "blog/") eqn:Hblog'.
    { right. eexists. split; [reflexivity|]. right.
      apply startswith_inv in Hblog' as [r ->].
      replace (base_url +:+ "/" +:+ "blog/" +:+ r)
        with ((base_url +:+ "/blog/") +:+ r)
        by (rewrite !app_assoc_string; reflexivity).
      apply startswith_app. }
    destruct (contains "blog" m' && negb (contains "/" m')); [|left; reflexivity].
    right. eexists. split; [reflexivity|]. right.
    rewrite <- app_assoc_string. apply startswith_app.
Qed.

Lemma process_match_mono (m base_url : string) (links : gset string) :
  links ⊆ process_match m base_url links.
Proof.
  destruct (process_match_adds m base_url links) as [_ [->|(u & -> & _)]];
    [reflexivity|apply union_subseteq_r].
Qed.

Lemma extract_urls_from_json_mono (levels : nat) (data : json) (base_url : string)
    (links : gset string) :
  links ⊆ extract_urls_from_json levels data base_url links.
Proof.
  revert data links. induction levels as [|levels IH]; intros data links;
    [reflexivity|].
  simpl. destruct data as [s|items|items|]; try reflexivity.
  - apply fold_left_set_mono. intros a [k v]. simpl. destruct v; try reflexivity.
    + destruct (_ && _); [apply process_match_mono|reflexivity].
    + apply IH.
    + apply IH.
  - apply fold_left_set_mono. intros a b. apply IH.
Qed.

(** X9.  The walk [extract_urls_from_json] never removes a link; it reads
    the string values of objects only, so an array of strings adds
    nothing; and it does not look below the sixth level: data inside six
    or more nested arrays adds nothing. *)
Theorem json_walk_bounds (base_url : string) (links : gset string) :
  (∀ data, links ⊆ extract_urls_from_json 6 data base_url links) ∧
  (∀ texts, extract_urls_from_json 6 (JList (map JStr texts)) base_url links = links) ∧
  (∀ k data, 6 ≤ k →
     extract_urls_from_json 6 (nested k data) base_url links = links).
Proof.
  split; [intros data; apply extract_urls_from_json_mono|]. split.
  - intros texts. simpl. induction texts as [|t texts IH]; [reflexivity|exact IH].
  - assert (Hgen : ∀ levels k data, levels ≤ k →
              extract_urls_from_json levels (nested k data) base_url links = links).
    { induction levels as [|levels IH]; intros k data Hk; [reflexivity|].
      destruct k as [|k]; [lia|]. simpl. apply IH. lia. }
    intros k data Hk. apply Hgen, Hk.
Qed.

Lemma filter_link_inv (base_url base_domain : string) (acc acc' : gset string)
    (link : string) (Q : string → Prop) :
  (∀ u, u ∈ acc → Q u) →
  (contains "/blog/" link = true → any_in network_unwanted (lower link) = false →
   link ≠ base_url +:+ "/blog" →
   (∃ p, urlparse link "" = Ok p ∧
         (replace "www." "" (lower (netloc p)) = "" ∨
          replace "www." "" (lower (netloc p)) = base_domain)) →
   Q link) →
  filter_link base_url base_domain acc link = Ok acc' →
  ∀ u, u ∈ acc' → Q u.
Proof.
  intros Hacc Hlink E. unfold filter_link in E.
  destruct (any_in network_unwanted (lower link)) eqn:Hunw; simpl in E;
    [injection E as <-; exact Hacc|].
  destruct (contains "/blog/" link) eqn:Hblog; simpl in E;
    [|injection E as <-; exact Hacc].
  destruct (String.eqb_spec link (base_url +:+ "/blog")) as [|Hne]; simpl in E;
    [injection E as <-; exact Hacc|].
  apply exc_bind_Ok in E as (p & Hp & E).
  destruct (String.eqb_spec (replace "www." "" (lower (netloc p))) "") as [E1|_];
    simpl in E.
  - injection E as <-. intros u Hu.
    apply elem_of_union in Hu as [Hu|Hu]; [|exact (Hacc u Hu)].
    apply elem_of_singleton in Hu as ->. apply Hlink; eauto.
  - destruct (String.eqb_spec (replace "www." "" (lower (netloc p))) base_domain)
      as [E2|_]; [|injection E as <-; exact Hacc].
    injection E as <-. intros u Hu.
    apply elem_of_union in Hu as [Hu|Hu]; [|exact (Hacc u Hu)].
    apply elem_of_singleton in Hu as ->. apply Hlink; eauto.
Qed.

(** X10.  Every link [extract_links_from_network] returns has /blog/ in
    it, is not the blog index base_url/blog, has none of the unwanted
    texts (.js, .css, the image extensions, assets, static, cdn) in its
    lower-case form, and is a URL with no host or with the host of the
    page, compared in lower case with every www. removed. *)
Theorem network_links_filtered (page : NetworkBrowser) (url : string)
    (parsed : ParseResult) (u : string) :
  urlparse url "" = Ok parsed →
  u ∈ links (extract_links_from_network page url) →
  contains "/blog/" u = true ∧
  any_in network_unwanted (lower u) = false ∧
  u ≠ scheme parsed +:+ "://" +:+ netloc parsed +:+ "/blog" ∧
  ∃ p, urlparse u "" = Ok p ∧
       (replace "www." "" (lower (netloc p)) = "" ∨
        replace "www." "" (lower (netloc p))
        = replace "www." "" (lower (netloc parsed))).
Proof.
  intros Hparse. unfold extract_links_from_network. rewrite Hparse.
  simpl exc_bind.
  match goal with
  | |- u ∈ links (try_except ?m ?h) → _ => destruct m as [r|e] eqn:E
  end; simpl try_except; [|intros Hu; apply elem_of_nil in Hu; contradiction].
  apply exc_bind_Ok in E as (? & _ & E).
  apply exc_bind_Ok in E as (ls & _ & E).
  apply exc_bind_Ok in E as (fl & Hfl & E).
  injection E as <-. simpl links. intros Hu.
  apply sorted_set_elem_of in Hu. revert u Hu.
  refine (foldM_inv (fun acc : gset string => ∀ u, u ∈ acc → _) _ _ _ _ _ _ Hfl).
  - intros a b a' Ha Ea.
    refine (filter_link_inv _ _ a a' b _ Ha _ Ea).
    intros H1 H2 H3 H4. rewrite !app_assoc_string in H3. auto.
  - intros u Hu. apply elem_of_empty in Hu. contradiction.
Qed.

Lemma handle_response_unreadable (acc : list ApiResponse) (r : NetResponse) :
  (∃ e, nr_text r = Raise e) → handle_response acc r = acc.
Proof.
  intros [e He]. unfold handle_response. rewrite He.
  destruct (_ || _); reflexivity.
Qed.

Lemma handle_response_filter (l : list NetResponse) (acc : list ApiResponse) :
  fold_left handle_response
    (List.filter (fun r => match nr_text r with Ok _ => true | Raise _ => false end) l)
    acc
  = fold_left handle_response l acc.
Proof.
  revert acc. induction l as [|r l IH]; intros acc; [reflexivity|].
  simpl. destruct (nr_text r) as [t|e] eqn:Et.
  - simpl. apply IH.
  - rewrite (handle_response_unreadable acc r) by eauto. apply IH.
Qed.

(** X11.  A response whose text cannot be read is passed over: the
    result of [extract_links_from_network] is the same as if the page had
    not received it. *)
Theorem unreadable_responses_ignored (launch close : exc unit)
    (responses : list NetResponse) (anchors : exc (list (option string)))
    (url : string) :
  extract_links_from_network
    (mkNetworkBrowser launch responses anchors close) url
  = extract_links_from_network
      (mkNetworkBrowser launch
         (List.filter (fun r => match nr_text r with Ok _ => true | Raise _ => false end)
            responses)
         anchors close) url.
Proof.
  unfold extract_links_from_network. simpl nb_responses.
  rewrite handle_response_filter. reflexivity.
Qed.

End NetworkLemmas.

Lemma process_match_adds_witness :
  process_match "ab" "https://a.com" ∅ = ∅.
Proof.
  assert (Hlen : Py.len "ab" < 3) by (simpl; lia).
  exact (proj1 (process_match_adds "ab" "https://a.com" ∅) Hlen).
Defined.

Lemma json_walk_bounds_witness :
  extract_urls_from_json 6
    (nested 6 (JDict [("url", JStr "/blog/deep-post")])) "https://a.com" ∅
  = ∅.
Proof.
  assert (Hk : 6 ≤ 6) by lia.
  exact (proj2 (proj2 (json_walk_bounds "https://a.com" ∅)) 6
           (JDict [("url", JStr "/blog/deep-post")]) Hk).
Defined.

Lemma network_links_filtered_witness :
  links (extract_links_from_network
           (network_page [] [Some "https://a.com/blog/my-post"]) "https://a.com")
    = ["https://a.com/blog/my-post"] ∧
  Py.contains "/blog/" "https://a.com/blog/my-post" = true.
Proof.
  assert (E : links (extract_links_from_network
                       (network_page [] [Some "https://a.com/blog/my-post"])
                       "https://a.com")
              = ["https://a.com/blog/my-post"]) by (vm_compute; reflexivity).
  split; [exact E|].
  assert (Hp : Urllib.urlparse "https://a.com" ""
               = Ok (Urllib.mkParse "https" "a.com" "" "" "" ""))
    by (vm_compute; reflexivity).
  assert (Hin : "https://a.com/blog/my-post"
                  ∈ links (extract_links_from_network
                             (network_page [] [Some "https://a.com/blog/my-post"])
                             "https://a.com"))
    by (rewrite E; apply list_elem_of_singleton; reflexivity).
  exact (proj1 (network_links_filtered _ _ _ _ Hp Hin)).
Defined.

(** ** scraper_bundle.py *)

Section BundleProperties.
Context `{PyLib}.
Import Py Urllib Re.

Lemma clean_slug_chars (slug : string) :
  forall_chr slug_chr (clean_slug slug) = true.
Proof.
  unfold clean_slug. induction slug as [|c s IH]; [reflexivity|].
  simpl. destruct (is_alnum c || Ascii.eqb c "-") eqn:Ec; [|exact IH].
  rewrite forall_chr_cons, IH. unfold slug_chr. rewrite Ec. reflexivity.
Qed.

Lemma construct_inv (base_url current_path : string) (acc : gset string)
    (slug : string) (Q : string → Prop) :
  contains "#" (base_url +:+ current_path) = false →
  (∀ u, u ∈ acc → Q u) →
  (∀ u, constructed_from base_url current_path slug u → Q u) →
  ∀ u, u ∈ construct base_url current_path acc slug → Q u.
Proof.
  intros Hb Hacc Hnew u. unfold construct.
  destruct ((5 <=? len (clean_slug slug)) && contains "-" (clean_slug slug)) eqn:Hc;
    [|apply Hacc].
  apply andb_true_iff in Hc as [Hlen Hhy]. apply Nat.leb_le in Hlen.
  intros Hu. apply elem_of_union in Hu as [Hu|Hu]; [|exact (Hacc u Hu)].
  apply elem_of_singleton in Hu as ->. apply Hnew.
  pose proof (clean_slug_chars slug) as Hchars.
  split; [|auto]. unfold drop_fragment.
  assert (Hno : contains "#" (base_url +:+ current_path +:+ "/" +:+ clean_slug slug)
                = false).
  { rewrite <- app_assoc_string. apply no_hash_app; [exact Hb|].
    apply (no_hash_app "/"); [reflexivity|].
    exact (no_hash_forall slug_chr _ eq_refl Hchars). }
  rewrite Hno. reflexivity.
Qed.

Lemma add_navigation_inv (base_url current_path : string) (acc : gset string)
    (click : exc (option string)) (Q : string → Prop) :
  (∀ u, u ∈ acc → Q u) →
  (∀ nav u, click = Ok (Some nav) →
            navigated_to base_url current_path nav u → Q u) →
  ∀ u, u ∈ add_navigation base_url current_path acc click → Q u.
Proof.
  intros Hacc Hnew u. unfold add_navigation.
  destruct click as [[nav|]|e]; try apply Hacc.
  destruct (String.eqb_spec nav "") as [|Hne]; simpl; [apply Hacc|].
  destruct (contains current_path nav) eqn:Hc; [|apply Hacc].
  intros Hu. apply elem_of_union in Hu as [Hu|Hu]; [|exact (Hacc u Hu)].
  apply elem_of_singleton in Hu as ->.
  apply (Hnew nav); [reflexivity|]. repeat split; assumption.
Qed.

Lemma fold_left_elem_inv {B} (f : gset string → B → gset string)
    (l : list B) (acc : gset string) (Q : string → Prop) :
  (∀ a b, b ∈ l → (∀ u, u ∈ a → Q u) → ∀ u, u ∈ f a b → Q u) →
  (∀ u, u ∈ acc → Q u) →
  ∀ u, u ∈ fold_left f l acc → Q u.
Proof.
  revert acc. induction l as [|b l IH]; intros acc Hstep Hacc; [exact Hacc|].
  simpl. apply IH.
  - intros a b' Hb'. apply Hstep. apply elem_of_cons. auto.
  - apply (Hstep acc b); [apply elem_of_cons; auto|exact Hacc].
Qed.

(** X12.  Every link [extract_links_from_bundle] returns is a link of the
    page, or was constructed from a slug as base_url + path + / + slug with
    a cleaned slug of at least five characters, all letters, digits or
    hyphens and one of them a hyphen, or comes from the navigation log of
    one of the first three clicks.  The count is the number of links, and
    the links are sorted without duplicate. *)
Theorem bundle_links_origin (page : BundleBrowser) (url : string)
    (parsed : ParseResult) (u : string) :
  urlparse url "" = Ok parsed →
  u ∈ links (extract_links_from_bundle page url) →
  well_shaped (count (extract_links_from_bundle page url))
              (links (extract_links_from_bundle page url)) ∧
  ((∃ page_links, bb_page_links page = Ok page_links ∧ u ∈ page_links) ∨
   (∃ slug, constructed_from (scheme parsed +:+ "://" +:+ netloc parsed)
              (rstrip "/" (path parsed)) slug u) ∨
   (∃ clicks nav, bb_clicks page = Ok clicks ∧ Ok (Some nav) ∈ firstn 3 clicks ∧
                  navigated_to (scheme parsed +:+ "://" +:+ netloc parsed)
                    (rstrip "/" (path parsed)) nav u)).
Proof.
  intros Hparse. unfold extract_links_from_bundle. rewrite Hparse.
  simpl exc_bind.
  match goal with
  | |- u ∈ links (try_except ?m ?h) → _ => destruct m as [r|e] eqn:E
  end; simpl try_except; [|intros Hu; apply elem_of_nil in Hu; contradiction].
  apply exc_bind_Ok in E as (? & _ & E).
  apply exc_bind_Ok in E as ([href_links blog_posts] & Hinner & E).
  apply exc_bind_Ok in E as (? & _ & E).
  injection E as <-. simpl links. simpl count.
  intros Hu. split; [apply well_shaped_set|].
  apply sorted_set_elem_of in Hu.
  destruct (bb_close page); [|discriminate].
  apply exc_bind_Ok in Hinner as (? & _ & Hinner).
  apply exc_bind_Ok in Hinner as (script_sources & _ & Hinner).
  apply exc_bind_Ok in Hinner as (? & _ & Hinner).
  apply exc_bind_Ok in Hinner as (page_links & Hpl & Hinner).
  apply exc_bind_Ok in Hinner as (? & _ & Hinner).
  injection Hinner as <- <-.
  set (base := scheme parsed +:+ "://" +:+ netloc parsed) in *.
  set (cp := rstrip "/" (path parsed)) in *.
  destruct (urlparse_parts_no_hash url parsed Hparse) as (Hs & Hn & Hp & _).
  assert (Hbase : contains "#" (base +:+ cp) = false).
  { apply not_contains_chr. subst base cp.
    rewrite !forall_chr_app, Hs, Hn, (rstrip_forall _ _ _ Hp). reflexivity. }
  assert (Hposts0 : ∀ v,
            v ∈ fold_left (construct base cp)
                  (set_iter (fold_left scan_script
                     (flat_map (fun script =>
                        match script with
                        | Inline content => [content]
                        | External src =>
                            match bb_fetch_script page src with
                            | Some js_content => [js_content]
                            | None => []
                            end
                        end) (firstn 20 script_sources)) ∅)) ∅ →
            ∃ slug, constructed_from base cp slug v).
  { apply fold_left_elem_inv.
    - intros acc slug _ Hacc. apply (construct_inv base cp acc slug _ Hbase Hacc).
      intros v Hv. exists slug. exact Hv.
    - intros v Hv. apply elem_of_empty in Hv. contradiction. }
  match type of Hu with
  | _ ∈ fold_left _ (set_iter ?posts) _ =>
      assert (Hposts : ∀ v, v ∈ posts →
                (∃ slug, constructed_from base cp slug v) ∨
                (∃ clicks nav, bb_clicks page = Ok clicks ∧
                               Ok (Some nav) ∈ firstn 3 clicks ∧
                               navigated_to base cp nav v))
  end.
  { destruct (bb_clicks page) as [clicks|e]; [|intros v Hv; left; exact (Hposts0 v Hv)].
    apply fold_left_elem_inv.
    - intros acc click Hclick Hacc.
      apply (add_navigation_inv base cp acc click _ Hacc).
      intros nav v -> Hnav. right. exists clicks, nav. auto.
    - intros v Hv. left. exact (Hposts0 v Hv). }
  revert Hu. generalize u. apply fold_left_elem_inv.
  - intros acc post Hpost Hacc v.
    destruct (keep_post base cp post); [|apply Hacc].
    intros Hv. apply elem_of_union in Hv as [Hv|Hv]; [|exact (Hacc v Hv)].
    apply elem_of_singleton in Hv as ->. right.
    apply Hposts, set_iter_elem_of, Hpost.
  - intros v Hv. left. eexists. split; [exact Hpl|].
    apply elem_of_list_to_set in Hv. exact Hv.
Qed.

Lemma add_navigation_nil_clicks (base_url current_path : string)
    (blog_posts : gset string) :
  fold_left (add_navigation base_url current_path)
    (firstn 3 ([] : list (exc (option string)))) blog_posts = blog_posts.
Proof. reflexivity. Qed.

(** X13.  When a step of the browser raises (launching, loading the
    page, reading the script sources, going back, reading the links,
    patching the history, closing) or the debug file cannot be written,
    the result of [extract_links_from_bundle] is a failure of the method
    bundle_parsing with no link, whatever had been extracted.  Only the
    clicks may fail: the result is then what it is for a page without
    clickable element. *)
Theorem bundle_failures (page : BundleBrowser) (url : string) :
  ((∃ e, bb_launch page = Raise e) ∨ (∃ e, bb_load page = Raise e) ∨
   (∃ e, bb_script_sources page = Raise e) ∨ (∃ e, bb_back page = Raise e) ∨
   (∃ e, bb_page_links page = Raise e) ∨ (∃ e, bb_patch_history page = Raise e) ∨
   (∃ e, bb_close page = Raise e) ∨ (∃ e, bb_save_debug page = Raise e) →
   success (extract_links_from_bundle page url) = false ∧
   method (extract_links_from_bundle page url) = Some "bundle_parsing" ∧
   links (extract_links_from_bundle page url) = [] ∧
   count (extract_links_from_bundle page url) = 0 ∧
   error (extract_links_from_bundle page url) ≠ None) ∧
  (∀ e, bb_clicks page = Raise e →
     extract_links_from_bundle page url
     = extract_links_from_bundle
         (mkBundleBrowser (bb_launch page) (bb_load page) (bb_script_sources page)
            (bb_fetch_script page) (bb_back page) (bb_page_links page)
            (bb_patch_history page) (Ok []) (bb_close page) (bb_save_debug page))
         url).
Proof.
  split.
  - intros Hraise. unfold extract_links_from_bundle.
    destruct (urlparse url "") as [parsed|e0]; simpl exc_bind;
      [|repeat split; discriminate].
    destruct (bb_launch page) as [[]|e1] eqn:E1; simpl exc_bind;
      [|repeat split; discriminate].
    destruct (bb_close page) as [[]|e2] eqn:E2; simpl exc_bind;
      [|repeat split; discriminate].
    destruct (bb_load page) as [[]|e3] eqn:E3; simpl exc_bind;
      [|repeat split; discriminate].
    destruct (bb_script_sources page) as [srcs|e4] eqn:E4; simpl exc_bind;
      [|repeat split; discriminate].
    destruct (bb_back page) as [[]|e5] eqn:E5; simpl exc_bind;
      [|repeat split; discriminate].
    destruct (bb_page_links page) as [pl|e6] eqn:E6; simpl exc_bind;
      [|repeat split; discriminate].
    destruct (bb_patch_history page) as [[]|e7] eqn:E7; simpl exc_bind;
      [|repeat split; discriminate].
    destruct (bb_save_debug page) as [[]|e8] eqn:E8; simpl exc_bind;
      [|repeat split; discriminate].
    exfalso.
    destruct Hraise as [[e He]|[[e He]|[[e He]|[[e He]|[[e He]|[[e He]|[[e He]|[e He]]]]]]]];
      discriminate He.
  - intros e He. unfold extract_links_from_bundle. simpl. rewrite He. reflexivity.
Qed.

End BundleProperties.

Lemma bundle_links_origin_witness :
  "https://site.org/blog/my-post-title"
    ∈ links (extract_links_from_bundle (bundle_page (slug_object +:+ padding))
               "https://site.org/blog") ∧
  well_shaped
    (count (extract_links_from_bundle (bundle_page (slug_object +:+ padding))
              "https://site.org/blog"))
    (links (extract_links_from_bundle (bundle_page (slug_object +:+ padding))
              "https://site.org/blog")).
Proof.
  assert (Hin : "https://site.org/blog/my-post-title"
                  ∈ links (extract_links_from_bundle
                             (bundle_page (slug_object +:+ padding))
                             "https://site.org/blog")).
  { apply (bool_decide_unpack _). vm_compute. exact I. }
  split; [exact Hin|].
  assert (Hp : Urllib.urlparse "https://site.org/blog" ""
               = Ok (Urllib.mkParse "https" "site.org" "/blog" "" "" ""))
    by (vm_compute; reflexivity).
  exact (proj1 (bundle_links_origin _ _ _ _ Hp Hin)).
Defined.

Lemma bundle_failures_witness :
  success (extract_links_from_bundle
             (mkBundleBrowser (Ok tt) (Ok tt) (Ok []) (fun _ => None) (Ok tt)
                (Ok ["https://site.org/blog/a"]) (Ok tt) (Ok []) (Ok tt)
                (Raise (mkExn OtherException "No such file or directory")))
             "https://site.org/blog") = false.
Proof.
  refine (proj1 (proj1 (bundle_failures _ "https://site.org/blog") _)).
  do 7 right. eexists. reflexivity.
Defined.

(** ** The aggregator: what it returns *)

Section HybridProperties.
Context `{PyLib}.
Variable requests_get : string → exc Response.
Variable soup_a_href : string → list string.
Variable extract_nextjs_data extract_dynamic_links : string → LinkResult.

#[local] Abbreviation hybrid :=
  (extract_links_hybrid requests_get soup_a_href extract_nextjs_data
     extract_dynamic_links).
#[local] Abbreviation static := (extract_static_links requests_get soup_a_href).

Lemma merge_result_eq (name label : string) (r : LinkResult)
    (all_links : gset string) (mu errs : list string) :
  merge_result name label r (all_links, mu, errs)
  = (all_links ∪ merged r, mu ++ (if usable r then [name] else []),
     errs ++ error_entry label r).
Proof.
  unfold merge_result, merged, usable, error_entry.
  destruct (success r); simpl.
  - destruct (0 <? count r); simpl; rewrite ?app_nil_r, ?union_empty_r_L; reflexivity.
  - rewrite app_nil_r, union_empty_r_L. reflexivity.
Qed.

Lemma hybrid_eq (url : string) :
  let early := merged (static url) ∪ merged (extract_nextjs_data url) in
  let invoked := size early <? 5 in
  let all_links := if invoked then early ∪ merged (extract_dynamic_links url)
                   else early in
  let errs := error_entry "Static" (static url) ++
              error_entry "Next.js" (extract_nextjs_data url) ++
              (if invoked then error_entry "Dynamic" (extract_dynamic_links url)
               else []) in
  hybrid url =
  ({| h_success := 0 <? size all_links;
      h_url := url;
      h_links := py_sorted (set_iter all_links);
      h_count := size all_links;
      methods_used :=
        (if usable (static url) then ["static"] else []) ++
        (if usable (extract_nextjs_data url) then ["nextjs"] else []) ++
        (if invoked && usable (extract_dynamic_links url) then ["dynamic"] else []);
      errors := match errs with [] => None | _ => Some errs end |},
   if invoked then [StaticStrategy; NextjsStrategy; DynamicStrategy]
   else [StaticStrategy; NextjsStrategy]).
Proof.
  cbv zeta. unfold extract_links_hybrid.
  rewrite !merge_result_eq. simpl fst. rewrite union_empty_l_L.
  destruct (size _ <? 5).
  - simpl. rewrite ?union_empty_l_L, <- ?app_assoc. reflexivity.
  - simpl. rewrite ?union_empty_l_L, ?app_nil_r. reflexivity.
Qed.

(** X14.  [extract_links_hybrid] returns the links of the strategies it
    takes into account: those of the static and of the Next.js result
    when the result is a success with a positive count, and, when these
    are fewer than five different links, those of the dynamic result on
    the same condition.  It invokes the dynamic strategy in that case
    only, and it reports success exactly when it returns a link. *)
Theorem hybrid_merges_strategies (url : string) :
  let early := merged (static url) ∪ merged (extract_nextjs_data url) in
  (snd (hybrid url) = if size early <? 5
                      then [StaticStrategy; NextjsStrategy; DynamicStrategy]
                      else [StaticStrategy; NextjsStrategy]) ∧
  (∀ u, u ∈ h_links (fst (hybrid url)) ↔
        u ∈ early ∨ (size early < 5 ∧ u ∈ merged (extract_dynamic_links url))) ∧
  (h_success (fst (hybrid url)) = true ↔ ∃ u, u ∈ h_links (fst (hybrid url))).
Proof.
  cbv zeta. rewrite hybrid_eq. cbv zeta. simpl fst. simpl snd.
  split; [reflexivity|]. simpl h_links. simpl h_success. split.
  - intros u. rewrite sorted_set_elem_of.
    destruct (size _ <? 5) eqn:E.
    + apply Nat.ltb_lt in E. rewrite elem_of_union. tauto.
    + apply Nat.ltb_ge in E. split; [auto|]. intros [?|[? _]]; [assumption|lia].
  - rewrite Nat.ltb_lt. split.
    + intros Hpos. apply size_pos_elem_of in Hpos as [x Hx].
      exists x. apply sorted_set_elem_of, Hx.
    + intros [u Hu]. apply sorted_set_elem_of in Hu.
      match goal with
      | |- 0 < size ?X => destruct (size X) eqn:Es; [|lia]
      end.
      apply size_empty_iff in Es. set_solver.
Qed.

(** X15.  The bookkeeping of [extract_links_hybrid]: methods_used lists,
    in the order static, nextjs, dynamic, the strategies whose links were
    taken; a strategy that was invoked and failed leaves one entry in
    errors, a strategy that succeeded without link leaves none in either
    list, and errors is None exactly when no invoked strategy failed. *)
Theorem hybrid_methods_and_errors (url : string) :
  let early := merged (static url) ∪ merged (extract_nextjs_data url) in
  methods_used (fst (hybrid url))
  = (if usable (static url) then ["static"] else []) ++
    (if usable (extract_nextjs_data url) then ["nextjs"] else []) ++
    (if (size early <? 5) && usable (extract_dynamic_links url)
     then ["dynamic"] else []) ∧
  (errors (fst (hybrid url)) = None ↔
     success (static url) = true ∧ success (extract_nextjs_data url) = true ∧
     (size early < 5 → success (extract_dynamic_links url) = true)) ∧
  (∀ errs, errors (fst (hybrid url)) = Some errs →
     errs = error_entry "Static" (static url) ++
            error_entry "Next.js" (extract_nextjs_data url) ++
            (if size early <? 5
             then error_entry "Dynamic" (extract_dynamic_links url) else [])).
Proof.
  cbv zeta. rewrite hybrid_eq. cbv zeta. simpl fst.
  split; [reflexivity|]. simpl errors. split.
  - unfold error_entry.
    destruct (success (static url)), (success (extract_nextjs_data url)); simpl;
      try (split; [discriminate|intros (? & ? & ?); discriminate]).
    destruct (size _ <? 5) eqn:E.
    + apply Nat.ltb_lt in E.
      destruct (success (extract_dynamic_links url)); simpl.
      * split; auto.
      * split; [discriminate|]. intros (_ & _ & Hd). specialize (Hd E). discriminate.
    + apply Nat.ltb_ge in E. split; [|reflexivity].
      intros _. split; [reflexivity|]. split; [reflexivity|]. lia.
  - intros errs.
    destruct (error_entry "Static" (static url) ++ _) eqn:E; [discriminate|].
    intros Hs. injection Hs as <-. reflexivity.
Qed.

End HybridProperties.

(** ** scraper_hybrid.py: the Next.js strategy *)

Section NextjsProperties.
Context `{PyLib}.
Import Py Urllib Re.
Variable requests_get : string → exc Response.

(** X16.  [extract_nextjs_data] returns a dictionary whatever happens:
    its count is the number of its links, which are sorted without
    duplicate; when the request raises or is answered with a status from
    400 to 599 the result is a failure of the method nextjs with an error
    text and no link. *)
Theorem nextjs_result_shape (url : string) :
  well_shaped (count (extract_nextjs_data requests_get url))
              (links (extract_nextjs_data requests_get url)) ∧
  (((∃ e, requests_get url = Raise e) ∨
    (∃ r, requests_get url = Ok r ∧
          (400 ≤ resp_status_code r)%Z ∧ (resp_status_code r < 600)%Z)) →
   success (extract_nextjs_data requests_get url) = false ∧
   method (extract_nextjs_data requests_get url) = Some "nextjs" ∧
   error (extract_nextjs_data requests_get url) ≠ None ∧
   links (extract_nextjs_data requests_get url) = [] ∧
   count (extract_nextjs_data requests_get url) = 0).
Proof.
  split.
  - unfold extract_nextjs_data.
    apply (try_except_ind (fun r => well_shaped (count r) (links r))).
    + intros r E. apply exc_bind_Ok in E as (response & _ & E).
      apply exc_bind_Ok in E as (? & _ & E).
      apply exc_bind_Ok in E as (parsed & _ & E).
      apply exc_bind_Ok in E as ([links0 wb] & _ & E).
      injection E as <-. apply well_shaped_set.
    + intros e. apply well_shaped_nil.
  - intros Hreq. unfold extract_nextjs_data.
    destruct Hreq as [[e ->]|(r & -> & Hlo & Hhi)]; cbn [exc_bind try_except].
    + repeat split; discriminate.
    + unfold raise_for_status.
      destruct (400 <=? resp_status_code r)%Z eqn:E1; [|apply Z.leb_gt in E1; lia].
      destruct (resp_status_code r <? 600)%Z eqn:E2; [|apply Z.ltb_ge in E2; lia].
      cbn [andb exc_bind try_except]. repeat split; discriminate.
Qed.

End NextjsProperties.

Section NextjsWalk.
Import Py Urllib Re.

Lemma for_each_ext {A} (f g : A → gset string → exc unit * gset string)
    (l : list A) (links : gset string) :
  (∀ x acc, f x acc = g x acc) → for_each f l links = for_each g l links.
Proof.
  intros Hfg. revert links. induction l as [|x l IH]; intros links; [reflexivity|].
  cbn [for_each]. rewrite Hfg. destruct (g x links) as [[[]|e] acc]; [apply IH|reflexivity].
Qed.

Lemma urlsplit_without_json `{PyLib} (url scheme : string) :
  @urlsplit (without_json _) url scheme = urlsplit url scheme.
Proof.
  unfold urlsplit, checknetloc. cbn [bracketed_netloc_ok nfkc_netloc_ok without_json].
  reflexivity.
Qed.

Lemma urlparse_without_json `{PyLib} (url scheme : string) :
  @urlparse (without_json _) url scheme = urlparse url scheme.
Proof. unfold urlparse. rewrite urlsplit_without_json. reflexivity. Qed.

Lemma normalize_url_without_json `{PyLib} (url : string) :
  @normalize_url (without_json _) url = normalize_url url.
Proof. unfold normalize_url. rewrite urlparse_without_json. reflexivity. Qed.

Lemma blog_match_step_without_json `{PyLib} (base_url m : string)
    (links : gset string) :
  @blog_match_step (without_json _) base_url m links
  = blog_match_step base_url m links.
Proof.
  unfold blog_match_step. rewrite normalize_url_without_json. reflexivity.
Qed.

Lemma next_f_step_unbound `{PyLib} (base_url : string) (links : gset string)
    (m : string) :
  next_f_step base_url false links m
  = @next_f_step (without_json _) base_url false links m.
Proof.
  assert (Hfe :
    for_each (fun pattern_regex links =>
                for_each (@blog_match_step (without_json H) base_url)
                  (findall01 pattern_regex (unescape_payload m)) links)
      blog_patterns links
    = for_each (fun pattern_regex links =>
                  for_each (blog_match_step base_url)
                    (findall01 pattern_regex (unescape_payload m)) links)
        blog_patterns links).
  { apply for_each_ext. intros x acc. apply for_each_ext. intros y acc'.
    apply blog_match_step_without_json. }
  unfold next_f_step. cbv zeta. rewrite Hfe.
  match goal with
  | |- match ?x with _ => _ end = _ => destruct x as [[[]|e] l]
  end; [|reflexivity].
  cbn [json_loads without_json]. destruct (json_loads _); reflexivity.
Qed.

(** X17.  The payloads of the push calls are walked as JSON only when the
    page has a __NEXT_DATA__ script: on a page without one the result of
    [extract_nextjs_data] is what it is with a [json.loads] that rejects
    every text, so it comes from the patterns alone. *)
Theorem nextjs_walk_needs_next_data `{PyLib}
    (requests_get : string → exc Response) (url : string) (response : Response) :
  requests_get url = Ok response →
  finditer next_data_pattern (resp_text response) = [] →
  extract_nextjs_data requests_get url
  = @extract_nextjs_data (without_json _) requests_get url.
Proof.
  intros Hget Hnone. unfold extract_nextjs_data. rewrite Hget. cbn [exc_bind].
  destruct (raise_for_status response); cbn [exc_bind]; [|reflexivity].
  rewrite urlparse_without_json.
  destruct (urlparse url "") as [parsed|e]; cbn [exc_bind]; [|reflexivity].
  rewrite Hnone. cbn [head exc_bind].
  set (base := scheme parsed +:+ "://" +:+ netloc parsed).
  assert (Hfold : ∀ l acc,
            fold_left (next_f_step base false) l acc
            = fold_left (@next_f_step (without_json H) base false) l acc).
  { induction l as [|m l IH]; intros acc; [reflexivity|].
    cbn [fold_left]. rewrite <- next_f_step_unbound. apply IH. }
  rewrite Hfold. reflexivity.
Qed.

End NextjsWalk.


Lemma nextjs_result_shape_witness :
  success (extract_nextjs_data missing_get "https://a.com/blog") = false.
Proof.
  assert (Hreq : (∃ e, missing_get "https://a.com/blog" = Raise e) ∨
                 (∃ r, missing_get "https://a.com/blog" = Ok r ∧
                       (400 ≤ resp_status_code r)%Z ∧ (resp_status_code r < 600)%Z)).
  { right. exists (mkResponse 404 "" "https://a.com/blog").
    split; [reflexivity|]. cbn [resp_status_code]. lia. }
  exact (proj1 (proj2 (nextjs_result_shape missing_get "https://a.com/blog") Hreq)).
Defined.

Lemma nextjs_walk_needs_next_data_witness :
  links (extract_nextjs_data push_get "https://a.com/blog")
    = ["https://a.com/blog/my-first-post"] ∧
  extract_nextjs_data push_get "https://a.com/blog"
  = @extract_nextjs_data (without_json ascii_lib) push_get "https://a.com/blog".
Proof.
  split; [vm_compute; reflexivity|].
  assert (Hnone : Re.finditer next_data_pattern
                    (resp_text (mkResponse 200 push_page "https://a.com/blog")) = [])
    by (vm_compute; reflexivity).
  exact (nextjs_walk_needs_next_data push_get "https://a.com/blog"
           (mkResponse 200 push_page "https://a.com/blog") eq_refl Hnone).
Defined.

(** ** Canonical URLs have no fragment *)

Section NoFragment.
Context `{PyLib}.
Import Py Urllib Re.

Lemma hex_digit_safe (c : ascii) :
  always_safe (hex_digit (nat_of_ascii c / 16)) = true ∧
  always_safe (hex_digit (nat_of_ascii c mod 16)) = true.
Proof. destruct c as [[] [] [] [] [] [] [] []]; split; reflexivity. Qed.

Lemma quote_plus_chars (s : string) : forall_chr quoted_chr (quote_plus s) = true.
Proof.
  induction s as [|c s IH]; [reflexivity|].
  cbn [quote_plus]. destruct (always_safe c) eqn:Hc.
  - rewrite forall_chr_cons, IH. unfold quoted_chr. rewrite Hc. reflexivity.
  - destruct (Ascii.eqb c " ").
    + rewrite forall_chr_cons, IH. reflexivity.
    + destruct (hex_digit_safe c) as [H1 H2].
      rewrite !forall_chr_cons, IH. unfold quoted_chr at 2 3. rewrite H1, H2.
      reflexivity.
Qed.

Lemma Forall_flat_map {A B} (P : B → Prop) (f : A → list B) (l : list A) :
  (∀ x, Forall P (f x)) → Forall P (flat_map f l).
Proof.
  intros Hf. induction l as [|x l IH]; [constructor|].
  cbn [flat_map]. apply Forall_app. split; [apply Hf|exact IH].
Qed.

Lemma urlencode_chars (query : list (string * list string)) :
  forall_chr query_chr (urlencode query) = true.
Proof.
  unfold urlencode. apply join_forall; [reflexivity|].
  apply Forall_flat_map. intros [k v]. apply Forall_forall.
  intros item Hitem. apply list_elem_of_fmap in Hitem as (elt & -> & _).
  rewrite !forall_chr_app.
  rewrite (forall_chr_impl quoted_chr query_chr (quote_plus k)),
          (forall_chr_impl quoted_chr query_chr (quote_plus elt));
    try apply quote_plus_chars;
    try (intros c Hc; unfold query_chr; rewrite Hc; reflexivity).
  reflexivity.
Qed.

Lemma query_chr_not_hash (c : ascii) : query_chr c = true → is_not "#" c = true.
Proof.
  intros Hc. unfold is_not. destruct (Ascii.eqb_spec c "#") as [->|_];
    [discriminate Hc|reflexivity].
Qed.

(** the result of [normalize_url] has no fragment *)
Lemma normalize_url_no_hash (url n : string) :
  normalize_url url = Ok n → contains "#" n = false.
Proof.
  unfold normalize_url. intros E. apply exc_bind_Ok in E as (parsed & Hp & E).
  injection E as <-. apply not_contains_chr.
  destruct (urlparse_parts_no_hash url parsed Hp) as (Hs & Hn & Hpa & Hpr & Hq).
  apply urlunparse_forall; try assumption; try reflexivity.
  - unfold normalize_path. destruct (_ && _); [apply rstrip_forall|]; exact Hpa.
  - apply (forall_chr_impl query_chr); [apply query_chr_not_hash|apply urlencode_chars].
Qed.

Lemma html_link_step_no_hash (base_url base_domain_clean : string)
    (acc acc' : gset string) (url : string) :
  (∀ u, u ∈ acc → contains "#" u = false) →
  html_link_step base_url base_domain_clean acc url = Ok acc' →
  ∀ u, u ∈ acc' → contains "#" u = false.
Proof.
  intros Hacc E. unfold html_link_step in E. cbv zeta in E.
  destruct (_ || _); [injection E as <-; exact Hacc|].
  destruct (contains "#" (html_unescape url)); [injection E as <-; exact Hacc|].
  apply exc_bind_Ok in E as (absolute_url & _ & E).
  destruct (any_in unwanted_patterns _); [injection E as <-; exact Hacc|].
  injection E as <-.
  apply (try_except_ind (fun s : gset string => ∀ u, u ∈ s → contains "#" u = false));
    [|intros _; exact Hacc].
  intros s E. apply exc_bind_Ok in E as (parsed & _ & E).
  destruct (_ || _); [|injection E as <-; exact Hacc].
  destruct (String.eqb _ base_domain_clean); [|injection E as <-; exact Hacc].
  apply exc_bind_Ok in E as (n & Hn & E). injection E as <-.
  intros u Hu. apply elem_of_union in Hu as [Hu|Hu]; [|exact (Hacc u Hu)].
  apply elem_of_singleton in Hu as ->. exact (normalize_url_no_hash _ _ Hn).
Qed.

Lemma static_link_step_no_hash (url base_domain : string)
    (acc acc' : gset string) (href : string) :
  (∀ u, u ∈ acc → contains "#" u = false) →
  static_link_step url base_domain acc href = Ok acc' →
  ∀ u, u ∈ acc' → contains "#" u = false.
Proof.
  intros Hacc E. unfold static_link_step in E.
  destruct (_ || _); [injection E as <-; exact Hacc|].
  apply exc_bind_Ok in E as (absolute_url & _ & E).
  apply exc_bind_Ok in E as (link_parsed & _ & E).
  destruct (String.eqb _ base_domain); [|injection E as <-; exact Hacc].
  destruct (negb _); [|injection E as <-; exact Hacc].
  apply exc_bind_Ok in E as (n & Hn & E). injection E as <-.
  intros u Hu. apply elem_of_union in Hu as [Hu|Hu]; [|exact (Hacc u Hu)].
  apply elem_of_singleton in Hu as ->. exact (normalize_url_no_hash _ _ Hn).
Qed.

Lemma for_each_inv {A} (P : gset string → Prop)
    (body : A → gset string → exc unit * gset string) (l : list A)
    (links : gset string) :
  (∀ x acc, P acc → P (snd (body x acc))) → P links →
  P (snd (for_each body l links)).
Proof.
  intros Hbody. revert links. induction l as [|x l IH]; intros links Hl; [exact Hl|].
  cbn [for_each]. specialize (Hbody x links Hl).
  destruct (body x links) as [[[]|e] acc]; [apply IH|]; exact Hbody.
Qed.

Lemma add_normalized_no_hash (full_url : string) (links : gset string) :
  (∀ u, u ∈ links → contains "#" u = false) →
  ∀ u, u ∈ snd (match normalize_url full_url with
                | Ok n => (Ok tt, {[n]} ∪ links)
                | Raise e => (Raise e, links)
                end) → contains "#" u = false.
Proof.
  intros Hl. destruct (normalize_url full_url) as [n|e] eqn:En; [|exact Hl].
  cbn [snd]. intros u Hu. apply elem_of_union in Hu as [Hu|Hu]; [|exact (Hl u Hu)].
  apply elem_of_singleton in Hu as ->. exact (normalize_url_no_hash _ _ En).
Qed.

Lemma walk_json_no_hash (base_url : string) (levels : nat) (obj : json)
    (links : gset string) :
  (∀ u, u ∈ links → contains "#" u = false) →
  ∀ u, u ∈ snd (walk_json base_url levels obj links) → contains "#" u = false.
Proof.
  revert obj links. induction levels as [|levels IH]; intros obj links Hl;
    [exact Hl|].
  cbn [walk_json]. destruct obj as [s|items|items|]; try exact Hl.
  - apply (for_each_inv (fun l : gset string => ∀ u, u ∈ l → contains "#" u = false));
      [|exact Hl].
    intros [k v] acc Hacc. cbn [fst snd]. destruct v as [t| | |]; try exact Hacc.
    + destruct (mem k _); [|exact Hacc]. destruct (_ && _); [|exact Hacc].
      destruct (negb _); [|exact Hacc]. apply add_normalized_no_hash, Hacc.
    + apply IH, Hacc.
    + apply IH, Hacc.
  - apply (for_each_inv (fun l : gset string => ∀ u, u ∈ l → contains "#" u = false));
      [|exact Hl].
    intros item acc Hacc. apply IH, Hacc.
Qed.

Lemma next_f_step_no_hash (base_url : string) (walk_bound : bool)
    (links : gset string) (m : string) :
  (∀ u, u ∈ links → contains "#" u = false) →
  ∀ u, u ∈ next_f_step base_url walk_bound links m → contains "#" u = false.
Proof.
  intros Hl. unfold next_f_step. cbv zeta.
  match goal with
  | |- ∀ u, u ∈ match ?x with _ => _ end → _ =>
      assert (Hx : ∀ u, u ∈ snd x → contains "#" u = false); [|destruct x as [[[]|e] acc]]
  end.
  - apply (for_each_inv (fun l : gset string => ∀ u, u ∈ l → contains "#" u = false));
      [|exact Hl].
    intros pattern acc Hacc.
    apply (for_each_inv (fun l : gset string => ∀ u, u ∈ l → contains "#" u = false));
      [|exact Hacc].
    intros mt acc' Hacc'. unfold blog_match_step. cbv zeta.
    destruct (negb _); [|exact Hacc']. destruct (_ && _); [|exact Hacc'].
    apply add_normalized_no_hash, Hacc'.
  - cbn [snd] in Hx. destruct (json_loads _) as [data|]; [|exact Hx].
    destruct walk_bound; [|exact Hx]. apply walk_json_no_hash, Hx.
  - exact Hx.
Qed.

(** X18.  No link that [scrape_url], [extract_static_links] or
    [extract_nextjs_data] returns has a fragment: each is a result of
    [normalize_url], and no '#' occurs in a result of [normalize_url]. *)
Theorem links_have_no_fragment (requests_get : string → exc Response)
    (soup_a_href : string → list string) (url : string) :
  (∀ u n, normalize_url u = Ok n → contains "#" n = false) ∧
  (∀ u, u ∈ links (scrape_url requests_get url) → contains "#" u = false) ∧
  (∀ u, u ∈ links (extract_static_links requests_get soup_a_href url) →
        contains "#" u = false) ∧
  (∀ u, u ∈ links (extract_nextjs_data requests_get url) → contains "#" u = false).
Proof.
  assert (Hnil : ∀ u : string, u ∈ ([] : list string) → contains "#" u = false)
    by (intros u Hu; apply elem_of_nil in Hu; contradiction).
  assert (Hempty : ∀ u : string, u ∈ (∅ : gset string) → contains "#" u = false)
    by (intros u Hu; apply elem_of_empty in Hu; contradiction).
  split; [exact normalize_url_no_hash|]. split; [|split].
  - unfold scrape_url.
    apply (try_except_ind (fun r => ∀ u, u ∈ links r → contains "#" u = false)).
    + intros r E. apply exc_bind_Ok in E as (parsed & _ & E).
      destruct (_ || _); [injection E as <-; exact Hnil|].
      apply exc_bind_Ok in E as (response & _ & E).
      apply exc_bind_Ok in E as (? & _ & E).
      apply exc_bind_Ok in E as (l & Hl & E). injection E as <-. cbn [links].
      unfold extract_links_from_html in Hl.
      apply exc_bind_Ok in Hl as (bp & _ & Hl).
      apply exc_bind_Ok in Hl as (s & Hs & Hl). injection Hl as <-.
      intros u Hu. apply sorted_set_elem_of in Hu. revert u Hu.
      refine (foldM_inv (fun acc : gset string => ∀ u, u ∈ acc → _) _ _ _ _ _ Hempty Hs).
      intros a pattern a' Ha Ea.
      refine (foldM_inv (fun acc : gset string => ∀ u, u ∈ acc → _) _ _ _ _ _ Ha Ea).
      intros b m b' Hb Eb. exact (html_link_step_no_hash _ _ b b' _ Hb Eb).
    + intros e. destruct (exn_cls e); exact Hnil.
  - unfold extract_static_links.
    apply (try_except_ind (fun r => ∀ u, u ∈ links r → contains "#" u = false)).
    + intros r E. apply exc_bind_Ok in E as (parsed & _ & E).
      apply exc_bind_Ok in E as (response & _ & E).
      apply exc_bind_Ok in E as (? & _ & E).
      apply exc_bind_Ok in E as (s & Hs & E). injection E as <-. cbn [links].
      intros u Hu. apply sorted_set_elem_of in Hu. revert u Hu.
      refine (foldM_inv (fun acc : gset string => ∀ u, u ∈ acc → _) _ _ _ _ _ Hempty Hs).
      intros a href a' Ha Ea. exact (static_link_step_no_hash _ _ a a' _ Ha Ea).
    + intros e. exact Hnil.
  - unfold extract_nextjs_data.
    apply (try_except_ind (fun r => ∀ u, u ∈ links r → contains "#" u = false)).
    + intros r E. apply exc_bind_Ok in E as (response & _ & E).
      apply exc_bind_Ok in E as (? & _ & E).
      apply exc_bind_Ok in E as (parsed & _ & E).
      apply exc_bind_Ok in E as ([links0 wb] & H0 & E). injection E as <-.
      cbn [links]. intros u Hu. apply sorted_set_elem_of in Hu. revert u Hu.
      apply fold_left_inv; [intros a m Ha; apply next_f_step_no_hash, Ha|].
      destruct (head _) as [m|]; [|injection H0 as <- _; exact Hempty].
      destruct (json_loads _) as [data|]; [|injection H0 as <- _; exact Hempty].
      pose proof (walk_json_no_hash
                    (scheme parsed +:+ "://" +:+ netloc parsed) 11 data ∅ Hempty)
        as Hw.
      destruct (walk_json _ 11 data ∅) as [[[]|e] acc]; [|discriminate].
      injection H0 as <- _. exact Hw.
    + intros e. exact Hnil.
Qed.

End NoFragment.

Lemma links_have_no_fragment_witness :
  links (extract_static_links fragment_get fragment_soup "https://a.com")
    = ["https://a.com/docs/intro"] ∧
  Py.contains "#" "https://a.com/docs/intro" = false.
Proof.
  assert (E : links (extract_static_links fragment_get fragment_soup "https://a.com")
              = ["https://a.com/docs/intro"]) by (vm_compute; reflexivity).
  split; [exact E|].
  assert (Hin : "https://a.com/docs/intro"
                  ∈ links (extract_static_links fragment_get fragment_soup
                             "https://a.com"))
    by (rewrite E; apply list_elem_of_singleton; reflexivity).
  exact (proj1 (proj2 (proj2 (links_have_no_fragment fragment_get fragment_soup
                                "https://a.com")))
           "https://a.com/docs/intro" Hin).
Defined.

(** ** What [urlsplit] returns, and what it makes of a rebuilt URL *)

Section SplitLemmas.
Import Py Urllib.

Lemma lstrip_id (chars : string) (c : ascii) (s : string) :
  chr_in c chars = false → lstrip chars (String c s) = String c s.
Proof. intros Hc. cbn [lstrip]. rewrite Hc. reflexivity. Qed.

Lemma filter_chr_sat (p : ascii → bool) (s : string) :
  forall_chr p (filter_chr p s) = true.
Proof.
  induction s as [|c s IH]; [reflexivity|].
  cbn [filter_chr]. destruct (p c) eqn:Hc; [|exact IH].
  rewrite forall_chr_cons, Hc, IH. reflexivity.
Qed.

Lemma filter_chr_id (p : ascii → bool) (s : string) :
  forall_chr p s = true → filter_chr p s = s.
Proof.
  induction s as [|c s IH]; [reflexivity|].
  rewrite forall_chr_cons. intros Hs. apply andb_true_iff in Hs as [Hc Hs].
  cbn [filter_chr]. rewrite Hc, (IH Hs). reflexivity.
Qed.

Lemma split1_intro (sep : ascii) (a b : string) :
  forall_chr (is_not sep) a = true → split1 sep (a +:+ String sep b) = Some (a, b).
Proof.
  induction a as [|c a IH].
  - intros _. rewrite app_empty_l. cbn [split1]. rewrite Ascii.eqb_refl. reflexivity.
  - rewrite forall_chr_cons. intros Ha. apply andb_true_iff in Ha as [Hc Ha].
    rewrite app_cons. cbn [split1]. unfold is_not in Hc.
    apply negb_true_iff in Hc. rewrite Hc, (IH Ha). reflexivity.
Qed.

Lemma split1_none_intro (sep : ascii) (s : string) :
  forall_chr (is_not sep) s = true → split1 sep s = None.
Proof.
  induction s as [|c s IH]; [reflexivity|].
  rewrite forall_chr_cons. intros Hs. apply andb_true_iff in Hs as [Hc Hs].
  cbn [split1]. unfold is_not in Hc. apply negb_true_iff in Hc.
  rewrite Hc, (IH Hs). reflexivity.
Qed.

Lemma span_app (p : ascii → bool) (a b : string) :
  forall_chr p a = true →
  (b = "" ∨ ∃ c b', b = String c b' ∧ p c = false) →
  span p (a +:+ b) = (a, b).
Proof.
  intros Ha Hb. induction a as [|c a IH].
  - rewrite app_empty_l. destruct Hb as [->|(c & b' & -> & Hc)]; [reflexivity|].
    cbn [span]. rewrite Hc. reflexivity.
  - rewrite forall_chr_cons in Ha. apply andb_true_iff in Ha as [Hc Ha].
    rewrite app_cons. cbn [span]. rewrite Hc, (IH Ha). reflexivity.
Qed.

Lemma lower_chr_idem (c : ascii) : lower_chr (lower_chr c) = lower_chr c.
Proof. destruct c as [[] [] [] [] [] [] [] []]; reflexivity. Qed.

Lemma lower_idem (s : string) : lower (lower s) = lower s.
Proof.
  induction s as [|c s IH]; [reflexivity|].
  cbn [lower]. rewrite lower_chr_idem, IH. reflexivity.
Qed.

Lemma lower_chr_classes (c : ascii) :
  is_ascii (lower_chr c) = is_ascii c ∧
  (is_alpha c = true → is_alpha (lower_chr c) = true) ∧
  (scheme_chars c = true → scheme_chars (lower_chr c) = true) ∧
  (safe_chr c = true → safe_chr (lower_chr c) = true).
Proof. destruct c as [[] [] [] [] [] [] [] []]; repeat split; intros; assumption || reflexivity. Qed.

Lemma lower_forall (p : ascii → bool) (s : string) :
  (∀ c, p c = true → p (lower_chr c) = true) →
  forall_chr p s = true → forall_chr p (lower s) = true.
Proof.
  intros Hp. induction s as [|c s IH]; [reflexivity|].
  rewrite forall_chr_cons. intros Hs. apply andb_true_iff in Hs as [Hc Hs].
  cbn [lower]. rewrite forall_chr_cons, (Hp c Hc), (IH Hs). reflexivity.
Qed.

Lemma remove_unsafe_eq (s : string) : remove_unsafe s = filter_chr safe_chr s.
Proof. reflexivity. Qed.

Lemma scheme_chars_classes (c : ascii) :
  scheme_chars c = true →
  is_not ":" c = true ∧ is_not "/" c = true ∧ is_not "?" c = true ∧
  is_not "#" c = true ∧ safe_chr c = true.
Proof. destruct c as [[] [] [] [] [] [] [] []]; intros Hc; try discriminate Hc; repeat split. Qed.

Lemma alpha_not_space (c : ascii) :
  is_alpha c = true → chr_in c WHATWG_C0_CONTROL_OR_SPACE = false.
Proof. destruct c as [[] [] [] [] [] [] [] []]; intros Hc; try discriminate Hc; reflexivity. Qed.

End SplitLemmas.

Section SplitFacts.
Context `{PyLib}.
Import Py Urllib.

Lemma safe_not_hash_slash (p : ascii → bool) (s : string) :
  forall_chr (fun c => negb (chr_in c "/?#")) s = true →
  forall_chr (is_not "/") s = true ∧ forall_chr (is_not "?") s = true ∧
  forall_chr (is_not "#") s = true.
Proof.
  intros Hs. repeat split; refine (forall_chr_impl _ _ s _ Hs); intros c Hc;
    destruct c as [[] [] [] [] [] [] [] []]; try discriminate Hc; reflexivity.
Qed.

(** what is known of the parts [urlsplit] returns *)
Lemma urlsplit_facts (url : string) (sr : SplitResult) :
  urlsplit url "" = Ok sr →
  scheme_ok (s_scheme sr) ∧ netloc_ok (s_netloc sr) ∧
  forall_chr safe_chr (s_scheme sr) = true ∧
  forall_chr safe_chr (s_netloc sr) = true ∧
  forall_chr safe_chr (s_path sr) = true ∧
  forall_chr (is_not "?") (s_path sr) = true ∧
  forall_chr (is_not "#") (s_path sr) = true.
Proof.
  unfold urlsplit. intros Hsr.
  set (url0 := remove_unsafe (lstrip WHATWG_C0_CONTROL_OR_SPACE url)) in Hsr.
  assert (H0 : forall_chr safe_chr url0 = true) by apply filter_chr_sat.
  change (remove_unsafe (strip WHATWG_C0_CONTROL_OR_SPACE "")) with "" in Hsr.
  match type of Hsr with
  | (let '(_, _) := ?m in _) = _ => set (X := m) in Hsr
  end.
  assert (HX : scheme_ok (fst X) ∧ forall_chr safe_chr (fst X) = true ∧
               forall_chr safe_chr (snd X) = true).
  { subst X. destruct (split1 ":" url0) as [[[|c0 pre] rest]|] eqn:Es;
      try (split; [left; reflexivity|split; [reflexivity|exact H0]]).
    destruct (split1_forall safe_chr ":" url0 _ _ Es H0) as [Hpre Hrest].
    destruct (is_ascii c0 && is_alpha c0
              && forall_chr scheme_chars (String c0 pre)) eqn:Hc;
      [|split; [left; reflexivity|split; [reflexivity|exact H0]]].
    cbn [fst snd]. split; [|split; [|exact Hrest]].
    - right. exists (lower_chr c0), (lower pre). split; [reflexivity|].
      split; [|apply lower_idem].
      apply andb_true_iff in Hc as [Hc Hall]. apply andb_true_iff in Hc as [Ha Hb].
      destruct (lower_chr_classes c0) as (E1 & E2 & _).
      rewrite E1, Ha, (E2 Hb). cbn [andb].
      apply (lower_forall scheme_chars (String c0 pre)); [|exact Hall].
      intros c. apply lower_chr_classes.
    - apply (lower_forall safe_chr (String c0 pre)); [|exact Hpre].
      intros c. apply lower_chr_classes. }
  destruct X as [sch u1]. cbn [fst snd] in HX. destruct HX as (Hsch & Hschs & Hu1).
  apply exc_bind_Ok in Hsr as ([nl u2] & Hnl & Hsr).
  assert (Hn : forall_chr (fun c => negb (chr_in c "/?#")) nl = true ∧
               ((contains "[" nl && negb (contains "]" nl))
                || (contains "]" nl && negb (contains "[" nl))) = false ∧
               (contains "[" nl && contains "]" nl = true →
                bracketed_netloc_ok nl = true) ∧
               forall_chr safe_chr nl = true ∧ forall_chr safe_chr u2 = true).
  { destruct (startswith u1 "//").
    - unfold splitnetloc in Hnl.
      pose proof (span_forall (fun c => negb (chr_in c "/?#")) (drop 2 u1)) as Hsp.
      destruct (span_forall_both safe_chr (fun c => negb (chr_in c "/?#"))
                  (drop 2 u1) (drop_forall _ 2 _ Hu1)) as [Hs1 Hs2].
      destruct (span _ (drop 2 u1)) as [n r]. cbn [fst snd] in *.
      cbv zeta in Hnl.
      destruct ((contains "[" n && negb (contains "]" n))
                || (contains "]" n && negb (contains "[" n))) eqn:Hbr;
        [discriminate|].
      destruct (contains "[" n && contains "]" n) eqn:Hboth.
      + destruct (bracketed_netloc_ok n) eqn:Hok; try rewrite Hok in Hnl;
          [|discriminate Hnl].
        injection Hnl as <- <-. repeat split; auto.
      + injection Hnl as <- <-. repeat split; auto. intros Hf.
        rewrite Hboth in Hf. discriminate Hf.
    - injection Hnl as <- <-. repeat split; auto. intros Hf. discriminate Hf. }
  destruct Hn as (Hn1 & Hn2 & Hn3 & Hn4 & Hu2).
  assert (H3 : forall_chr (is_not "#")
                 (fst (match split1 "#" u2 with
                       | Some (a, b) => (a, b) | None => (u2, "") end)) = true ∧
               forall_chr safe_chr
                 (fst (match split1 "#" u2 with
                       | Some (a, b) => (a, b) | None => (u2, "") end)) = true).
  { destruct (split1 "#" u2) as [[a b]|] eqn:E3; cbn [fst].
    - split; [exact (split1_fst "#" u2 a b E3)|].
      exact (proj1 (split1_forall safe_chr "#" u2 a b E3 Hu2)).
    - split; [exact (split1_none "#" u2 E3)|exact Hu2]. }
  destruct (match split1 "#" u2 with Some (a, b) => (a, b) | None => (u2, "") end)
    as [u3 frag]. cbn [fst] in H3. destruct H3 as [H3h H3s].
  assert (H4 : forall_chr (is_not "#")
                 (fst (match split1 "?" u3 with
                       | Some (a, b) => (a, b) | None => (u3, "") end)) = true ∧
               forall_chr safe_chr
                 (fst (match split1 "?" u3 with
                       | Some (a, b) => (a, b) | None => (u3, "") end)) = true ∧
               forall_chr (is_not "?")
                 (fst (match split1 "?" u3 with
                       | Some (a, b) => (a, b) | None => (u3, "") end)) = true).
  { destruct (split1 "?" u3) as [[a b]|] eqn:E4; cbn [fst].
    - split; [exact (proj1 (split1_forall _ "?" u3 a b E4 H3h))|].
      split; [exact (proj1 (split1_forall _ "?" u3 a b E4 H3s))|].
      exact (split1_fst "?" u3 a b E4).
    - split; [exact H3h|]. split; [exact H3s|exact (split1_none "?" u3 E4)]. }
  destruct (match split1 "?" u3 with Some (a, b) => (a, b) | None => (u3, "") end)
    as [u4 q]. cbn [fst] in H4. destruct H4 as (H4h & H4s & H4q).
  apply exc_bind_Ok in Hsr as ([] & Hck & Hsr). injection Hsr as <-.
  cbn [s_scheme s_netloc s_path]. unfold netloc_ok. repeat split; auto.
Qed.

(** what is known of the parts [urlparse] returns *)
Lemma urlparse_facts (url : string) (parsed : ParseResult) :
  urlparse url "" = Ok parsed →
  scheme_ok (scheme parsed) ∧ netloc_ok (netloc parsed) ∧
  forall_chr safe_chr (scheme parsed) = true ∧
  forall_chr safe_chr (netloc parsed) = true ∧
  forall_chr safe_chr (path parsed) = true ∧
  forall_chr safe_chr (params parsed) = true ∧
  forall_chr (is_not "?") (path parsed) = true ∧
  forall_chr (is_not "?") (params parsed) = true ∧
  forall_chr (is_not "#") (path parsed) = true ∧
  forall_chr (is_not "#") (params parsed) = true.
Proof.
  unfold urlparse. intros E. apply exc_bind_Ok in E as (sr & Hsr & E).
  destruct (urlsplit_facts url sr Hsr) as (F1 & F2 & F3 & F4 & F5 & F6 & F7).
  destruct (splitparams_forall safe_chr (s_path sr) F5) as [S1 S2].
  destruct (splitparams_forall (is_not "?") (s_path sr) F6) as [Q1 Q2].
  destruct (splitparams_forall (is_not "#") (s_path sr) F7) as [G1 G2].
  destruct (_ && _); [destruct (splitparams _) as [a b]|];
    injection E as <-; cbn [scheme netloc path params fst snd] in *;
    (split; [exact F1|]); (split; [exact F2|]); repeat split; auto.
Qed.

End SplitFacts.

Section Rebuilt.
Context `{PyLib}.
Import Py Urllib.

(** the scheme [urlsplit] finds in a URL that starts with a scheme as it
    returns them, or with two slashes *)
Lemma scheme_of_rebuilt (sch body : string) :
  scheme_ok sch → startswith body "//" = true →
  match split1 ":" ((if negb (String.eqb sch "") then sch +:+ ":" else "") +:+ body) with
  | Some (String c0 pre, rest) =>
      if is_ascii c0 && is_alpha c0 && forall_chr scheme_chars (String c0 pre)
      then (lower (String c0 pre), rest)
      else ("", (if negb (String.eqb sch "") then sch +:+ ":" else "") +:+ body)
  | _ => ("", (if negb (String.eqb sch "") then sch +:+ ":" else "") +:+ body)
  end = (sch, body).
Proof.
  intros [->|(c0 & pre & -> & Hc & Hlow)] Hbody.
  - cbn [String.eqb negb]. rewrite app_empty_l.
    apply startswith_inv in Hbody as [r ->].
    change ("//" +:+ r) with (String "/" (String "/" r)).
    cbn [split1]. change (Ascii.eqb "/" ":") with false. cbv iota.
    destruct (split1 ":" r) as [[a b]|]; reflexivity.
  - change (negb (String.eqb (String c0 pre) "")) with true. cbv iota.
    rewrite app_assoc_string.
    assert (Hcolon : forall_chr (is_not ":") (String c0 pre) = true).
    { apply andb_true_iff in Hc as [_ Hall].
      refine (forall_chr_impl _ _ _ _ Hall). intros c Hs.
      apply scheme_chars_classes, Hs. }
    change (":" +:+ body) with (String ":" body).
    rewrite (split1_intro ":" (String c0 pre) body Hcolon).
    rewrite Hc, Hlow. reflexivity.
Qed.

Lemma rebuilt_head_not_space (sch body : string) :
  scheme_ok sch → startswith body "//" = true →
  lstrip WHATWG_C0_CONTROL_OR_SPACE
    ((if negb (String.eqb sch "") then sch +:+ ":" else "") +:+ body)
  = (if negb (String.eqb sch "") then sch +:+ ":" else "") +:+ body.
Proof.
  intros [->|(c0 & pre & -> & Hc & Hlow)] Hbody.
  - cbn [String.eqb negb]. rewrite app_empty_l.
    apply startswith_inv in Hbody as [r ->].
    change ("//" +:+ r) with (String "/" (String "/" r)).
    apply lstrip_id. reflexivity.
  - change (negb (String.eqb (String c0 pre) "")) with true. cbv iota.
    rewrite app_assoc_string, app_cons. apply lstrip_id.
    apply andb_true_iff in Hc as [Hc _]. apply andb_true_iff in Hc as [_ Hb].
    apply alpha_not_space, Hb.
Qed.

Lemma eqb_empty_false (s : string) : String.eqb s "" = false → ∃ c r, s = String c r.
Proof. destruct s as [|c r]; [discriminate|]. eauto. Qed.

(** [urlsplit] of a URL put together from a scheme, a netloc, a rooted
    path and a query gives these parts back *)
Lemma urlsplit_rebuilt (sch nl rest q : string) :
  scheme_ok sch → netloc_ok nl →
  forall_chr safe_chr sch = true → forall_chr safe_chr nl = true →
  forall_chr safe_chr rest = true → forall_chr safe_chr q = true →
  (rest = "" ∨ startswith rest "/" = true) →
  forall_chr (is_not "?") rest = true → forall_chr (is_not "#") rest = true →
  forall_chr (is_not "#") q = true →
  urlsplit ((if negb (String.eqb sch "") then sch +:+ ":" else "") +:+
            ("//" +:+ nl +:+ rest +:+ (if negb (String.eqb q "") then "?" +:+ q else "")))
           "" = Ok (mkSplit sch nl rest q "").
Proof.
  intros Hsch (Hn1 & Hn2 & Hn3 & Hn4) Ss Sn Sr Sq Hroot Hrq Hrh Hqh.
  set (Q := if negb (String.eqb q "") then "?" +:+ q else "").
  set (body := "//" +:+ nl +:+ rest +:+ Q).
  assert (Hbody : startswith body "//" = true) by apply startswith_app.
  assert (SQ : forall_chr safe_chr Q = true ∧ forall_chr (is_not "#") Q = true).
  { subst Q. destruct (String.eqb q ""); cbn [negb]; [split; reflexivity|].
    change ("?" +:+ q) with (String "?" q). rewrite !forall_chr_cons, Sq, Hqh.
    split; reflexivity. }
  destruct SQ as [SQ HQh].
  assert (Sall : forall_chr safe_chr
                   ((if negb (String.eqb sch "") then sch +:+ ":" else "") +:+ body) = true).
  { rewrite forall_chr_app. apply andb_true_iff. split.
    - destruct (String.eqb sch ""); cbn [negb]; [reflexivity|].
      rewrite forall_chr_app, Ss. reflexivity.
    - subst body. rewrite !forall_chr_app, Sn, Sr, SQ. reflexivity. }
  assert (Htail : rest +:+ Q = "" ∨
                  ∃ c b', rest +:+ Q = String c b' ∧ negb (chr_in c "/?#") = false).
  { destruct Hroot as [->|Hr].
    - rewrite app_empty_l. subst Q. destruct (String.eqb q ""); cbn [negb]; [left; reflexivity|].
      right. exists "?"%char, q. split; reflexivity.
    - apply startswith_inv in Hr as [r ->]. right. exists "/"%char, (r +:+ Q).
      split; reflexivity. }
  unfold urlsplit.
  rewrite (rebuilt_head_not_space sch body Hsch Hbody).
  rewrite remove_unsafe_eq, (filter_chr_id _ _ Sall).
  change (remove_unsafe (strip WHATWG_C0_CONTROL_OR_SPACE "")) with "".
  rewrite (scheme_of_rebuilt sch body Hsch Hbody).
  cbv beta iota. rewrite Hbody.
  unfold splitnetloc.
  replace (drop 2 body) with (nl +:+ (rest +:+ Q)) by reflexivity.
  rewrite (span_app _ nl (rest +:+ Q) Hn1 Htail).
  cbv beta iota zeta. rewrite Hn2.
  assert (Hnet : (if contains "[" nl && contains "]" nl
                  then if bracketed_netloc_ok nl then Ok (nl, rest +:+ Q)
                       else Raise (ValueError "Invalid bracketed host")
                  else Ok (nl, rest +:+ Q)) = Ok (nl, rest +:+ Q)).
  { destruct (contains "[" nl && contains "]" nl) eqn:Hb; [|reflexivity].
    rewrite (Hn3 eq_refl). reflexivity. }
  rewrite Hnet. cbn [exc_bind].
  assert (Hh : forall_chr (is_not "#") (rest +:+ Q) = true)
    by (rewrite forall_chr_app, Hrh, HQh; reflexivity).
  rewrite (split1_none_intro "#" _ Hh).
  assert (Hq : match split1 "?" (rest +:+ Q) with
               | Some (a, b) => (a, b) | None => (rest +:+ Q, "") end = (rest, q)).
  { subst Q. destruct (String.eqb q "") eqn:Eq; cbn [negb].
    - apply String.eqb_eq in Eq as ->. rewrite app_empty_r.
      rewrite (split1_none_intro "?" _ Hrq). reflexivity.
    - change ("?" +:+ q) with (String "?" q).
      rewrite (split1_intro "?" rest q Hrq). reflexivity. }
  rewrite Hq. rewrite Hn4. reflexivity.
Qed.

End Rebuilt.

(** ** UTF-8 decoding with replacement *)

Section Utf8.
Import Py Urllib.

Lemma decode_copy (t s : string) :
  decode_go (String.length t) 0 (t +:+ s) = t +:+ decode_go 0 0 s.
Proof.
  induction t as [|c t IH]; [reflexivity|].
  rewrite app_cons. cbn [String.length decode_go]. rewrite IH. reflexivity.
Qed.

Lemma decode_drop (m : nat) (s : string) :
  decode_go 0 m s = decode_go 0 0 (drop m s).
Proof.
  revert s. induction m as [|m IH]; intros s; [reflexivity|].
  destruct s as [|c s]; [reflexivity|]. cbn [decode_go drop]. apply IH.
Qed.

Lemma length_drop (m : nat) (s : string) :
  String.length (drop m s) ≤ String.length s.
Proof.
  revert s. induction m as [|m IH]; intros s; [reflexivity|].
  destruct s as [|c s]; [reflexivity|]. cbn [drop String.length].
  specialize (IH s). lia.
Qed.

(** when the bytes that a character needs are there, they are a prefix
    of the text, whatever follows *)
Lemma valid_tail_split (first : bool) (lead : ascii) (k : nat) (s : string) :
  valid_tail first lead k s = k →
  ∃ t s', s = t +:+ s' ∧ String.length t = k ∧
          ∀ x, valid_tail first lead k (t +:+ x) = k.
Proof.
  revert first s. induction k as [|k IH]; intros first s Hk.
  - exists "", s. repeat split.
  - destruct s as [|c s]; [discriminate Hk|]. cbn [valid_tail] in Hk.
    destruct (if first then second_ok lead c else is_continuation c) eqn:Hc;
      [|discriminate Hk].
    injection Hk as Hk. destruct (IH false s Hk) as (t & s' & -> & Hlen & Hall).
    exists (String c t), s'. split; [reflexivity|].
    split; [cbn [String.length]; rewrite Hlen; reflexivity|].
    intros x. rewrite app_cons. cbn [valid_tail]. rewrite Hc, Hall. reflexivity.
Qed.

(** a well-formed character is decoded to itself *)
Lemma decode_char (c : ascii) (k : nat) (t x : string) :
  utf8_need c = Some (S k) → String.length t = S k →
  (∀ y, valid_tail true c (S k) (t +:+ y) = S k) →
  decode_go 0 0 (String c (t +:+ x)) = String c (t +:+ decode_go 0 0 x).
Proof.
  intros Hn Hlen Hall. cbn [decode_go]. rewrite Hn. cbv zeta.
  rewrite Hall, Nat.eqb_refl, <- Hlen, decode_copy. reflexivity.
Qed.

Lemma decode_replacement (x : string) :
  decode_go 0 0 (replacement +:+ x) = replacement +:+ decode_go 0 0 x.
Proof. reflexivity. Qed.

Lemma decode_idem_bound (n : nat) (s : string) :
  String.length s ≤ n →
  decode_go 0 0 (decode_go 0 0 s) = decode_go 0 0 s.
Proof.
  revert s. induction n as [|n IH]; intros s Hlen.
  { destruct s; [reflexivity|]. cbn [String.length] in Hlen. lia. }
  destruct s as [|c s]; [reflexivity|]. cbn [String.length] in Hlen.
  destruct (utf8_need c) as [[|k]|] eqn:Hn.
  - assert (E : decode_go 0 0 (String c s) = String c (decode_go 0 0 s))
      by (cbn [decode_go]; rewrite Hn; reflexivity).
    rewrite E. cbn [decode_go]. rewrite Hn. fold (decode_go 0 0 (decode_go 0 0 s)).
    rewrite IH by lia. reflexivity.
  - destruct (valid_tail true c (S k) s =? S k) eqn:Hm.
    + apply Nat.eqb_eq in Hm.
      destruct (valid_tail_split true c (S k) s Hm) as (t & s' & -> & Ht & Hall).
      rewrite (decode_char c k t s' Hn Ht Hall).
      rewrite (decode_char c k t _ Hn Ht Hall).
      rewrite IH; [reflexivity|].
      pose proof (len_app t s') as Happ. unfold len in Happ. lia.
    + assert (E : decode_go 0 0 (String c s)
                  = replacement +:+ decode_go 0 0 (drop (valid_tail true c (S k) s) s)).
      { cbn [decode_go]. rewrite Hn. cbv zeta. rewrite Hm, decode_drop. reflexivity. }
      rewrite E, decode_replacement, IH; [reflexivity|].
      pose proof (length_drop (valid_tail true c (S k) s) s). lia.
  - assert (E : decode_go 0 0 (String c s) = replacement +:+ decode_go 0 0 s)
      by (cbn [decode_go]; rewrite Hn; reflexivity).
    rewrite E, decode_replacement, IH by lia. reflexivity.
Qed.

(** what the decoder returns is well-formed *)
Lemma decode_utf8_text (s : string) : utf8_text (decode_utf8_replace s).
Proof. exact (decode_idem_bound (String.length s) s (le_n _)). Qed.

(** an ASCII text is well-formed *)
Lemma ascii_utf8_text (s : string) : forall_chr is_ascii s = true → utf8_text s.
Proof.
  unfold utf8_text, decode_utf8_replace. induction s as [|c s IH]; [reflexivity|].
  rewrite forall_chr_cons. intros Hs. apply andb_true_iff in Hs as [Hc Hs].
  cbn [decode_go]. unfold utf8_need. unfold is_ascii in Hc. rewrite Hc.
  rewrite (IH Hs). reflexivity.
Qed.

End Utf8.

(** ** The round trip of a query *)

Section QueryRoundTrip.
Import Py Urllib.

Lemma replace_plus_cons (c : ascii) (s : string) :
  replace_go "+" " " 0 (String c s)
  = String (if Ascii.eqb c "+" then " "%char else c) (replace_go "+" " " 0 s).
Proof.
  cbn [replace_go]. rewrite prefix_chr_cons.
  destruct (Ascii.eqb c "+"); reflexivity.
Qed.

Lemma quoted_byte (c : ascii) :
  let h1 := hex_digit (nat_of_ascii c / 16) in
  let h2 := hex_digit (nat_of_ascii c mod 16) in
  Ascii.eqb h1 "+" = false ∧ Ascii.eqb h2 "+" = false ∧
  hex_value h1 = Some (nat_of_ascii c / 16) ∧
  hex_value h2 = Some (nat_of_ascii c mod 16) ∧
  ascii_of_nat (16 * (nat_of_ascii c / 16) + nat_of_ascii c mod 16) = c.
Proof.
  destruct c as [[] [] [] [] [] [] [] []]; vm_compute; repeat split; reflexivity.
Qed.

Lemma always_safe_plain (c : ascii) :
  always_safe c = true → Ascii.eqb c "+" = false ∧ Ascii.eqb c "%" = false.
Proof.
  destruct c as [[] [] [] [] [] [] [] []]; vm_compute; intros Hc;
    try discriminate Hc; split; reflexivity.
Qed.

(** the bytes of what [quote_plus] wrote are the bytes of the text *)
Lemma bytes_quote_plus (s : string) :
  unquote_to_bytes (replace "+" " " (quote_plus s)) = s.
Proof.
  unfold unquote_to_bytes, replace. induction s as [|c s IH]; [reflexivity|].
  cbn [quote_plus]. destruct (always_safe c) eqn:Hs.
  - destruct (always_safe_plain c Hs) as [Hp Hq].
    rewrite replace_plus_cons, Hp. cbn [unquote_go]. rewrite Hq, IH. reflexivity.
  - destruct (Ascii.eqb_spec c " ") as [->|Hsp].
    + rewrite replace_plus_cons. cbn [unquote_go]. 
      change (Ascii.eqb "+" "+") with true. cbv iota.
      change (Ascii.eqb " " "%") with false. cbv iota. rewrite IH. reflexivity.
    + destruct (quoted_byte c) as (P1 & P2 & V1 & V2 & Hc).
      rewrite !replace_plus_cons, P1, P2.
      change (Ascii.eqb "%" "+") with false. cbv iota.
      cbn [unquote_go]. change (Ascii.eqb "%" "%") with true. cbv iota.
      rewrite V1, V2, Hc, IH. reflexivity.
Qed.

Lemma unquote_runs_ascii (run s : string) :
  forall_chr is_ascii s = true →
  unquote_runs run s = decode_utf8_replace (unquote_to_bytes (run +:+ s)).
Proof.
  revert run. induction s as [|c s IH]; intros run Hs.
  - rewrite app_empty_r. reflexivity.
  - rewrite forall_chr_cons in Hs. apply andb_true_iff in Hs as [Hc Hs].
    cbn [unquote_runs]. rewrite Hc, (IH _ Hs), app_assoc_string. reflexivity.
Qed.

(** [unquote] of an ASCII text is well-formed *)
Lemma unquote_ascii_text (s : string) :
  forall_chr is_ascii s = true → utf8_text (unquote s).
Proof.
  intros Hs. unfold unquote. destruct (negb (contains "%" s)).
  - apply ascii_utf8_text, Hs.
  - rewrite (unquote_runs_ascii "" s Hs). apply decode_utf8_text.
Qed.

Lemma no_percent_bytes (s : string) :
  contains "%" s = false → unquote_to_bytes s = s.
Proof.
  unfold unquote_to_bytes. induction s as [|c s IH]; [reflexivity|].
  rewrite contains_chr_cons. intros Hs. apply orb_false_iff in Hs as [Hc Hs].
  cbn [unquote_go]. rewrite Hc, (IH Hs). reflexivity.
Qed.

Lemma replace_plus_forall (p : ascii → bool) (s : string) :
  p " "%char = true → forall_chr p s = true →
  forall_chr p (replace "+" " " s) = true.
Proof.
  intros Hp. unfold replace. induction s as [|c s IH]; [reflexivity|].
  rewrite replace_plus_cons, !forall_chr_cons. intros Hs.
  apply andb_true_iff in Hs as [Hc Hs]. rewrite (IH Hs), andb_true_r.
  destruct (Ascii.eqb c "+"); assumption.
Qed.

Lemma quoted_chr_ascii (c : ascii) : quoted_chr c = true → is_ascii c = true.
Proof.
  destruct c as [[] [] [] [] [] [] [] []]; vm_compute; intros Hc;
    try discriminate Hc; reflexivity.
Qed.

(** decoding what [quote_plus] wrote of a well-formed text gives the
    text back *)
Lemma unquote_quote_plus (s : string) :
  utf8_text s → unquote (replace "+" " " (quote_plus s)) = s.
Proof.
  intros Hs. pose proof (bytes_quote_plus s) as Hb.
  assert (Ha : forall_chr is_ascii (replace "+" " " (quote_plus s)) = true).
  { apply replace_plus_forall; [reflexivity|].
    refine (forall_chr_impl _ _ _ quoted_chr_ascii (quote_plus_chars s)). }
  unfold unquote. destruct (contains "%" (replace "+" " " (quote_plus s))) eqn:Hp;
    cbn [negb].
  - rewrite (unquote_runs_ascii "" _ Ha), app_empty_l, Hb. exact Hs.
  - rewrite <- Hb at 2. symmetry. apply no_percent_bytes, Hp.
Qed.

Lemma quoted_not (sep : ascii) (s : string) :
  quoted_chr sep = false → forall_chr (is_not sep) (quote_plus s) = true.
Proof.
  intros Hsep. refine (forall_chr_impl _ _ _ _ (quote_plus_chars s)).
  intros c Hc. unfold is_not. destruct (Ascii.eqb_spec c sep) as [->|_]; [|reflexivity].
  congruence.
Qed.

Lemma split_app_sep (sep : ascii) (a b : string) :
  forall_chr (is_not sep) a = true →
  split sep (a +:+ String sep b) = a :: split sep b.
Proof.
  induction a as [|c a IH]; intros Ha.
  - rewrite app_empty_l. cbn [split]. rewrite Ascii.eqb_refl. reflexivity.
  - rewrite forall_chr_cons in Ha. apply andb_true_iff in Ha as [Hc Ha].
    rewrite app_cons. cbn [split]. unfold is_not in Hc.
    apply negb_true_iff in Hc. rewrite Hc, (IH Ha). reflexivity.
Qed.

Lemma split_single (sep : ascii) (a : string) :
  forall_chr (is_not sep) a = true → split sep a = [a].
Proof.
  induction a as [|c a IH]; intros Ha; [reflexivity|].
  rewrite forall_chr_cons in Ha. apply andb_true_iff in Ha as [Hc Ha].
  cbn [split]. unfold is_not in Hc. apply negb_true_iff in Hc.
  rewrite Hc, (IH Ha). reflexivity.
Qed.

Lemma split_join (sep : ascii) (l : list string) :
  l ≠ [] → Forall (fun w => forall_chr (is_not sep) w = true) l →
  split sep (join (String sep "") l) = l.
Proof.
  unfold join. induction l as [|a l IH]; intros Hne Hall; [congruence|].
  apply Forall_cons in Hall as [Ha Hall].
  destruct l as [|b l].
  - cbn [String.concat]. apply split_single, Ha.
  - change (String.concat (String sep "") (a :: b :: l))
      with (a +:+ String sep (String.concat (String sep "") (b :: l))).
    rewrite (split_app_sep sep a _ Ha), IH; [reflexivity|discriminate|exact Hall].
Qed.

(** the (key, value) pairs of a dict of lists, in the order [urlencode]
    writes them *)
Lemma Forall_flat_map_elem {A B} (P : B → Prop) (f : A → list B) (l : list A) :
  (∀ x, x ∈ l → Forall P (f x)) → Forall P (flat_map f l).
Proof.
  induction l as [|a l IH]; intros Hf; [constructor|].
  cbn [flat_map]. apply Forall_app. split.
  - apply Hf. left.
  - apply IH. intros x Hx. apply Hf. right. exact Hx.
Qed.

Lemma urlencode_items (query : list (string * list string)) :
  flat_map (fun '(k, v) =>
    map (fun elt => quote_plus k +:+ "=" +:+ quote_plus elt) v) query
  = map (fun kv => quote_plus (fst kv) +:+ "=" +:+ quote_plus (snd kv))
      (flat_map (fun kv => map (pair (fst kv)) (snd kv)) query).
Proof.
  induction query as [|[k v] query IH]; [reflexivity|].
  cbn [flat_map fst snd]. rewrite map_app, IH, map_map. reflexivity.
Qed.

Lemma parse_qsl_urlencode (query : list (string * list string)) :
  dict_text query →
  parse_qsl (urlencode query)
  = flat_map (fun kv => map (pair (fst kv)) (snd kv)) query.
Proof.
  intros Htext.
  assert (Hpairs : Forall (fun kv : string * string =>
                             utf8_text (fst kv) ∧ utf8_text (snd kv))
                     (flat_map (fun kv => map (pair (fst kv)) (snd kv)) query)).
  { apply Forall_flat_map_elem. intros [k vs] Hkv.
    unfold dict_text in Htext. rewrite Forall_forall in Htext.
    destruct (Htext _ Hkv) as [Hk Hvs]. cbn [fst snd] in *.
    apply Forall_map. eapply Forall_impl; [exact Hvs|]. intros v Hv. split; assumption. }
  unfold urlencode. rewrite urlencode_items.
  revert Hpairs.
  generalize (flat_map (fun kv => map (pair (fst kv)) (snd kv)) query).
  intros pairs Hpairs.
  set (item := fun kv : string * string =>
                 quote_plus (fst kv) +:+ "=" +:+ quote_plus (snd kv)).
  unfold parse_qsl.
  assert (Hitem : ∀ kv, forall_chr (is_not "&") (item kv) = true).
  { intros [k v]. unfold item. cbn [fst snd]. rewrite !forall_chr_app.
    rewrite (quoted_not "&" k eq_refl), (quoted_not "&" v eq_refl). reflexivity. }
  destruct pairs as [|p pairs]; [reflexivity|].
  assert (Hne : String.eqb (join "&" (map item (p :: pairs))) "" = false).
  { apply String.eqb_neq. intros E.
    assert (Hs : split "&" (join "&" (map item (p :: pairs))) = map item (p :: pairs)).
    { apply split_join; [discriminate|]. apply Forall_map, Forall_forall.
      intros kv _. apply Hitem. }
    rewrite E in Hs. cbn [map split] in Hs. injection Hs as Hs _.
    unfold item in Hs. destruct (quote_plus (fst p)); discriminate Hs. }
  rewrite Hne, split_join; [|discriminate|
    apply Forall_map, Forall_forall; intros kv _; apply Hitem].
  revert Hpairs. generalize (p :: pairs). intros l Hl.
  induction l as [|[k v] l IH]; [reflexivity|].
  apply Forall_cons in Hl as [[Hk Hv] Hl]. cbn [fst snd] in Hk, Hv.
  cbn [map flat_map]. rewrite (IH Hl). unfold item at 1 2. cbn [fst snd].
  assert (Hke : String.eqb (quote_plus k +:+ "=" +:+ quote_plus v) "" = false)
    by (destruct (quote_plus k); reflexivity).
  rewrite Hke. change ("=" +:+ quote_plus v) with (String "=" (quote_plus v)).
  rewrite (split1_intro "=" _ _ (quoted_not "=" k eq_refl)).
  rewrite (unquote_quote_plus k Hk), (unquote_quote_plus v Hv). reflexivity.
Qed.

Lemma dict_append_keys (d : list (string * list string)) (k v : string) :
  map fst (dict_append d k v)
  = if mem k (map fst d) then map fst d else map fst d ++ [k].
Proof.
  induction d as [|[k' vs] d IH]; [reflexivity|].
  cbn [dict_append map fst mem existsb]. fold (mem k (map fst d)).
  destruct (String.eqb k k'); cbn [orb map fst]; [reflexivity|].
  rewrite IH. destruct (mem k (map fst d)); reflexivity.
Qed.

Lemma mem_elem (k : string) (l : list string) : mem k l = true ↔ k ∈ l.
Proof.
  unfold mem. rewrite existsb_exists. split.
  - intros (x & Hx & E). apply String.eqb_eq in E as <-.
    apply list_elem_of_In, Hx.
  - intros Hk. exists k. split; [apply list_elem_of_In, Hk|apply String.eqb_refl].
Qed.

Lemma dict_append_wf (d : list (string * list string)) (k v : string) :
  dict_wf d → dict_wf (dict_append d k v).
Proof.
  intros [Hnd Hne]. split.
  - rewrite dict_append_keys. destruct (mem k (map fst d)) eqn:Hm; [exact Hnd|].
    apply NoDup_app. split; [exact Hnd|]. split; [|apply NoDup_singleton].
    intros x Hx Hx'. apply list_elem_of_singleton in Hx' as ->.
    apply mem_elem in Hx. congruence.
  - clear Hnd. induction d as [|[k' vs] d IH].
    + repeat constructor. discriminate.
    + apply Forall_cons in Hne as [H1 H2]. cbn [dict_append].
      destruct (String.eqb k k'); constructor; auto.
      cbn [snd]. destruct vs; discriminate.
Qed.

Lemma parse_qs_wf (qs : string) : dict_wf (parse_qs qs).
Proof.
  unfold parse_qs.
  assert (Hg : ∀ l d, dict_wf d →
            dict_wf (fold_left (fun d '(name, value) => dict_append d name value) l d)).
  { induction l as [|[k v] l IH]; intros d Hd; [exact Hd|].
    cbn [fold_left]. apply IH, dict_append_wf, Hd. }
  apply Hg. split; constructor.
Qed.

Lemma sublist_map_filter {A B} (g : A → B) (f : A → bool) (l : list A) :
  sublist (map g (List.filter f l)) (map g l).
Proof.
  induction l as [|a l IH]; [constructor|].
  cbn [List.filter map]. destruct (f a); cbn [map]; constructor; exact IH.
Qed.

Lemma filter_wf (f : string * list string → bool) (d : list (string * list string)) :
  dict_wf d → dict_wf (List.filter f d).
Proof.
  intros [Hnd Hne]. split.
  - exact (sublist_NoDup _ _ Hnd (sublist_map_filter fst f d)).
  - apply Forall_forall. intros kv Hkv. rewrite Forall_forall in Hne.
    apply Hne. apply list_elem_of_In in Hkv. apply filter_In in Hkv as [Hkv _].
    apply list_elem_of_In, Hkv.
Qed.

Lemma dict_append_fresh (d : list (string * list string)) (k v : string) :
  k ∉ map fst d → dict_append d k v = d ++ [(k, [v])].
Proof.
  induction d as [|[k' vs] d IH]; intros Hk; [reflexivity|].
  cbn [dict_append]. cbn [map fst] in Hk. apply not_elem_of_cons in Hk as [Hne Hk].
  apply String.eqb_neq in Hne. rewrite Hne, (IH Hk). reflexivity.
Qed.

Lemma dict_append_last (d : list (string * list string)) (k v : string) (vs : list string) :
  k ∉ map fst d → dict_append (d ++ [(k, vs)]) k v = d ++ [(k, vs ++ [v])].
Proof.
  induction d as [|[k' vs'] d IH]; intros Hk.
  - cbn [app dict_append]. rewrite String.eqb_refl. reflexivity.
  - cbn [app dict_append]. cbn [map fst] in Hk. apply not_elem_of_cons in Hk as [Hne Hk].
    apply String.eqb_neq in Hne. rewrite Hne, (IH Hk). reflexivity.
Qed.

Lemma fold_dict_values (acc : list (string * list string)) (k : string)
      (vs ws : list string) :
  k ∉ map fst acc →
  fold_left (fun d '(name, value) => dict_append d name value)
    (map (pair k) ws) (acc ++ [(k, vs)])
  = acc ++ [(k, vs ++ ws)].
Proof.
  intros Hk. revert vs. induction ws as [|w ws IH]; intros vs.
  - rewrite app_nil_r. reflexivity.
  - cbn [map fold_left]. rewrite (dict_append_last acc k w vs Hk), IH, <- app_assoc.
    reflexivity.
Qed.

Lemma fold_dict_pairs (d acc : list (string * list string)) :
  dict_wf d → NoDup (map fst acc) → (∀ k, k ∈ map fst d → k ∉ map fst acc) →
  fold_left (fun d '(name, value) => dict_append d name value)
    (flat_map (fun kv => map (pair (fst kv)) (snd kv)) d) acc
  = acc ++ d.
Proof.
  revert acc. induction d as [|[k vs] d IH]; intros acc [Hnd Hne] Hacc Hdis.
  - rewrite app_nil_r. reflexivity.
  - cbn [flat_map fst snd]. rewrite fold_left_app.
    apply Forall_cons in Hne as [Hvs Hne]. cbn [snd] in Hvs.
    destruct vs as [|v vs]; [congruence|].
    cbn [map fst] in Hnd. apply NoDup_cons in Hnd as [Hk Hnd].
    assert (Hka : k ∉ map fst acc) by (apply Hdis; cbn [map fst]; left).
    cbn [map fold_left]. rewrite (dict_append_fresh acc k v Hka).
    rewrite (fold_dict_values acc k [v] vs Hka). cbn [app].
    rewrite IH.
    + rewrite <- app_assoc. reflexivity.
    + split; assumption.
    + rewrite map_app. cbn [map fst]. apply NoDup_app. split; [exact Hacc|].
      split; [|apply NoDup_singleton].
      intros x Hx Hx'. apply list_elem_of_singleton in Hx' as ->. contradiction.
    + intros x Hx. rewrite map_app. cbn [map fst]. intros Hin.
      apply elem_of_app in Hin as [Hin|Hin].
      * revert Hin. apply Hdis. cbn [map fst]. right. exact Hx.
      * apply list_elem_of_singleton in Hin as ->. contradiction.
Qed.

Lemma parse_qsl_text (qs : string) :
  forall_chr is_ascii qs = true →
  Forall (fun nv : string * string => utf8_text (fst nv) ∧ utf8_text (snd nv))
    (parse_qsl qs).
Proof.
  intros Hqs. unfold parse_qsl. apply Forall_flat_map_elem. intros nv Hnv.
  destruct (String.eqb nv ""); [constructor|].
  assert (Ha : forall_chr is_ascii nv = true).
  { destruct (String.eqb qs ""); [inversion Hnv|].
    pose proof (split_forall is_ascii "&" qs Hqs) as Hall.
    rewrite Forall_forall in Hall. exact (Hall nv Hnv). }
  assert (Hpiece : ∀ x, forall_chr is_ascii x = true →
                        utf8_text (unquote (replace "+" " " x))).
  { intros x Hx. apply unquote_ascii_text, replace_plus_forall; [reflexivity|exact Hx]. }
  destruct (split1 "=" nv) as [[n v]|] eqn:E.
  - destruct (split1_forall is_ascii "=" nv n v E Ha) as [Hn Hv].
    apply Forall_singleton. cbn [fst snd]. split; apply Hpiece; assumption.
  - apply Forall_singleton. cbn [fst snd]. split; apply Hpiece; [exact Ha|reflexivity].
Qed.

Lemma dict_append_text (d : list (string * list string)) (k v : string) :
  dict_text d → utf8_text k → utf8_text v → dict_text (dict_append d k v).
Proof.
  unfold dict_text. intros Hd Hk Hv. induction d as [|[k' vs] d IH].
  - repeat constructor; assumption.
  - apply Forall_cons in Hd as [[H1 H2] Hd]. cbn [fst snd] in H1, H2.
    cbn [dict_append]. destruct (String.eqb k k').
    + constructor; [|exact Hd]. cbn [fst snd]. split; [exact H1|].
      apply Forall_app. split; [exact H2|]. apply Forall_singleton, Hv.
    + constructor; [split; assumption|]. apply IH, Hd.
Qed.

(** the keys and the values [parse_qs] reads in an ASCII query are
    well-formed *)
Lemma parse_qs_text (qs : string) :
  forall_chr is_ascii qs = true → dict_text (parse_qs qs).
Proof.
  intros Hqs. unfold parse_qs. pose proof (parse_qsl_text qs Hqs) as Hl.
  assert (Hg : ∀ l d,
            Forall (fun nv : string * string =>
                      utf8_text (fst nv) ∧ utf8_text (snd nv)) l →
            dict_text d →
            dict_text (fold_left (fun d '(name, value) => dict_append d name value)
                         l d)).
  { induction l as [|[k v] l IH]; intros d Hall Hd; [exact Hd|].
    apply Forall_cons in Hall as [[Hk Hv] Hall]. cbn [fold_left].
    apply IH; [exact Hall|]. apply dict_append_text; assumption. }
  apply Hg; [exact Hl|constructor].
Qed.

Lemma filter_text (f : string * list string → bool) (d : list (string * list string)) :
  dict_text d → dict_text (List.filter f d).
Proof.
  unfold dict_text. intros Hd. apply Forall_forall. intros kv Hkv.
  rewrite Forall_forall in Hd. apply Hd.
  apply list_elem_of_In in Hkv. apply filter_In in Hkv as [Hkv _].
  apply list_elem_of_In, Hkv.
Qed.

(** [parse_qs] reads back the dict that [urlencode] wrote *)
Lemma parse_qs_urlencode (d : list (string * list string)) :
  dict_wf d → dict_text d → parse_qs (urlencode d) = d.
Proof.
  intros Hd Htext. unfold parse_qs. rewrite (parse_qsl_urlencode d Htext).
  rewrite (fold_dict_pairs d [] Hd); [reflexivity|constructor|].
  intros k _ Hk. inversion Hk.
Qed.

End QueryRoundTrip.

Section NormalizeReparse.
Context `{PyLib}.
Import Py Urllib.

Lemma filter_functional (d : list (string * list string)) :
  List.filter (fun '(key, value) =>
    negb (mem (str_lower key) (map lower tracking_params))) d
  = List.filter functional_param d.
Proof. apply filter_ext. intros [k v]. reflexivity. Qed.

Lemma rooted_root (url : string) : rooted url = "" ∨ startswith (rooted url) "/" = true.
Proof.
  unfold rooted. destruct url as [|c r]; [left; reflexivity|].
  change (negb (String.eqb (String c r) "")) with true. cbn [andb].
  destruct (startswith (String c r) "/") eqn:Hs; cbn [negb]; right; [exact Hs|].
  apply startswith_app.
Qed.

Lemma rooted_forall (p : ascii → bool) (url : string) :
  p "/"%char = true → forall_chr p url = true → forall_chr p (rooted url) = true.
Proof.
  intros Hp Hu. unfold rooted. destruct (_ && _); [|exact Hu].
  change ("/" +:+ url) with (String "/" url). rewrite forall_chr_cons, Hp, Hu. reflexivity.
Qed.

Lemma urlunsplit_netloc (sch nl url q : string) :
  nl ≠ "" →
  urlunsplit sch nl url q ""
  = (if negb (String.eqb sch "") then sch +:+ ":" else "") +:+
    ("//" +:+ nl +:+ rooted url +:+ (if negb (String.eqb q "") then "?" +:+ q else "")).
Proof.
  intros Hnl. unfold urlunsplit. apply String.eqb_neq in Hnl. rewrite Hnl.
  cbn [negb orb]. fold (rooted url). cbv zeta.
  change (negb (String.eqb "" "")) with false. cbv iota.
  destruct (String.eqb sch ""), (String.eqb q ""); cbn [negb];
    rewrite ?app_empty_l, ?app_empty_r, ?app_assoc_string; reflexivity.
Qed.

Lemma normalize_path_forall (p : ascii → bool) (s : string) :
  forall_chr p s = true → forall_chr p (normalize_path s) = true.
Proof.
  intros Hs. unfold normalize_path. destruct (_ && _); [|exact Hs].
  apply rstrip_forall, Hs.
Qed.

(** [normalize_url] on a URL with a netloc: the URL it returns, and what
    [urlsplit] finds in it *)
Lemma normalize_url_reparse (u : string) (p : ParseResult) :
  urlparse u "" = Ok p → netloc p ≠ "" →
  let url := if negb (String.eqb (params p) "")
             then normalize_path (path p) +:+ ";" +:+ params p
             else normalize_path (path p) in
  let q := urlencode (List.filter functional_param (parse_qs (query p))) in
  normalize_url u = Ok (urlunsplit (scheme p) (netloc p) url q "") ∧
  urlsplit (urlunsplit (scheme p) (netloc p) url q "") ""
  = Ok (mkSplit (scheme p) (netloc p) (rooted url) q "").
Proof.
  intros Hp Hnl url q.
  destruct (urlparse_facts u p Hp)
    as (F1 & F2 & S1 & S2 & S3 & S4 & Q1 & Q2 & G1 & G2).
  split.
  - unfold normalize_url. rewrite Hp. cbn [exc_bind]. cbv zeta.
    rewrite filter_functional. reflexivity.
  - rewrite (urlunsplit_netloc _ _ _ _ Hnl).
    assert (Hurl : ∀ f, f ";"%char = true → forall_chr f (path p) = true →
              forall_chr f (params p) = true → forall_chr f url = true).
    { intros f Hf H1 H2. subst url. destruct (negb _).
      - rewrite !forall_chr_app, (normalize_path_forall f _ H1), H2.
        change (forall_chr f ";") with (f ";"%char && true). rewrite Hf. reflexivity.
      - apply normalize_path_forall, H1. }
    assert (Hq : forall_chr query_chr q = true) by apply urlencode_chars.
    apply urlsplit_rebuilt; try assumption.
    + apply rooted_forall; [reflexivity|]. apply Hurl; auto.
    + refine (forall_chr_impl _ _ _ _ Hq). intros c.
      destruct c as [[] [] [] [] [] [] [] []]; vm_compute; congruence.
    + apply rooted_root.
    + apply rooted_forall; [reflexivity|]. apply Hurl; auto.
    + apply rooted_forall; [reflexivity|]. apply Hurl; auto.
    + refine (forall_chr_impl _ _ _ _ Hq). apply query_chr_not_hash.
Qed.

End NormalizeReparse.

Section PathRooted.
Context `{PyLib}.
Import Py Urllib.

Lemma span_rest (p : ascii → bool) (s : string) :
  snd (span p s) = "" ∨ ∃ c r, snd (span p s) = String c r ∧ p c = false.
Proof.
  induction s as [|c s IH]; [left; reflexivity|].
  cbn [span]. destruct (p c) eqn:Hc.
  - destruct (span p s) as [a b]. exact IH.
  - right. exists c, s. split; [reflexivity|exact Hc].
Qed.

Lemma startswith_cons (c : ascii) (r : string) : startswith (String c r) (String c "") = true.
Proof. unfold startswith. rewrite prefix_chr_cons. apply Ascii.eqb_refl. Qed.

Lemma split1_rooted (sep : ascii) (s : string) :
  Ascii.eqb "/" sep = false → root_or_empty s →
  root_or_empty (fst (match split1 sep s with
                      | Some (a, b) => (a, b) | None => (s, "") end)).
Proof.
  intros Hsep [->|Hs]; [left; reflexivity|].
  apply startswith_inv in Hs as [r ->]. change ("/" +:+ r) with (String "/" r).
  cbn [split1]. rewrite Hsep.
  destruct (split1 sep r) as [[a b]|]; right; apply startswith_cons.
Qed.

(** after a netloc the path is empty or starts with a slash *)
Lemma urlsplit_path_rooted (url : string) (sr : SplitResult) :
  urlsplit url "" = Ok sr → s_netloc sr ≠ "" → root_or_empty (s_path sr).
Proof.
  unfold urlsplit. intros Hsr.
  match type of Hsr with
  | (let '(_, _) := ?m in _) = _ => destruct m as [sch u1]
  end.
  apply exc_bind_Ok in Hsr as ([nl u2] & Hnl & Hsr).
  assert (Hu2 : nl ≠ "" →
                root_or_empty (fst (match split1 "?"
                   (fst (match split1 "#" u2 with
                         | Some (a, b) => (a, b) | None => (u2, "") end)) with
                 | Some (a, b) => (a, b) | None =>
                   (fst (match split1 "#" u2 with
                         | Some (a, b) => (a, b) | None => (u2, "") end), "") end))).
  { intros Hne. destruct (startswith u1 "//"); [|injection Hnl as <- <-; congruence].
    unfold splitnetloc in Hnl.
    destruct (span_rest (fun c => negb (chr_in c "/?#")) (drop 2 u1)) as [E|(c & r & E & Hc)];
      destruct (span _ (drop 2 u1)) as [n rest]; cbn [snd] in E; subst rest;
      cbv zeta in Hnl.
    - assert (u2 = "") as ->.
      { repeat match type of Hnl with
               | (if ?b then _ else _) = _ => destruct b
               end; try discriminate Hnl; injection Hnl as _ <-; reflexivity. }
      left. reflexivity.
    - assert (u2 = String c r) as ->.
      { repeat match type of Hnl with
               | (if ?b then _ else _) = _ => destruct b
               end; try discriminate Hnl; injection Hnl as _ <-; reflexivity. }
      apply negb_false_iff in Hc. unfold chr_in in Hc. cbn [list_ascii_of_string existsb] in Hc.
      destruct (Ascii.eqb_spec c "/") as [->|_].
      { apply split1_rooted; [reflexivity|]. apply split1_rooted; [reflexivity|].
        right. apply startswith_cons. }
      destruct (Ascii.eqb_spec c "?") as [->|_].
      { cbn [split1]. change (Ascii.eqb "?" "#") with false. cbv iota.
        destruct (split1 "#" r) as [[a b]|]; cbn [fst split1];
          change (Ascii.eqb "?" "?") with true; cbv iota; left; reflexivity. }
      destruct (Ascii.eqb_spec c "#") as [->|_]; [|discriminate Hc].
      cbn [split1]. change (Ascii.eqb "#" "#") with true. cbv iota. left. reflexivity. }
  destruct (match split1 "#" u2 with Some (a, b) => (a, b) | None => (u2, "") end)
    as [u3 frag]. cbn [fst] in Hu2.
  destruct (match split1 "?" u3 with Some (a, b) => (a, b) | None => (u3, "") end)
    as [u4 q]. cbn [fst] in Hu2.
  apply exc_bind_Ok in Hsr as ([] & Hck & Hsr). injection Hsr as <-.
  cbn [s_netloc s_path]. exact Hu2.
Qed.

Lemma removelast_cons2 {A} (x y : A) (l : list A) :
  removelast (x :: y :: l) = x :: removelast (y :: l).
Proof. reflexivity. Qed.

Lemma splitparams_rooted (s : string) :
  root_or_empty s → root_or_empty (fst (splitparams s)).
Proof.
  intros [->|Hs]; [left; reflexivity|].
  unfold splitparams. destruct (split1 ";" _) as [[a b]|]; [|right; exact Hs].
  cbn [fst]. apply startswith_inv in Hs as [r ->].
  change ("/" +:+ r) with (String "/" r). cbn [split].
  change (Ascii.eqb "/" "/") with true. cbv iota.
  destruct (split "/" r) as [|y ys] eqn:E; [destruct (split_not_nil "/" r E)|].
  rewrite removelast_cons2. cbn [app]. right.
  destruct (removelast (y :: ys) ++ [a]) as [|z zs] eqn:Ez.
  - destruct (removelast (y :: ys)); discriminate Ez.
  - unfold join. change (String.concat "/" ("" :: z :: zs))
      with ("" +:+ "/" +:+ String.concat "/" (z :: zs)).
    rewrite app_empty_l. apply startswith_app.
Qed.

Lemma urlparse_path_rooted (url : string) (parsed : ParseResult) :
  urlparse url "" = Ok parsed → netloc parsed ≠ "" → root_or_empty (path parsed).
Proof.
  unfold urlparse. intros E Hne. apply exc_bind_Ok in E as (sr & Hsr & E).
  pose proof (urlsplit_path_rooted url sr Hsr) as Hroot.
  pose proof (splitparams_rooted (s_path sr)) as Hsp.
  destruct (_ && _); [destruct (splitparams _) as [a b]|];
    injection E as <-; cbn [netloc path fst] in *; auto.
Qed.

Lemma normalize_path_rooted (s : string) :
  root_or_empty s → root_or_empty (normalize_path s).
Proof.
  intros Hs. unfold normalize_path. destruct (_ && _); [|exact Hs].
  destruct Hs as [->|Hs]; [left; reflexivity|].
  destruct (rstrip_decomp s) as [k Hk].
  destruct (rstrip "/" s) as [|c r]; [left; reflexivity|].
  right. rewrite Hk in Hs. rewrite app_cons in Hs.
  unfold startswith in *. rewrite prefix_chr_cons in *. exact Hs.
Qed.

Lemma rooted_id (s : string) : root_or_empty s → rooted s = s.
Proof.
  unfold rooted. intros [->|Hs]; [reflexivity|]. rewrite Hs.
  rewrite andb_false_r. reflexivity.
Qed.

Lemma normalize_path_idem (s : string) :
  normalize_path (normalize_path s) = normalize_path s.
Proof.
  unfold normalize_path.
  destruct (negb (String.eqb s "/") && endswith s "/") eqn:E.
  - rewrite rstrip_no_trailing, andb_false_r. reflexivity.
  - rewrite E. reflexivity.
Qed.

Lemma filter_idem {A} (f : A → bool) (l : list A) :
  List.filter f (List.filter f l) = List.filter f l.
Proof.
  induction l as [|a l IH]; [reflexivity|].
  cbn [List.filter]. destruct (f a) eqn:E; [|exact IH].
  cbn [List.filter]. rewrite E, IH. reflexivity.
Qed.

End PathRooted.

Section NormalizeMeaning.
Context `{PyLib}.
Import Py Urllib.

(** [normalize_url] on a URL with a netloc and without path parameters:
    how the URL it returns is parsed *)
Lemma normalize_url_reparse_plain (u : string) (p : ParseResult) :
  urlparse u "" = Ok p → netloc p ≠ "" →
  params p = "" → contains ";" (path p) = false →
  let q := urlencode (List.filter functional_param (parse_qs (query p))) in
  let n := urlunsplit (scheme p) (netloc p) (normalize_path (path p)) q "" in
  normalize_url u = Ok n ∧
  urlparse n "" = Ok (mkParse (scheme p) (netloc p) (normalize_path (path p)) "" q "").
Proof.
  intros Hp Hnl Hpar Hsemi q n.
  destruct (normalize_url_reparse u p Hp Hnl) as [Hn Hs].
  rewrite Hpar in Hn, Hs. change (negb (String.eqb "" "")) with false in Hn, Hs.
  cbv iota in Hn, Hs.
  assert (Hroot : rooted (normalize_path (path p)) = normalize_path (path p))
    by (apply rooted_id, normalize_path_rooted, (urlparse_path_rooted u p Hp Hnl)).
  rewrite Hroot in Hs. split; [exact Hn|].
  unfold urlparse. subst n q. rewrite Hs. cbn [exc_bind s_scheme s_netloc s_path s_query s_fragment].
  assert (Hc : contains ";" (normalize_path (path p)) = false).
  { apply not_contains_chr, normalize_path_forall, not_contains_chr, Hsemi. }
  rewrite Hc, andb_false_r. reflexivity.
Qed.

End NormalizeMeaning.

Section NormalizeTheorems.
Import Py Urllib.





End NormalizeTheorems.
